(** * ona-bot: the incremental log-processing pipeline of [structure.py]

  A shallow embedding of [src/ona-bot/structure.py] and the properties of
  its driver [main]: the checkpoint gate, the chronological ordering, the
  per-entry failure isolation, the workout identifier and the LLM output
  validation.

  Python values are modelled as follows.
  - [str] is [string]; a character stands for a code point below 256, and
    comparison is lexicographic by code point, as in Python.
  - what [json.loads] makes of the model's output is the inductive type
    [json], with Python's dynamic typing: a method a value does not have
    raises. The replies of the sheet are typed as the sheet documents
    them: a batch is a list of rows with string fields, a count is an
    integer.
  - the sheet web app, the text-generation backend, the wall clock and the
    two functions of the [json] library are an environment [Env] of
    oracles; everything the program does to the outside is recorded in a
    [World]. Reading and writing [state.json] does not fail.

  The definitions come first: the program, then the notions the statements
  and the proofs use, then concrete environments. The properties follow. *)

From Stdlib Require Import List String Ascii ZArith NArith Lia Bool.
From Stdlib Require Import Sorted Permutation DecimalString DecimalN.
Import ListNotations.

Local Open Scope list_scope.
Local Open Scope string_scope.

(* ===================================================================== *)
(** ** Python strings *)
(* ===================================================================== *)

Module PyStr.

(** [a < b] and [a <= b] on [str]. *)
Definition lt (a b : string) : Prop := String.compare a b = Lt.
Definition le (a b : string) : Prop := String.compare a b <> Gt.

(** [not s]: the empty string is the only falsy one. *)
Definition is_empty (s : string) : bool :=
  match s with EmptyString => true | String _ _ => false end.

(** [s.replace(c, "")] for a one-character pattern [c]. *)
Fixpoint remove_char (c : ascii) (s : string) : string :=
  match s with
  | EmptyString => EmptyString
  | String d s' =>
      if Ascii.eqb d c then remove_char c s' else String d (remove_char c s')
  end.

(** [c.isspace()] for a code point below 256. *)
Definition is_space (c : ascii) : bool :=
  let n := nat_of_ascii c in
  ((9 <=? n) && (n <=? 13) || (28 <=? n) && (n <=? 32)
   || (n =? 133) || (n =? 160))%nat.

Fixpoint lstrip (s : string) : string :=
  match s with
  | EmptyString => EmptyString
  | String c s' => if is_space c then lstrip s' else s
  end.

Fixpoint rstrip (s : string) : string :=
  match s with
  | EmptyString => EmptyString
  | String c s' =>
      match rstrip s' with
      | EmptyString => if is_space c then EmptyString else String c EmptyString
      | t => String c t
      end
  end.

(** [s.strip()] *)
Definition strip (s : string) : string := rstrip (lstrip s).

(** [str(n)] for a non-negative [n]. *)
Definition decimal (n : N) : string := NilEmpty.string_of_uint (N.to_uint n).

Fixpoint zeros (k : nat) : string :=
  match k with O => EmptyString | S k' => String "0" (zeros k') end.

(** [s.rjust(width, "0")] *)
Definition zfill (width : nat) (s : string) : string :=
  zeros (width - String.length s) ++ s.

(** [f"{n:03d}"]: at least three characters, the sign included. *)
Definition format_03d (n : Z) : string :=
  if (n <? 0)%Z
  then String "-" (zfill 2 (decimal (Z.to_N (- n))))
  else zfill 3 (decimal (Z.to_N n)).

(** The line feed of the f-string in [parse_with_llm]. *)
Definition LF : string := String "010" EmptyString.

End PyStr.

(* ===================================================================== *)
(** ** Values, exceptions and the outside world *)
(* ===================================================================== *)

#[local] Set Warnings "-register-all".

(** What [json.loads] returns: [None], [bool], [int], [float] (kept as its
    literal), [str], [list] and [dict] (keys distinct, in insertion order). *)
Inductive json : Type :=
| JNull
| JBool (b : bool)
| JInt (n : Z)
| JFloat (literal : string)
| JStr (s : string)
| JArr (items : list json)
| JObj (fields : list (string * json)).

(** The exception classes the program meets; all derive from [Exception]. *)
Inductive ExnClass : Type :=
| RuntimeError
| HTTPError
| JSONDecodeError
| AttributeError
| KeyError
| TypeError
| UnboundLocalError
| OtherException (class_name : string).

(** An exception [e], with [str(e)]. *)
Record Exn : Type := mkExn { exn_class : ExnClass; exn_str : string }.

(** A row of the raw sheet as [get_raw] returns it: a dictionary whose
    keys may be missing. *)
Record RawRow : Type := mkRawRow {
  raw_timestamp : option string;
  raw_user_id : option string;
  raw_text : option string
}.

(** The payload of [append_parsed] (one audit row). *)
Record ParsedLogRow : Type := mkParsedLogRow {
  pl_timestamp : string;
  pl_user_id : string;
  pl_raw_text : string;
  pl_parsed_json : string;
  pl_status : json
}.

(** The payload of [append_workout] (one workout header). *)
Record WorkoutRow : Type := mkWorkoutRow {
  wr_workout_id : string;
  wr_date : json;
  wr_type : json;
  wr_duration_min : json;
  wr_location : json;
  wr_session_notes : json
}.

(** One element of the [rows] of [append_activities]; [exercise_id] is
    always [None] and is left out. *)
Record ActivityRow : Type := mkActivityRow {
  ar_workout_id : string;
  ar_date : json;
  ar_exercise : json;
  ar_weight : json;
  ar_reps : json;
  ar_rest_sec : json;
  ar_hold_sec : json;
  ar_notes : json;
  ar_set_number : json
}.

(** The dictionary kept in [STATE_FILE], as [save_state] writes it; the key
    may be missing. *)
Record State : Type := mkState { last_timestamp : option string }.

(** The decoded body of a sheet response, [r.json()]: [ok] by its truth
    value, the other members when present; [count] is the integer that
    [int(...)] makes of it. *)
Record SheetReply : Type := mkSheetReply {
  reply_ok : bool;
  reply_error : option string;
  reply_items : option (list RawRow);
  reply_count : option Z
}.

(** A [requests.Response]: [http_error] is the text of the [HTTPError] that
    [raise_for_status] raises for it, [body] is what [r.json()] gives. *)
Record Response : Type := mkResponse {
  status_code : Z;
  content : string;
  http_error : string;
  body : Exn + SheetReply
}.

Inductive Get : Type :=
| GetRaw (limit : Z)
| GetWorkoutsByDate (date : string).

Inductive Post : Type :=
| AppendParsed (row : ParsedLogRow)
| AppendWorkout (row : WorkoutRow)
| AppendActivities (rows : list ActivityRow).

(** The lines the program prints. *)
Inductive Msg : Type :=
| PrintStatusCode (code : Z)
| PrintContent (text : string)
| PrintLoading
| PrintLastTs (ts : string)
| PrintProcessing (r : RawRow)
| PrintDone (ts : string)
| PrintNothingNew.

(** The outside world as one run sees and changes it. The three logs hold
    the rows whose POST returned without raising, oldest first; [saves]
    holds every write of the state file; [calls] counts the requests sent
    (sheet and text-generation backend), so that an oracle may answer the
    same request differently the second time. *)
Record World : Type := mkWorld {
  state_file : option State;
  stdout : list Msg;
  parsed_logs : list ParsedLogRow;
  workouts : list WorkoutRow;
  activities : list (list ActivityRow);
  saves : list State;
  calls : nat
}.

(** The world a run starts in: the state file as the previous run left it,
    nothing printed or written yet. *)
Definition start (file : option State) : World :=
  mkWorld file [] [] [] [] [] 0.

(** The collaborators of the program. *)
Record Env : Type := mkEnv {
  json_loads : string -> Exn + json;
  json_dumps : json -> string;
  requests_get : World -> Get -> Exn + Response;
  requests_post : World -> Post -> Exn + Response;
  responses_create : World -> string -> Exn + string;
  utc_today : World -> string
}.

(* ===================================================================== *)
(** ** Programs: state and exceptions *)
(* ===================================================================== *)

(** A program over a state [S] either returns a value or raises. *)
Definition Prog (S A : Type) : Type := S -> (Exn + A) * S.

Definition ret {S A} (a : A) : Prog S A := fun s => (inr a, s).

Definition raise {S A} (e : Exn) : Prog S A := fun s => (inl e, s).

Definition bind {S A B} (m : Prog S A) (k : A -> Prog S B) : Prog S B :=
  fun s =>
    match m s with
    | (inr a, s') => k a s'
    | (inl e, s') => (inl e, s')
    end.

(** [try: body / except Exception as e: handler e] *)
Definition try_except {S A} (body : Prog S A) (handler : Exn -> Prog S A)
  : Prog S A :=
  fun s =>
    match body s with
    | (inr a, s') => (inr a, s')
    | (inl e, s') => handler e s'
    end.

(** [for x in l: body x]; a [continue] is a [body] that returns early. *)
Fixpoint for_each {S A} (l : list A) (body : A -> Prog S unit) : Prog S unit :=
  match l with
  | [] => ret tt
  | x :: l' => bind (body x) (fun _ => for_each l' body)
  end.

(** [[f x for x in l]] where [f] may raise. *)
Fixpoint map_prog {S A B} (f : A -> Prog S B) (l : list A) : Prog S (list B) :=
  match l with
  | [] => ret []
  | x :: l' =>
      bind (f x) (fun y => bind (map_prog f l') (fun ys => ret (y :: ys)))
  end.

Definition of_result {S A} (r : Exn + A) : Prog S A :=
  match r with inl e => raise e | inr a => ret a end.

Declare Scope prog_scope.
Delimit Scope prog_scope with prog.
Notation "x <- m ;; k" := (bind m (fun x => k))
  (at level 61, m at next level, right associativity) : prog_scope.
Notation "m ;; k" := (bind m (fun _ => k))
  (at level 61, right associativity) : prog_scope.
Local Open Scope prog_scope.

(** Programs of the module level act on the world alone. *)
Definition IO (A : Type) : Type := Prog World A.

(* ===================================================================== *)
(** ** Python operations on JSON values *)
(* ===================================================================== *)

Module Py.

(** [type(v).__name__] *)
Definition type_name (v : json) : string :=
  match v with
  | JNull => "NoneType"
  | JBool _ => "bool"
  | JInt _ => "int"
  | JFloat _ => "float"
  | JStr _ => "str"
  | JArr _ => "list"
  | JObj _ => "dict"
  end.

Fixpoint lookup (key : string) (fields : list (string * json)) : option json :=
  match fields with
  | [] => None
  | (k, v) :: rest => if String.eqb k key then Some v else lookup key rest
  end.

Definition no_attribute (v : json) (attr : string) : Exn :=
  mkExn AttributeError
    ("'" ++ type_name v ++ "' object has no attribute '" ++ attr ++ "'").

(** [obj.get(key, default)] *)
Definition get {S} (obj : json) (key : string) (default : json) : Prog S json :=
  match obj with
  | JObj fields =>
      ret (match lookup key fields with Some v => v | None => default end)
  | _ => raise (no_attribute obj "get")
  end.

(** [obj[key]] for a string [key] *)
Definition subscript {S} (obj : json) (key : string) : Prog S json :=
  match obj with
  | JObj fields =>
      match lookup key fields with
      | Some v => ret v
      | None => raise (mkExn KeyError ("'" ++ key ++ "'"))
      end
  | JArr _ =>
      raise (mkExn TypeError "list indices must be integers or slices, not str")
  | JStr _ =>
      raise (mkExn TypeError "string indices must be integers, not 'str'")
  | _ =>
      raise (mkExn TypeError ("'" ++ type_name obj ++ "' object is not subscriptable"))
  end.

(** The elements [for a in v] runs over. *)
Definition iter {S} (v : json) : Prog S (list json) :=
  match v with
  | JArr items => ret items
  | JObj fields => ret (map (fun kv => JStr (fst kv)) fields)
  | JStr s =>
      ret (map (fun c => JStr (String c EmptyString)) (list_ascii_of_string s))
  | _ =>
      raise (mkExn TypeError ("'" ++ type_name v ++ "' object is not iterable"))
  end.

(** [v == s] for a string [s] *)
Definition eq_str (v : json) (s : string) : bool :=
  match v with
  | JStr t => String.eqb t s
  | _ => false
  end.

End Py.

(* ===================================================================== *)
(** ** The module [structure.py] *)
(* ===================================================================== *)

(** [print(...)] *)
Definition print (m : Msg) : IO unit :=
  fun w =>
    (inr tt,
     mkWorld (state_file w) (stdout w ++ [m]) (parsed_logs w) (workouts w)
       (activities w) (saves w) (calls w)).

(** One more request has been sent. *)
Definition tick (w : World) : World :=
  mkWorld (state_file w) (stdout w) (parsed_logs w) (workouts w)
    (activities w) (saves w) (S (calls w)).

(** The sheet holds what a POST that did not raise carried. *)
Definition stored (p : Post) : IO unit :=
  fun w =>
    (inr tt,
     match p with
     | AppendParsed row =>
         mkWorld (state_file w) (stdout w) (parsed_logs w ++ [row]) (workouts w)
           (activities w) (saves w) (calls w)
     | AppendWorkout row =>
         mkWorld (state_file w) (stdout w) (parsed_logs w) (workouts w ++ [row])
           (activities w) (saves w) (calls w)
     | AppendActivities rows =>
         mkWorld (state_file w) (stdout w) (parsed_logs w) (workouts w)
           (activities w ++ [rows]) (saves w) (calls w)
     end).

(** [r.raise_for_status()] *)
Definition raise_for_status (r : Response) : IO unit :=
  if ((400 <=? status_code r) && (status_code r <? 600))%Z
  then raise (mkExn HTTPError (http_error r))
  else ret tt.

(** [r.json()] *)
Definition response_json (r : Response) : IO SheetReply := of_result (body r).

Definition or_default {A} (o : option A) (d : A) : A :=
  match o with Some a => a | None => d end.

(** [w.get(key)]: [None] when the key is missing. *)
Definition get_or_none {S} (obj : json) (key : string) : Prog S json :=
  Py.get obj key JNull.

(** The [input] of the text-generation call:
    [f"Default date (if not specified): {default_date_iso}\n\nRaw log:\n{raw_text}"] *)
Definition llm_input (raw_text default_date_iso : string) : string :=
  "Default date (if not specified): " ++ default_date_iso
    ++ PyStr.LF ++ PyStr.LF ++ "Raw log:" ++ PyStr.LF ++ raw_text.

Section Structure.

Variable E : Env.

(** [requests.get(SHEET_URL, params=..., timeout=20)] *)
Definition http_get (q : Get) : IO Response :=
  fun w => (requests_get E w q, tick w).

(** [requests.post(SHEET_URL, json=payload, timeout=20, allow_redirects=True)] *)
Definition http_post (p : Post) : IO Response :=
  fun w => (requests_post E w p, tick w).

(** [def load_state() -> dict] *)
Definition load_state : IO State :=
  fun w =>
    match state_file w with
    | None => (inr (mkState (Some "")), w)
    | Some s => (inr s, w)
    end.

(** [def save_state(state: dict) -> None] *)
Definition save_state (state : State) : IO unit :=
  fun w =>
    (inr tt,
     mkWorld (Some state) (stdout w) (parsed_logs w) (workouts w)
       (activities w) (saves w ++ [state]) (calls w)).

(** [def fetch_recent_raw(limit: int = 50) -> list[dict]] *)
Definition fetch_recent_raw (limit : Z) : IO (list RawRow) :=
  r <- http_get (GetRaw limit) ;;
  print (PrintStatusCode (status_code r)) ;;
  print (PrintContent (content r)) ;;
  raise_for_status r ;;
  data <- response_json r ;;
  if negb (reply_ok data)
  then raise (mkExn RuntimeError (or_default (reply_error data) "Unknown sheet error"))
  else ret (or_default (reply_items data) []).

(** [def append_parsed(timestamp, user_id, raw_text, parsed_json, status)] *)
Definition append_parsed (timestamp user_id raw_text parsed_json : string)
  (status : json) : IO unit :=
  let payload :=
    AppendParsed (mkParsedLogRow timestamp user_id raw_text parsed_json status) in
  r <- http_post payload ;;
  raise_for_status r ;;
  stored payload.

(** [def parse_with_llm(raw_text, default_date_iso) -> tuple[str, str]];
    the model name, the reasoning effort and [SYSTEM_INSTRUCTIONS] are the
    same at every call and stay inside the oracle. *)
Definition parse_with_llm (raw_text default_date_iso : string)
  : IO (string * json) :=
  output_text <-
    (fun w => (responses_create E w (llm_input raw_text default_date_iso), tick w)) ;;
  let text := PyStr.strip output_text in
  obj <- of_result (json_loads E text) ;;
  status <- Py.get obj "status" (JStr "needs_review") ;;
  ret (json_dumps E obj, status).

(** [def iso_now_date_utc() -> str] *)
Definition iso_now_date_utc : IO string :=
  fun w => (inr (utc_today E w), w).

(** [def get_workouts_count_for_date(date_iso: str) -> int] *)
Definition get_workouts_count_for_date (date_iso : string) : IO Z :=
  r <- http_get (GetWorkoutsByDate date_iso) ;;
  raise_for_status r ;;
  data <- response_json r ;;
  if negb (reply_ok data)
  then raise (mkExn RuntimeError (or_default (reply_error data) "Unknown sheet error"))
  else ret (or_default (reply_count data) 0%Z).

(** [def append_workout_row(workout_id: str, w: dict)] *)
Definition append_workout_row (workout_id : string) (w : json) : IO unit :=
  date <- get_or_none w "date" ;;
  type <- get_or_none w "type" ;;
  duration_min <- get_or_none w "duration_min" ;;
  location <- get_or_none w "location" ;;
  session_notes <- get_or_none w "session_notes" ;;
  let payload :=
    AppendWorkout
      (mkWorkoutRow workout_id date type duration_min location session_notes) in
  r <- http_post payload ;;
  raise_for_status r ;;
  stored payload.

(** [def append_activity_rows(workout_id, date_iso, activities)] *)
Definition append_activity_rows (workout_id : string) (date_iso : json)
  (activities : json) : IO unit :=
  items <- Py.iter activities ;;
  rows <-
    map_prog
      (fun a =>
         exercise <- get_or_none a "exercise" ;;
         weight <- get_or_none a "weight" ;;
         reps <- get_or_none a "reps" ;;
         rest_sec <- get_or_none a "rest_sec" ;;
         hold_sec <- get_or_none a "hold_sec" ;;
         notes <- get_or_none a "notes" ;;
         set_number <- get_or_none a "set_number" ;;
         ret (mkActivityRow workout_id date_iso exercise weight reps rest_sec
                hold_sec notes set_number))
      items ;;
  let payload := AppendActivities rows in
  r <- http_post payload ;;
  raise_for_status r ;;
  stored payload.

(** [def make_workout_id(date_iso: str) -> str]; a value that is not a
    string has no [replace]. *)
Definition make_workout_id (date_iso : json) : IO string :=
  match date_iso with
  | JStr d =>
      let yyyymmdd := PyStr.remove_char "-" d in
      count <- get_workouts_count_for_date d ;;
      let serial := (count + 1)%Z in
      ret (yyyymmdd ++ "-" ++ PyStr.format_03d serial)
  | _ => raise (Py.no_attribute date_iso "replace")
  end.

End Structure.

(* --------------------------------------------------------------------- *)
(** *** [sorted] *)

(** [sorted(l, key=key)] is a stable sort by [<] on the keys. A stable sort
    has one result only, so the insertion sort below returns the list that
    Python's sort returns. *)
Fixpoint insert_by {A} (key : A -> string) (x : A) (l : list A) : list A :=
  match l with
  | [] => [x]
  | y :: l' =>
      if String.ltb (key y) (key x) then y :: insert_by key x l' else x :: l
  end.

Fixpoint sorted {A} (key : A -> string) (l : list A) : list A :=
  match l with
  | [] => []
  | x :: l' => insert_by key x (sorted key l')
  end.

(* --------------------------------------------------------------------- *)
(** *** [main] *)

(** The local variables of [main] that outlive a statement. [parsed_json]
    is unbound ([None]) until a call of [parse_with_llm] has returned. *)
Record Locals : Type := mkLocals {
  last_ts : string;
  processed_any : bool;
  parsed_json : option string
}.

Definition Main (A : Type) : Type := Prog (Locals * World) A.

(** A call of a module-level function from [main]. *)
Definition io {A} (m : IO A) : Main A :=
  fun s => let (r, w') := m (snd s) in (r, (fst s, w')).

Definition locals : Main Locals := fun s => (inr (fst s), s).

Definition assign (f : Locals -> Locals) : Main unit :=
  fun s => (inr tt, (f (fst s), snd s)).

Definition set_last_ts (ts : string) (l : Locals) : Locals :=
  mkLocals ts (processed_any l) (parsed_json l).

Definition set_processed_any (b : bool) (l : Locals) : Locals :=
  mkLocals (last_ts l) b (parsed_json l).

Definition set_parsed_json (s : string) (l : Locals) : Locals :=
  mkLocals (last_ts l) (processed_any l) (Some s).

(** Reading [parsed_json]. *)
Definition read_parsed_json : Main string :=
  l <- locals ;;
  match parsed_json l with
  | Some s => ret s
  | None =>
      raise (mkExn UnboundLocalError
               "cannot access local variable 'parsed_json' where it is not associated with a value")
  end.

(** [r.get("timestamp", "")], the sort key and the gate's [ts]. *)
Definition get_timestamp (r : RawRow) : string := or_default (raw_timestamp r) "".

Section Driver.

Variable E : Env.

(** The suite of [try:] in the loop. The tuple assignment binds
    [parsed_json] as soon as [parse_with_llm] has returned. *)
Definition try_suite (ts user_id raw : string) : Main unit :=
  today <- io (iso_now_date_utc E) ;;
  res <- io (parse_with_llm E raw today) ;;
  assign (set_parsed_json (fst res)) ;;
  io (append_parsed E ts user_id raw (fst res) (snd res)).

(** The suite of [except Exception as e:] in the loop. *)
Definition except_suite (ts user_id raw : string) (e : Exn) : Main unit :=
  let err_payload := json_dumps E (JObj [("error", JStr (exn_str e))]) in
  io (append_parsed E ts user_id raw err_payload (JStr "error")).

(** The body of [for r in rows_sorted:]. *)
Definition process_row (r : RawRow) : Main unit :=
  io (print (PrintProcessing r)) ;;
  let ts := get_timestamp r in
  if PyStr.is_empty ts then ret tt
  else
    l <- locals ;;
    if negb (PyStr.is_empty (last_ts l)) && String.leb ts (last_ts l) then ret tt
    else
      let user_id := or_default (raw_user_id r) "" in
      let raw := or_default (raw_text r) "" in
      try_except (try_suite ts user_id raw) (except_suite ts user_id raw) ;;
      assign (set_last_ts ts) ;;
      assign (set_processed_any true).

(** [if processed_any: save_state(...) ... else: print("Nothing new ...")] *)
Definition checkpoint_step : Main unit :=
  l <- locals ;;
  if processed_any l
  then
    io (save_state (mkState (Some (last_ts l)))) ;;
    io (print (PrintDone (last_ts l)))
  else io (print PrintNothingNew).

(** The statements after the loop, from [obj = json.loads(parsed_json)]. *)
Definition post_sheets : Main unit :=
  pj <- read_parsed_json ;;
  obj <- of_result (json_loads E pj) ;;
  status <- Py.get obj "status" (JStr "needs_review") ;;
  if Py.eq_str status "ok"
  then
    w <- Py.subscript obj "workout" ;;
    date_iso <- Py.subscript w "date" ;;
    workout_id <- io (make_workout_id E date_iso) ;;
    io (append_workout_row E workout_id w) ;;
    acts <- Py.get obj "activities" (JArr []) ;;
    io (append_activity_rows E workout_id date_iso acts)
  else ret tt.

(** [def main()] *)
Definition main : Main unit :=
  state <- io load_state ;;
  io (print PrintLoading) ;;
  assign (set_last_ts (or_default (last_timestamp state) "")) ;;
  l <- locals ;;
  io (print (PrintLastTs (last_ts l))) ;;
  rows <- io (fetch_recent_raw E 100) ;;
  let rows_sorted := sorted get_timestamp rows in
  assign (set_processed_any false) ;;
  for_each rows_sorted process_row ;;
  checkpoint_step ;;
  post_sheets.

(** One run of the script: [main()] with no local bound yet, in the world
    where [state.json] holds [file]. *)
Definition run (file : option State) : (Exn + unit) * World :=
  let (r, s) := main (mkLocals "" false None, start file) in (r, snd s).

End Driver.

(* ===================================================================== *)
(** ** The module [bot.py] *)
(* ===================================================================== *)

Module Bot.

(** The dictionary a handler posts: one raw entry of the sheet. *)
Record Payload : Type := mkPayload {
  secret : string;
  timestamp : string;
  user_id : string;
  raw_text : string;
  source : string
}.

(** What [post_to_sheet] reads of a [requests.Response]. *)
Record Reply : Type := mkReply { code : Z; text : string }.

(** [requests.post(SHEET_WEBAPP_URL, json=payload, timeout=15, ...)]: the
    response, or the exception the call raises. *)
Definition Sheet : Type := Payload -> Exn + Reply.

(** [str(n)] for an [int]. *)
Definition str_int (n : Z) : string :=
  if (n <? 0)%Z
  then String "-" (PyStr.decimal (Z.to_N (- n)))
  else PyStr.decimal (Z.to_N n).

(** [def post_to_sheet(payload: dict) -> tuple[bool, str]] *)
Definition post_to_sheet (post : Sheet) (payload : Payload) : bool * string :=
  match post payload with
  | inr r =>
      if ((200 <=? code r) && (code r <? 300))%Z
      then (true, "HTTP " ++ str_int (code r))
      else (false, "HTTP " ++ str_int (code r) ++ ": " ++ substring 0 200 (text r))
  | inl e => (false, "EXC: " ++ exn_str e)
  end.

(** [update.message.voice] *)
Record Voice : Type := mkVoice { duration : Z; file_id : string }.

(** [update.message]: its text and its voice note, when present. *)
Record Message : Type := mkMessage {
  message_text : option string;
  message_voice : option Voice
}.

(** A Telegram update: the message and the [id] of the effective user, when
    present. *)
Record Update : Type := mkUpdate {
  message : option Message;
  effective_user : option Z
}.

(** The answers the handlers send with [reply_text]: ["Logged"] and
    ["Voice logged"] with their check mark, ["Failed"] with its cross and
    the debug message in brackets. *)
Inductive Answer : Type :=
| Logged
| VoiceLogged
| Failed (dbg : string).

(** [str(update.effective_user.id) if update.effective_user else "unknown"] *)
Definition user_of (update : Update) : string :=
  match effective_user update with
  | Some id => str_int id
  | None => "unknown"
  end.

(** [async def handle_text(update, context)]: nothing when it returns at
    once; otherwise the payload it posts and the answer it sends. [now] is
    [datetime.now(timezone.utc).isoformat()]. *)
Definition handle_text (post : Sheet) (sheet_secret now : string) (update : Update)
  : option (Payload * Answer) :=
  match message update with
  | None => None
  | Some m =>
      match message_text m with
      | None => None
      | Some t =>
          if PyStr.is_empty t then None
          else
            let payload :=
              mkPayload sheet_secret now (user_of update) (PyStr.strip t)
                "telegram_text" in
            let (ok, dbg) := post_to_sheet post payload in
            Some (payload, if ok then Logged else Failed dbg)
      end
  end.

(** [async def handle_voice(update, context)] *)
Definition handle_voice (post : Sheet) (sheet_secret now : string) (update : Update)
  : option (Payload * Answer) :=
  match message update with
  | None => None
  | Some m =>
      match message_voice m with
      | None => None
      | Some v =>
          let payload :=
            mkPayload sheet_secret now (user_of update)
              ("[VOICE] duration_sec=" ++ str_int (duration v)
                 ++ " file_id=" ++ file_id v)
              "telegram_voice" in
          let (ok, dbg) := post_to_sheet post payload in
          Some (payload, if ok then VoiceLogged else Failed dbg)
      end
  end.

End Bot.

(* ===================================================================== *)
(** ** Concrete collaborators *)
(* ===================================================================== *)

(** Environments to run the program in: a sheet that returns a fixed batch
    and accepts the POSTs a predicate selects, a text-generation backend
    that answers by table, and the part of [json] the scenarios use. *)
Module Demo.

Definition dq : string := String "034" EmptyString.

Definition quoted (s : string) : string := dq ++ s ++ dq.

Definition int_text (n : Z) : string :=
  if (n <? 0)%Z
  then String "-" (PyStr.decimal (Z.to_N (- n)))
  else PyStr.decimal (Z.to_N n).

(** [json.dumps(v, ensure_ascii=False)] on values whose strings need no
    escape. *)
Fixpoint dumps (v : json) : string :=
  match v with
  | JNull => "null"
  | JBool true => "true"
  | JBool false => "false"
  | JInt n => int_text n
  | JFloat literal => literal
  | JStr s => quoted s
  | JArr items =>
      "[" ++
      (fix elements (l : list json) : string :=
         match l with
         | [] => ""
         | x :: l' =>
             dumps x ++ match l' with [] => "" | _ => ", " ++ elements l' end
         end) items
      ++ "]"
  | JObj fields =>
      "{" ++
      (fix members (l : list (string * json)) : string :=
         match l with
         | [] => ""
         | (k, x) :: l' =>
             quoted k ++ ": " ++ dumps x
               ++ match l' with [] => "" | _ => ", " ++ members l' end
         end) fields
      ++ "}"
  end.

(** [json.loads] on the texts of the values in [known]: each is read back
    as the value it was written from; any other text is taken as malformed
    (the scenarios feed it nothing else that is JSON). *)
Definition loads (known : list json) (text : string) : Exn + json :=
  match find (fun v => String.eqb (dumps v) text) known with
  | Some v => inr v
  | None => inl (mkExn JSONDecodeError "Expecting value: line 1 column 1 (char 0)")
  end.

Definition ok_response : Response :=
  mkResponse 200 "" "" (inr (mkSheetReply true None None None)).

Definition server_error : Response :=
  mkResponse 500 "" "500 Server Error: Internal Server Error for url: SHEET_URL"
    (inl (mkExn JSONDecodeError "Expecting value: line 1 column 1 (char 0)")).

Definition today : string := "2026-01-05".

(** [rows]: what [get_raw] returns; [count]: what [get_workouts_by_date]
    reports; [accept]: the POSTs answered with 200 (the others get 500);
    [answers]: the model's output text per raw text (no entry is a backend
    error); [known]: the JSON values [loads] reads. *)
Definition env (rows : list RawRow) (count : Z) (accept : Post -> bool)
  (answers : list (string * string)) (known : list json) : Env :=
  mkEnv
    (loads known)
    dumps
    (fun _ q =>
       match q with
       | GetRaw _ => inr (mkResponse 200 "" "" (inr (mkSheetReply true None (Some rows) None)))
       | GetWorkoutsByDate _ =>
           inr (mkResponse 200 "" "" (inr (mkSheetReply true None None (Some count))))
       end)
    (fun _ p => inr (if accept p then ok_response else server_error))
    (fun _ input =>
       match find (fun a => String.eqb (llm_input (fst a) today) input) answers with
       | Some a => inr (snd a)
       | None => inl (mkExn (OtherException "APIConnectionError") "Connection error.")
       end)
    (fun _ => today).

(** A confident parse of a strength session on [date]. *)
Definition ok_workout (date exercise : string) : json :=
  JObj [("workout",
         JObj [("date", JStr date); ("type", JStr "strength");
               ("duration_min", JNull); ("location", JNull);
               ("session_notes", JNull)]);
        ("activities",
         JArr [JObj [("exercise", JStr exercise); ("set_number", JNull);
                     ("weight", JInt 60); ("reps", JInt 8);
                     ("rest_sec", JNull); ("notes", JNull)]]);
        ("status", JStr "ok");
        ("questions", JArr [])].

Definition row (ts user text : string) : RawRow :=
  mkRawRow (Some ts) (Some user) (Some text).

End Demo.

(* ===================================================================== *)
(** ** What a run shows *)
(* ===================================================================== *)

(** The checkpoint [main] reads: [load_state().get("last_timestamp", "")]. *)
Definition loaded (file : option State) : string :=
  match file with
  | None => ""
  | Some s => or_default (last_timestamp s) ""
  end.

(** The world in which [main] calls [fetch_recent_raw]. *)
Definition before_fetch (file : option State) : World :=
  mkWorld file [PrintLoading; PrintLastTs (loaded file)] [] [] [] [] 0.

(** The batch the run fetches, or the exception of the fetch. *)
Definition fetched (E : Env) (file : option State) : Exn + list RawRow :=
  fst (fetch_recent_raw E 100 (before_fetch file)).

(** The per-run summary: ["Done. Last processed timestamp: ..."] or
    ["Nothing new to process."]. A run prints it when its loop is over. *)
Definition is_summary (m : Msg) : bool :=
  match m with
  | PrintDone _ | PrintNothingNew => true
  | _ => false
  end.

Definition summarised (w : World) : bool := existsb is_summary (stdout w).

(** An audit row and the raw entry it is written for carry the same
    timestamp, user and text. *)
Definition pl_key (a : ParsedLogRow) : string * string * string :=
  (pl_timestamp a, pl_user_id a, pl_raw_text a).

Definition row_key (r : RawRow) : string * string * string :=
  (get_timestamp r, or_default (raw_user_id r) "", or_default (raw_text r) "").

(** The entries a run has handled are the entries it has written an audit
    row for; [handled_timestamps] lists them in the order of handling. *)
Definition handled_timestamps (w : World) : list string :=
  map pl_timestamp (parsed_logs w).

(** The two [continue] tests of the loop, for the checkpoint candidate [c]. *)
Definition skips (c ts : string) : bool :=
  PyStr.is_empty ts || (negb (PyStr.is_empty c) && String.leb ts c).

(** The entries whose iteration goes past the two tests when the loop runs
    over [l] from the candidate [c], each one moving the candidate. *)
Fixpoint plan {A} (key : A -> string) (c : string) (l : list A) : list A :=
  match l with
  | [] => []
  | x :: l' =>
      if skips c (key x) then plan key c l' else x :: plan key (key x) l'
  end.

(** The candidate when that loop is over: the timestamp handled last. *)
Definition final {A} (key : A -> string) (c : string) (l : list A) : string :=
  last (map key (plan key c l)) c.

(** The order of the sort keys. *)
Definition key_le {A} (key : A -> string) (x y : A) : Prop :=
  PyStr.le (key x) (key y).

(** [has_ts ts r]: the entry [r] carries the timestamp [ts]. *)
Definition has_ts (ts : string) (r : RawRow) : bool :=
  String.eqb (get_timestamp r) ts.

(* ===================================================================== *)
(** ** Notions the proofs use *)
(* ===================================================================== *)

(** [frame w w']: from [w] to [w'] the program has at most sent requests,
    appended audit rows and printed progress lines: the state file, the
    workout headers and the activities are as they were, and no summary
    has been printed in between. *)
Record frame (w w' : World) : Prop := mkFrame {
  fr_file : state_file w' = state_file w;
  fr_saves : saves w' = saves w;
  fr_workouts : workouts w' = workouts w;
  fr_activities : activities w' = activities w;
  fr_summary : summarised w' = summarised w
}.

(** The outcome of one iteration, started with the locals [l] in the world
    [w]: the entry is skipped, or it is handled (one audit row more, the
    candidate moved to its timestamp), or an exception leaves the loop. *)
Inductive row_outcome (r : RawRow) (l : Locals) (w : World)
  : (Exn + unit) * (Locals * World) -> Prop :=
| RowSkipped w' :
    skips (last_ts l) (get_timestamp r) = true ->
    frame w w' -> parsed_logs w' = parsed_logs w ->
    row_outcome r l w (inr tt, (l, w'))
| RowHandled l' w' a :
    skips (last_ts l) (get_timestamp r) = false ->
    frame w w' -> parsed_logs w' = (parsed_logs w ++ [a])%list ->
    pl_key a = row_key r ->
    last_ts l' = get_timestamp r -> processed_any l' = true ->
    row_outcome r l w (inr tt, (l', w'))
| RowAborted e l' w' :
    skips (last_ts l) (get_timestamp r) = false ->
    frame w w' -> parsed_logs w' = parsed_logs w ->
    row_outcome r l w (inl e, (l', w')).

(** [respects R m]: every run of [m] takes a state to an [R]-related one,
    whether it returns or raises. *)
Definition respects {S A} (R : S -> S -> Prop) (m : Prog S A) : Prop :=
  forall s, R s (snd (m s)).

(** [keeps w w']: the state file, its writes, the audit rows and the
    printed lines are the same in [w] and [w']. *)
Record keeps (w w' : World) : Prop := mkKeeps {
  kp_file : state_file w' = state_file w;
  kp_saves : saves w' = saves w;
  kp_logs : parsed_logs w' = parsed_logs w;
  kp_stdout : stdout w' = stdout w
}.

Definition on_world (R : World -> World -> Prop) (s s' : Locals * World) : Prop :=
  R (snd s) (snd s').

(** What reading [parsed_json] raises while it is unbound. *)
Definition unbound_parsed_json : Exn :=
  mkExn UnboundLocalError
    "cannot access local variable 'parsed_json' where it is not associated with a value".

(** [upto a b w w']: from [w] to [w'] at most [a] workout headers and at
    most [b] batches of activities have been written. *)
Definition upto (a b : nat) (w w' : World) : Prop :=
  (List.length (workouts w') <= List.length (workouts w) + a)%nat /\
  (List.length (activities w') <= List.length (activities w) + b)%nat.

(* ===================================================================== *)
(** ** Scenarios *)
(* ===================================================================== *)

Module Scenario.

Import Demo.

Definition accept_all (p : Post) : bool := true.

Definition reject_all (p : Post) : bool := false.

(** The raw text a POST carries, when it is an audit row. *)
Definition post_text (p : Post) : option string :=
  match p with
  | AppendParsed row => Some (pl_raw_text row)
  | _ => None
  end.

(** A sheet that answers 500 to every audit row for the text [bad]. *)
Definition reject_text (bad : string) (p : Post) : bool :=
  match post_text p with
  | Some t => negb (String.eqb t bad)
  | None => true
  end.

Definition bench : json := ok_workout "2026-01-05" "bench".
Definition squat : json := ok_workout "2026-01-05" "squat".
Definition row_bench (ts : string) : RawRow := row ts "u1" "bench 3x8 @60kg".
Definition row_squat (ts : string) : RawRow := row ts "u1" "squat 3x8 @60kg".

Definition answers : list (string * string) :=
  [("bench 3x8 @60kg", dumps bench); ("squat 3x8 @60kg", dumps squat)].

(** A healthy sheet and backend around the batch [rows]. *)
Definition healthy (rows : list RawRow) : Env :=
  env rows 0 accept_all answers [bench; squat].

(** The same, with a sheet that accepts the POSTs [accept] selects. *)
Definition flaky (rows : list RawRow) (accept : Post -> bool) : Env :=
  env rows 0 accept answers [bench; squat].

End Scenario.

(* ===================================================================== *)
(** ** Notions for the workout identifier *)
(* ===================================================================== *)

(** The number a string of decimal digits denotes. *)
Definition digits_value (s : string) : option N :=
  option_map N.of_uint (NilEmpty.uint_of_string s).

(** The identifier [make_workout_id] returns for the date [date] when the
    sheet reports [count] workouts. *)
Definition workout_id_for (date : string) (count : Z) : string :=
  PyStr.remove_char "-" date ++ "-" ++ PyStr.format_03d (count + 1).

(** The workouts of [rows] recorded for [date]. *)
Definition recorded (date : string) (rows : list WorkoutRow) : nat :=
  List.length (filter (fun row => Py.eq_str (wr_date row) date) rows).

(** A test driver, not a function of [structure.py]: allocate [n]
    identifiers for [date] one after the other, each header written before
    the next identifier is made. *)
Fixpoint allocate (E : Env) (date : string) (workout : json) (n : nat) : IO (list string) :=
  match n with
  | O => ret []
  | S n' =>
      workout_id <- make_workout_id E (JStr date) ;;
      append_workout_row E workout_id workout ;;
      ids <- allocate E date workout n' ;;
      ret (workout_id :: ids)
  end.

(** A sheet with an accurate count for [date]: it reports the number of
    headers recorded for [date], and it accepts every header. *)
Definition accurate_store (E : Env) (date : string) : Prop :=
  (forall w,
     fst (get_workouts_count_for_date E date w)
     = inr (Z.of_nat (recorded date (workouts w)))) /\
  (forall w p,
     exists r,
       requests_post E w p = inr r /\
       ((400 <=? status_code r) && (status_code r <? 600))%Z = false).

Module Counting.

Import Demo.

(** A sheet that counts the headers it holds for each date and accepts
    every POST. *)
Definition sheet : Env :=
  mkEnv
    (loads [])
    dumps
    (fun w q =>
       match q with
       | GetRaw _ => inr (mkResponse 200 "" "" (inr (mkSheetReply true None (Some []) None)))
       | GetWorkoutsByDate d =>
           inr (mkResponse 200 "" ""
                  (inr (mkSheetReply true None None
                          (Some (Z.of_nat (recorded d (workouts w)))))))
       end)
    (fun _ _ => inr ok_response)
    (fun _ _ => inl (mkExn (OtherException "APIConnectionError") "Connection error."))
    (fun _ => today).

End Counting.

(* ===================================================================== *)
(** ** Notions for the single functions and for the whole run *)
(* ===================================================================== *)

(** [is_error_status r]: the test of [raise_for_status]. *)
Definition is_error_status (r : Response) : bool :=
  ((400 <=? status_code r) && (status_code r <? 600))%Z.

(** [untouched w w']: nothing but the request count and the printed lines
    differs between [w] and [w']. *)
Record untouched (w w' : World) : Prop := mkUntouched {
  un_file : state_file w' = state_file w;
  un_saves : saves w' = saves w;
  un_logs : parsed_logs w' = parsed_logs w;
  un_workouts : workouts w' = workouts w;
  un_activities : activities w' = activities w
}.

(** [field fields key]: what [w.get(key)] gives for the dictionary
    [fields]: the value, or [None]. *)
Definition field (fields : list (string * json)) (key : string) : json :=
  or_default (Py.lookup key fields) JNull.

(** The payload [append_workout_row] builds from the dictionary [fields]. *)
Definition workout_row_of (workout_id : string) (fields : list (string * json))
  : WorkoutRow :=
  mkWorkoutRow workout_id (field fields "date") (field fields "type")
    (field fields "duration_min") (field fields "location")
    (field fields "session_notes").

(** The row [append_activity_rows] builds from the dictionary [fields]. *)
Definition activity_row_of (workout_id : string) (date_iso : json)
  (fields : list (string * json)) : ActivityRow :=
  mkActivityRow workout_id date_iso (field fields "exercise") (field fields "weight")
    (field fields "reps") (field fields "rest_sec") (field fields "hold_sec")
    (field fields "notes") (field fields "set_number").

(** The dictionaries of a list of values, when all are dictionaries. *)
Fixpoint all_dicts (items : list json) : option (list (list (string * json))) :=
  match items with
  | [] => Some []
  | JObj fields :: rest => option_map (cons fields) (all_dicts rest)
  | _ :: _ => None
  end.

(** The first value of a list that is not a dictionary. *)
Fixpoint first_non_dict (items : list json) : option json :=
  match items with
  | [] => None
  | JObj _ :: rest => first_non_dict rest
  | v :: _ => Some v
  end.

(** [silent w w']: nothing has been printed from [w] to [w']. *)
Definition silent (w w' : World) : Prop := stdout w' = stdout w.

(** The summary a run prints for the writes of the state file it has made. *)
Definition summary_for (written : list State) : Msg :=
  match written with
  | [] => PrintNothingNew
  | s :: _ => PrintDone (or_default (last_timestamp s) "")
  end.

(** [spends n w w']: from [w] to [w'] at most [n] requests have been sent. *)
Definition spends (n : nat) (w w' : World) : Prop :=
  (calls w <= calls w' <= calls w + n)%nat.

(** The budget of a program of [main]: the requests it sends. *)
Definition main_spends (n : nat) : Locals * World -> Locals * World -> Prop :=
  on_world (spends n).

(** [parsed_by E text status]: [parse_with_llm] has returned [text] and
    [status] for some raw text, with the date of the day as the default. *)
Definition parsed_by (E : Env) (raw text : string) (status : json) : Prop :=
  exists w, fst (parse_with_llm E raw (utc_today E w) w) = inr (text, status).

(** An audit row that records a result of [parse_with_llm] on its text. *)
Definition parse_row (E : Env) (a : ParsedLogRow) : Prop :=
  parsed_by E (pl_raw_text a) (pl_parsed_json a) (pl_status a).

(** An audit row that records an exception: status ["error"] and the text
    of the exception under the key ["error"]. *)
Definition error_row (E : Env) (a : ParsedLogRow) : Prop :=
  pl_status a = JStr "error" /\
  exists e, pl_parsed_json a = json_dumps E (JObj [("error", JStr (exn_str e))]).

(** [bound_by E l l']: a [parsed_json] bound in [l'] was bound in [l] or is
    a text [parse_with_llm] has returned. *)
Definition bound_by (E : Env) (l l' : Locals) : Prop :=
  forall pj, parsed_json l' = Some pj ->
             parsed_json l = Some pj \/ exists raw st, parsed_by E raw pj st.

(** Collaborators that fail. *)
Module Outage.

Import Demo.

(** A sheet that cannot be reached: every request raises. *)
Definition sheet_down : Env :=
  mkEnv (loads []) dumps
    (fun _ _ => inl (mkExn (OtherException "ConnectionError") "Connection refused"))
    (fun _ _ => inl (mkExn (OtherException "ConnectionError") "Connection refused"))
    (fun _ _ => inl (mkExn (OtherException "APIConnectionError") "Connection error."))
    (fun _ => today).

(** A healthy sheet around the batch [rows], and a text-generation backend
    that cannot be reached. *)
Definition backend_down (rows : list RawRow) : Env :=
  env rows 0 Scenario.accept_all [] [].

End Outage.

(** [same_logs w w']: the audit sheet is the same in [w] and [w']. *)
Definition same_logs (w w' : World) : Prop := parsed_logs w' = parsed_logs w.

(** The sheet takes every error row: the POST returns with a status that is
    no 4xx or 5xx. *)
Definition takes_error_rows (E : Env) : Prop :=
  forall w ts u raw pj,
  exists r,
    requests_post E w (AppendParsed (mkParsedLogRow ts u raw pj (JStr "error"))) = inr r
    /\ is_error_status r = false.

(** The sheet takes no audit row: the POST raises or returns with a 4xx or
    5xx status. *)
Definition refuses_audit_rows (E : Env) : Prop :=
  forall w row r, requests_post E w (AppendParsed row) = inr r -> is_error_status r = true.

(* ********************************************************************* *)
(** * Properties *)
(* ********************************************************************* *)

(* ===================================================================== *)
(** ** The order on strings *)
(* ===================================================================== *)

Section StringOrder.

Lemma ascii_compare_N (a b : ascii) :
  Ascii.compare a b = N.compare (N_of_ascii a) (N_of_ascii b).
Proof. reflexivity. Qed.

Lemma ascii_compare_refl (a : ascii) : Ascii.compare a a = Eq.
Proof. rewrite ascii_compare_N. apply N.compare_refl. Qed.

Lemma str_compare_refl (s : string) : String.compare s s = Eq.
Proof.
  induction s as [|c s IH]; simpl; [reflexivity|].
  now rewrite ascii_compare_refl.
Qed.

Lemma str_compare_Eq_eq (a b : string) : String.compare a b = Eq <-> a = b.
Proof.
  split; [apply String.compare_eq_iff | intros ->; apply str_compare_refl].
Qed.

Lemma str_compare_Gt_Lt (a b : string) :
  String.compare a b = Gt <-> String.compare b a = Lt.
Proof.
  rewrite (String.compare_antisym b a).
  destruct (String.compare a b); simpl; split; congruence.
Qed.

Lemma str_lt_irrefl (a : string) : ~ PyStr.lt a a.
Proof. unfold PyStr.lt. rewrite str_compare_refl. discriminate. Qed.

Lemma str_lt_trans (a b c : string) : PyStr.lt a b -> PyStr.lt b c -> PyStr.lt a c.
Proof.
  unfold PyStr.lt. revert b c.
  induction a as [|x a IH]; intros [|y b] [|z c]; simpl; try congruence.
  rewrite !ascii_compare_N.
  destruct (N.compare_spec (N_of_ascii x) (N_of_ascii y)) as [Exy|Lxy|Gxy];
      try discriminate;
      destruct (N.compare_spec (N_of_ascii y) (N_of_ascii z)) as [Eyz|Lyz|Gyz];
      try discriminate; intros H1 H2.
  - rewrite Exy, Eyz, N.compare_refl. eauto.
  - rewrite Exy. apply N.compare_lt_iff in Lyz. now rewrite Lyz.
  - rewrite <- Eyz. apply N.compare_lt_iff in Lxy. now rewrite Lxy.
  - assert (L : (N_of_ascii x < N_of_ascii z)%N) by lia.
      apply N.compare_lt_iff in L. now rewrite L.
Qed.

Lemma str_ltb_lt (a b : string) : String.ltb a b = true <-> PyStr.lt a b.
Proof.
  unfold String.ltb, PyStr.lt.
  destruct (String.compare a b); split; congruence.
Qed.

Lemma str_leb_le (a b : string) : String.leb a b = true <-> PyStr.le a b.
Proof.
  unfold String.leb, PyStr.le.
  destruct (String.compare a b); split; congruence.
Qed.

Lemma str_leb_false_lt (a b : string) : String.leb a b = false <-> PyStr.lt b a.
Proof.
  unfold String.leb, PyStr.lt. rewrite <- str_compare_Gt_Lt.
  destruct (String.compare a b); split; congruence.
Qed.

Lemma str_ltb_false_le (a b : string) : String.ltb a b = false <-> PyStr.le b a.
Proof.
  unfold String.ltb, PyStr.le. rewrite str_compare_Gt_Lt.
  destruct (String.compare a b); split; congruence.
Qed.

Lemma str_le_lt_or_eq (a b : string) : PyStr.le a b <-> PyStr.lt a b \/ a = b.
Proof.
  unfold PyStr.le, PyStr.lt. rewrite <- str_compare_Eq_eq.
  destruct (String.compare a b); split; try congruence; intuition congruence.
Qed.

Lemma str_le_refl (a : string) : PyStr.le a a.
Proof. apply str_le_lt_or_eq. now right. Qed.

Lemma str_lt_le (a b : string) : PyStr.lt a b -> PyStr.le a b.
Proof. intros H. apply str_le_lt_or_eq. now left. Qed.

Lemma str_lt_not_le (a b : string) : PyStr.lt a b <-> ~ PyStr.le b a.
Proof.
  rewrite <- str_leb_false_lt, <- str_leb_le. destruct (String.leb b a); split; congruence.
Qed.

Lemma str_le_lt_trans (a b c : string) : PyStr.le a b -> PyStr.lt b c -> PyStr.lt a c.
Proof.
  intros H. apply str_le_lt_or_eq in H. destruct H as [H| ->]; [|easy].
  now apply str_lt_trans.
Qed.

Lemma str_lt_le_trans (a b c : string) : PyStr.lt a b -> PyStr.le b c -> PyStr.lt a c.
Proof.
  intros H1 H. apply str_le_lt_or_eq in H. destruct H as [H| <-]; [|easy].
  now apply str_lt_trans with b.
Qed.

Lemma str_le_trans (a b c : string) : PyStr.le a b -> PyStr.le b c -> PyStr.le a c.
Proof.
  intros H1 H2. apply str_le_lt_or_eq in H1. destruct H1 as [H1| ->]; [|easy].
  apply str_lt_le. now apply str_lt_le_trans with b.
Qed.

Lemma str_le_antisym (a b : string) : PyStr.le a b -> PyStr.le b a -> a = b.
Proof. rewrite <- !str_leb_le. apply String.leb_antisym. Qed.

Lemma str_le_total (a b : string) : PyStr.le a b \/ PyStr.le b a.
Proof. rewrite <- !str_leb_le. apply String.leb_total. Qed.

Lemma str_lt_or_le (a b : string) : PyStr.lt a b \/ PyStr.le b a.
Proof.
  rewrite <- str_ltb_lt, <- str_ltb_false_le. destruct (String.ltb a b); auto.
Qed.

(** The empty string is the least string: with the default checkpoint
      every non-empty timestamp is above it. *)
Lemma str_empty_lt (s : string) : PyStr.lt "" s <-> PyStr.is_empty s = false.
Proof. unfold PyStr.lt. destruct s; simpl; split; congruence. Qed.

Lemma str_empty_le (s : string) : PyStr.le "" s.
Proof. unfold PyStr.le. destruct s; simpl; congruence. Qed.

Lemma str_is_empty_true (s : string) : PyStr.is_empty s = true <-> s = "".
Proof. destruct s; simpl; split; congruence. Qed.

End StringOrder.

(* ===================================================================== *)
(** ** The gate *)
(* ===================================================================== *)

Lemma last_cons {B} (l : list B) : forall a d, last (a :: l) d = last l a.
Proof.
  induction l as [|b l IH]; intros a d; [reflexivity|].
  change (last (a :: b :: l) d) with (last (b :: l) d).
  now rewrite !IH.
Qed.

Section Gate.

Context {A : Type} (key : A -> string).

(** The two tests together are the strict comparison with the candidate. *)
Lemma skips_false_lt (c ts : string) : skips c ts = false <-> PyStr.lt c ts.
Proof.
  unfold skips. destruct ts as [|x ts].
  - simpl. split; [discriminate|]. unfold PyStr.lt. destruct c; discriminate.
  - cbn [PyStr.is_empty orb]. destruct c as [|y c].
    + simpl. split; reflexivity.
    + cbn [PyStr.is_empty negb andb]. apply str_leb_false_lt.
Qed.

Lemma skips_true_le (c ts : string) : skips c ts = true <-> PyStr.le ts c.
Proof.
  split.
  - intros H. destruct (str_lt_or_le c ts) as [L|L]; [|exact L].
    apply skips_false_lt in L. congruence.
  - intros H. destruct (skips c ts) eqn:S; [reflexivity|].
    apply skips_false_lt in S. apply str_lt_not_le in S. contradiction.
Qed.

Lemma plan_cons_lt (c : string) (x : A) (l : list A) :
  PyStr.lt c (key x) -> plan key c (x :: l) = x :: plan key (key x) l.
Proof. intros H. apply skips_false_lt in H. simpl. now rewrite H. Qed.

Lemma plan_cons_le (c : string) (x : A) (l : list A) :
  PyStr.le (key x) c -> plan key c (x :: l) = plan key c l.
Proof. intros H. apply skips_true_le in H. simpl. now rewrite H. Qed.

(** The handled timestamps are above the candidate and strictly ascending,
    whatever the order of the list. *)
Lemma plan_above (l : list A) : forall c,
  Forall (fun x => PyStr.lt c (key x)) (plan key c l).
Proof.
  induction l as [|x l IH]; intros c; simpl; [constructor|].
  destruct (skips c (key x)) eqn:S; [apply IH|].
  apply skips_false_lt in S. constructor; [exact S|].
  eapply Forall_impl; [|apply IH]. intros y Hy. simpl in Hy.
  now apply str_lt_trans with (key x).
Qed.

Lemma plan_ascending (l : list A) : forall c,
  StronglySorted PyStr.lt (map key (plan key c l)).
Proof.
  induction l as [|x l IH]; intros c; simpl; [constructor|].
  destruct (skips c (key x)) eqn:S; [apply IH|].
  simpl. constructor; [apply IH|].
  apply Forall_map. apply plan_above.
Qed.

(** The plan only reads the keys. *)
Lemma plan_map (l : list A) : forall c,
  map key (plan key c l) = plan (fun s => s) c (map key l).
Proof.
  induction l as [|x l IH]; intros c; simpl; [reflexivity|].
  destruct (skips c (key x)); simpl; now rewrite IH.
Qed.

Lemma plan_incl (l : list A) : forall c x, In x (plan key c l) -> In x l.
Proof.
  induction l as [|y l IH]; intros c x; simpl; [easy|].
  destruct (skips c (key y)); simpl; intros H.
  - right. eapply IH, H.
  - destruct H as [H|H]; [now left|right; eapply IH, H].
Qed.

Lemma plan_nil (l : list A) (c : string) :
  (forall x, In x l -> PyStr.le (key x) c) -> plan key c l = [].
Proof.
  induction l as [|x l IH]; intros H; [reflexivity|].
  rewrite plan_cons_le by (apply H; now left).
  apply IH. intros y Hy. apply H. now right.
Qed.

Lemma plan_nil_inv (l : list A) (c : string) :
  plan key c l = [] -> forall x, In x l -> PyStr.le (key x) c.
Proof.
  induction l as [|x l IH]; intros H y Hy; [easy|].
  simpl in H. destruct (skips c (key x)) eqn:S; [|discriminate].
  destruct Hy as [<-|Hy]; [now apply skips_true_le|now apply IH].
Qed.

Lemma final_cons_lt (c : string) (x : A) (l : list A) :
  PyStr.lt c (key x) -> final key c (x :: l) = final key (key x) l.
Proof.
  intros H. unfold final. rewrite plan_cons_lt by exact H.
  cbn [map]. apply last_cons.
Qed.

Lemma final_cons_le (c : string) (x : A) (l : list A) :
  PyStr.le (key x) c -> final key c (x :: l) = final key c l.
Proof. intros H. unfold final. now rewrite plan_cons_le. Qed.

Lemma final_ge (l : list A) : forall c, PyStr.le c (final key c l).
Proof.
  induction l as [|x l IH]; intros c; [apply str_le_refl|].
  destruct (str_lt_or_le c (key x)) as [L|L].
  - rewrite final_cons_lt by exact L.
    apply str_le_trans with (key x); [now apply str_lt_le|apply IH].
  - rewrite final_cons_le by exact L. apply IH.
Qed.

(** Every entry of the list is at or below the final key candidate: nothing is
    left to handle. *)
Lemma final_covers (l : list A) : forall c x,
  In x l -> PyStr.le (key x) (final key c l).
Proof.
  induction l as [|y l IH]; intros c x Hx; [easy|].
  destruct (str_lt_or_le c (key y)) as [L|L].
  - rewrite final_cons_lt by exact L. destruct Hx as [<-|Hx].
    + apply final_ge.
    + now apply IH.
  - rewrite final_cons_le by exact L. destruct Hx as [<-|Hx].
    + apply str_le_trans with c; [exact L|apply final_ge].
    + now apply IH.
Qed.

End Gate.

(* ===================================================================== *)
(** ** [sorted] returns the keys in ascending order *)
(* ===================================================================== *)

Section Sorting.

Context {A : Type} (key : A -> string).

Lemma insert_by_perm (x : A) (l : list A) :
  Permutation (x :: l) (insert_by key x l).
Proof.
  induction l as [|y l IH]; simpl; [apply Permutation_refl|].
  destruct (String.ltb (key y) (key x)); [|apply Permutation_refl].
  eapply perm_trans; [apply perm_swap|]. now apply perm_skip.
Qed.

Lemma sorted_perm (l : list A) : Permutation l (sorted key l).
Proof.
  induction l as [|x l IH]; simpl; [constructor|].
  eapply perm_trans; [|apply insert_by_perm]. now apply perm_skip.
Qed.

Lemma sorted_In (l : list A) (x : A) : In x (sorted key l) <-> In x l.
Proof.
  split; apply Permutation_in;
    [apply Permutation_sym|]; apply sorted_perm.
Qed.

Lemma insert_by_sorted (x : A) (l : list A) :
  StronglySorted (key_le key) l -> StronglySorted (key_le key) (insert_by key x l).
Proof.
  induction l as [|y l IH]; intros H; simpl.
  - repeat constructor.
  - inversion H as [|? ? Hl Hy]; subst.
    destruct (String.ltb (key y) (key x)) eqn:L.
    + constructor; [now apply IH|].
      apply str_ltb_lt, str_lt_le in L.
      eapply Permutation_Forall; [apply insert_by_perm|].
      constructor; [exact L|exact Hy].
    + apply str_ltb_false_le in L. constructor; [exact H|].
      constructor; [exact L|].
      eapply Forall_impl; [|exact Hy]. intros z Hz.
      unfold key_le in *. now apply str_le_trans with (key y).
Qed.

Lemma sorted_sorted (l : list A) : StronglySorted (key_le key) (sorted key l).
Proof.
  induction l as [|x l IH]; simpl; [constructor|now apply insert_by_sorted].
Qed.

Lemma insert_by_map (x : A) (l : list A) :
  map key (insert_by key x l) = insert_by (fun s => s) (key x) (map key l).
Proof.
  induction l as [|y l IH]; simpl; [reflexivity|].
  destruct (String.ltb (key y) (key x)); simpl; [now rewrite IH|reflexivity].
Qed.

Lemma sorted_map (l : list A) :
  map key (sorted key l) = sorted (fun s => s) (map key l).
Proof.
  induction l as [|x l IH]; simpl; [reflexivity|].
  now rewrite insert_by_map, IH.
Qed.

End Sorting.

(** Two ascending lists of strings with the same elements are equal. *)
Lemma ascending_unique (l1 : list string) : forall l2,
  StronglySorted PyStr.le l1 -> StronglySorted PyStr.le l2 ->
  Permutation l1 l2 -> l1 = l2.
Proof.
  induction l1 as [|a l1 IH]; intros l2 S1 S2 P.
  - apply Permutation_nil in P. now subst.
  - destruct l2 as [|b l2].
    + apply Permutation_sym, Permutation_nil in P. discriminate.
    + inversion S1 as [|? ? S1' F1]; inversion S2 as [|? ? S2' F2]; subst.
      assert (Eab : a = b).
      { apply str_le_antisym.
        - assert (I : In b (a :: l1))
            by (eapply Permutation_in; [apply Permutation_sym, P|now left]).
          destruct I as [->|I]; [apply str_le_refl|].
          rewrite Forall_forall in F1. now apply F1.
        - assert (I : In a (b :: l2)) by (eapply Permutation_in; [apply P|now left]).
          destruct I as [->|I]; [apply str_le_refl|].
          rewrite Forall_forall in F2. now apply F2. }
      subst b. f_equal. apply IH; try assumption.
      now apply Permutation_cons_inv with a.
Qed.

(** The sorted keys do not depend on the order of the batch. *)
Lemma sorted_keys_perm {A} (key : A -> string) (l1 l2 : list A) :
  Permutation l1 l2 -> map key (sorted key l1) = map key (sorted key l2).
Proof.
  intros P. apply ascending_unique.
  - rewrite sorted_map. apply (sorted_sorted (fun s : string => s)).
  - rewrite sorted_map. apply (sorted_sorted (fun s : string => s)).
  - apply Permutation_map.
    eapply perm_trans; [apply Permutation_sym, sorted_perm|].
    eapply perm_trans; [exact P|apply sorted_perm].
Qed.

Lemma ascending_NoDup (l : list string) : StronglySorted PyStr.lt l -> NoDup l.
Proof.
  induction 1 as [|a l S IH F]; constructor; [|exact IH].
  intros I. rewrite Forall_forall in F. apply (str_lt_irrefl a). now apply F.
Qed.

(** On a batch in ascending order the loop handles an entry exactly when
    its timestamp is above the checkpoint and no entry before it carries
    the same timestamp. *)
Lemma plan_sorted_In (l : list RawRow) : forall c r,
  StronglySorted (key_le get_timestamp) l ->
  (In r (plan get_timestamp c l) <->
   PyStr.lt c (get_timestamp r) /\ find (has_ts (get_timestamp r)) l = Some r).
Proof.
  induction l as [|x l IH]; intros c r S.
  - simpl. split; [easy|]. intros [_ H]. discriminate.
  - inversion S as [|? ? S' F]; subst. rewrite Forall_forall in F.
    cbn [find]. unfold has_ts at 1.
    destruct (str_lt_or_le c (get_timestamp x)) as [L|L].
    + rewrite plan_cons_lt by exact L. cbn [In]. rewrite IH by exact S'.
      destruct (String.eqb_spec (get_timestamp x) (get_timestamp r)) as [Exr|Nxr].
      * split.
        -- intros [->|[H _]]; [now split|].
           rewrite Exr in H. now apply str_lt_irrefl in H.
        -- intros [_ H]. left. congruence.
      * split.
        -- intros [->|[H1 H2]]; [congruence|]. split; [|exact H2].
           now apply str_lt_trans with (get_timestamp x).
        -- intros [H1 H2]. right. split; [|exact H2].
           apply find_some in H2. destruct H2 as [I _].
           apply F in I. apply str_le_lt_or_eq in I. destruct I; [easy|contradiction].
    + rewrite plan_cons_le by exact L. rewrite IH by exact S'.
      destruct (String.eqb_spec (get_timestamp x) (get_timestamp r)) as [Exr|Nxr].
      * split.
        -- intros [H _]. rewrite <- Exr in H.
           apply str_lt_not_le in H. contradiction.
        -- intros [H _]. rewrite <- Exr in H.
           apply str_lt_not_le in H. contradiction.
      * reflexivity.
Qed.

(* ===================================================================== *)
(** ** The loop of [main] *)
(* ===================================================================== *)

Lemma frame_refl (w : World) : frame w w.
Proof. now constructor. Qed.

Lemma frame_trans (w1 w2 w3 : World) : frame w1 w2 -> frame w2 w3 -> frame w1 w3.
Proof. intros [] []; constructor; congruence. Qed.

Lemma frame_tick (w : World) : frame w (tick w).
Proof. now constructor. Qed.

Lemma frame_print (m : Msg) (w : World) :
  is_summary m = false -> frame w (snd (print m w)).
Proof.
  intros H. constructor; try reflexivity.
  unfold summarised. simpl. rewrite existsb_app. simpl. rewrite H.
  now rewrite !orb_false_r.
Qed.

Lemma frame_after_tick (w w' : World) : frame (tick w) w' -> frame w w'.
Proof. apply frame_trans, frame_tick. Qed.

Create HintDb frames.
#[local] Hint Resolve frame_refl frame_tick frame_after_tick : frames.
#[local] Hint Extern 2 (frame _ _) => eapply frame_trans; [eassumption|] : frames.

Section Loop.

Variable E : Env.

(** [append_parsed] either returns, and the sheet has the row, or raises,
    and the sheet is as before. *)
Lemma append_parsed_spec (ts u raw pj : string) (st : json) (w : World) :
  let res := append_parsed E ts u raw pj st w in
  frame w (snd res) /\
  match fst res with
  | inr _ =>
      parsed_logs (snd res) = (parsed_logs w ++ [mkParsedLogRow ts u raw pj st])%list
  | inl _ => parsed_logs (snd res) = parsed_logs w
  end.
Proof.
  unfold append_parsed, bind, http_post, raise_for_status, stored, raise, ret.
  destruct (requests_post E w _) as [e|r]; simpl.
  - split; [apply frame_tick|reflexivity].
  - destruct ((400 <=? status_code r)%Z && (status_code r <? 600)%Z); simpl.
    + split; [apply frame_tick|reflexivity].
    + split; [now constructor|reflexivity].
Qed.

(** [parse_with_llm] sends one request and does nothing else to the world,
    whatever it returns or raises. *)
Lemma parse_with_llm_world (raw d : string) (w : World) :
  snd (parse_with_llm E raw d w) = tick w.
Proof.
  unfold parse_with_llm, bind, of_result, Py.get, raise, ret.
  destruct (responses_create E w _) as [e|out]; simpl; [reflexivity|].
  destruct (json_loads E _) as [e|obj]; simpl; [reflexivity|].
  destruct obj; reflexivity.
Qed.

(** So does [get_workouts_count_for_date]. *)
Lemma count_world (d : string) (w : World) :
  snd (get_workouts_count_for_date E d w) = tick w.
Proof.
  unfold get_workouts_count_for_date, bind, http_get, raise_for_status,
    response_json, of_result, raise, ret.
  destruct (requests_get E w (GetWorkoutsByDate d)) as [e|r]; cbn [fst snd];
    [reflexivity|].
  destruct ((400 <=? status_code r)%Z && (status_code r <? 600)%Z); cbn [fst snd];
    [reflexivity|].
  destruct (body r) as [e|data]; cbn [fst snd]; [reflexivity|].
  destruct (negb (reply_ok data)); reflexivity.
Qed.

Lemma try_suite_spec (ts u raw : string) (l : Locals) (w : World) :
  let res := try_suite E ts u raw (l, w) in
  frame w (snd (snd res)) /\
  last_ts (fst (snd res)) = last_ts l /\
  processed_any (fst (snd res)) = processed_any l /\
  match fst res with
  | inr _ =>
      exists a, parsed_logs (snd (snd res)) = (parsed_logs w ++ [a])%list
                /\ pl_key a = (ts, u, raw)
  | inl _ => parsed_logs (snd (snd res)) = parsed_logs w
  end.
Proof.
  unfold try_suite, bind, io, iso_now_date_utc, assign. cbn [fst snd].
  pose proof (parse_with_llm_world raw (utc_today E w) w) as PW.
  destruct (parse_with_llm E raw (utc_today E w) w) as [[e|res] w1];
    cbn [snd] in PW; subst w1; cbn [fst snd].
  - split; [auto with frames|repeat split].
  - pose proof (append_parsed_spec ts u raw (fst res) (snd res) (tick w)) as [F L].
    destruct (append_parsed E ts u raw (fst res) (snd res) (tick w)) as [[e|[]] w2];
      cbn [fst snd] in *.
    + split; [auto with frames|repeat split; exact L].
    + split; [auto with frames|repeat split].
      eexists. split; [exact L|reflexivity].
Qed.

Lemma except_suite_spec (ts u raw : string) (e : Exn) (l : Locals) (w : World) :
  let res := except_suite E ts u raw e (l, w) in
  frame w (snd (snd res)) /\
  fst (snd res) = l /\
  match fst res with
  | inr _ =>
      parsed_logs (snd (snd res)) =
      (parsed_logs w ++
       [mkParsedLogRow ts u raw (json_dumps E (JObj [("error", JStr (exn_str e))]))
          (JStr "error")])%list
  | inl _ => parsed_logs (snd (snd res)) = parsed_logs w
  end.
Proof.
  unfold except_suite, io. cbv zeta. cbn [fst snd].
  pose proof (append_parsed_spec ts u raw
                (json_dumps E (JObj [("error", JStr (exn_str e))]))
                (JStr "error") w) as [F L].
  destruct (append_parsed E ts u raw _ (JStr "error") w) as [[e'|[]] w2];
    cbn [fst snd] in *; auto.
Qed.

(** The three outcomes of an iteration. *)
Lemma process_row_spec (r : RawRow) (l : Locals) (w : World) :
  row_outcome r l w (process_row E r (l, w)).
Proof.
  unfold process_row.
  unfold bind at 1. unfold io at 1. cbn [snd fst].
  pose proof (frame_print (PrintProcessing r) w eq_refl) as F0.
  destruct (print (PrintProcessing r) w) as [[e0|[]] w0] eqn:P0; [discriminate|].
  cbn [snd] in F0.
  assert (L0 : parsed_logs w0 = parsed_logs w) by (inversion P0; reflexivity).
  destruct (PyStr.is_empty (get_timestamp r)) eqn:Ets.
  { apply RowSkipped; [unfold skips; now rewrite Ets|exact F0|exact L0]. }
  unfold bind at 1. unfold locals at 1. cbn [fst].
  destruct (negb (PyStr.is_empty (last_ts l)) && (get_timestamp r <=? last_ts l))
    eqn:G.
  { apply RowSkipped; [unfold skips; now rewrite Ets, G|exact F0|exact L0]. }
  assert (SK : skips (last_ts l) (get_timestamp r) = false)
    by (unfold skips; now rewrite Ets, G).
  cbv zeta.
  set (ts := get_timestamp r). set (u := or_default (raw_user_id r) "").
  set (raw := or_default (raw_text r) "").
  unfold bind, try_except, assign.
  pose proof (try_suite_spec ts u raw l w0) as (F1 & T1 & A1 & L1).
  destruct (try_suite E ts u raw (l, w0)) as [[e|[]] [l1 w1]]; cbn [fst snd] in *.
  - pose proof (except_suite_spec ts u raw e l1 w1) as (F2 & EL & L2).
    destruct (except_suite E ts u raw e (l1, w1)) as [[e'|[]] [l2 w2]];
      cbn [fst snd] in *; subst l2.
    + apply RowAborted; [exact SK|eauto with frames|congruence].
    + eapply RowHandled; [exact SK|eauto with frames| | |reflexivity|reflexivity].
      * rewrite L2, L1, L0. reflexivity.
      * reflexivity.
  - destruct L1 as (a & L1 & K).
    eapply RowHandled; [exact SK|eauto with frames| | |reflexivity|reflexivity].
    + rewrite L1, L0. reflexivity.
    + exact K.
Qed.

(** The loop over a list of entries: it writes the audit rows of a prefix of
    the plan and, when no exception leaves it, of the whole plan. *)
Lemma loop_spec (rows : list RawRow) : forall (l : Locals) (w : World),
  let res := for_each rows (process_row E) (l, w) in
  frame w (snd (snd res)) /\
  exists done rest new,
    plan get_timestamp (last_ts l) rows = (done ++ rest)%list /\
    parsed_logs (snd (snd res)) = (parsed_logs w ++ new)%list /\
    map pl_key new = map row_key done /\
    match fst res with
    | inr _ =>
        rest = [] /\
        last_ts (fst (snd res)) = final get_timestamp (last_ts l) rows /\
        match done with
        | [] => fst (snd res) = l
        | _ :: _ => processed_any (fst (snd res)) = true
        end
    | inl _ => rest <> []
    end.
Proof.
  induction rows as [|r rows IH]; intros l w res.
  - subst res. simpl. split; [apply frame_refl|].
    exists [], [], []. rewrite !app_nil_r. repeat split.
  - subst res. cbn [for_each]. unfold bind. cbv beta.
    destruct (process_row_spec r l w) as [w' SK F L|l' w' a SK F L K T P|e l' w' SK F L];
      cbv beta iota.
    + specialize (IH l w'). cbv zeta in IH.
      destruct IH as (F' & done & rest & new & HP & HL & HK & HR).
      split; [eauto using frame_trans|].
      exists done, rest, new. apply skips_true_le in SK.
      rewrite plan_cons_le by exact SK. rewrite final_cons_le by exact SK.
      rewrite HL, L. repeat split; assumption.
    + specialize (IH l' w'). cbv zeta in IH. rewrite T in IH.
      destruct IH as (F' & done & rest & new & HP & HL & HK & HR).
      split; [eauto using frame_trans|].
      exists (r :: done), rest, (a :: new). apply skips_false_lt in SK.
      rewrite plan_cons_lt by exact SK. rewrite final_cons_lt by exact SK.
      rewrite HL, L, HP, <- app_assoc. cbn [map app]. rewrite HK, K.
      repeat split.
      destruct (fst (for_each rows (process_row E) (l', w'))); [exact HR|].
      destruct HR as (HR1 & HR2 & HR3). repeat split; try assumption.
      destruct done; [now rewrite HR3|exact HR3].
    + cbn [fst snd]. split; [exact F|].
      exists [], (plan get_timestamp (last_ts l) (r :: rows)), [].
      rewrite app_nil_r. repeat split; [exact L|].
      apply skips_false_lt in SK. rewrite plan_cons_lt by exact SK. discriminate.
Qed.

End Loop.

(* ===================================================================== *)
(** ** What the statements after the loop leave alone *)
(* ===================================================================== *)

Section Respects.

Context {S : Type} (R : S -> S -> Prop).
Hypothesis R_refl : forall s, R s s.
Hypothesis R_trans : forall s1 s2 s3, R s1 s2 -> R s2 s3 -> R s1 s3.

Lemma respects_ret {A} (a : A) : respects R (ret a).
Proof. intros s. apply R_refl. Qed.

Lemma respects_raise {A} (e : Exn) : respects R (@raise S A e).
Proof. intros s. apply R_refl. Qed.

Lemma respects_of_result {A} (r : Exn + A) : respects R (of_result r).
Proof. destruct r; [apply respects_raise|apply respects_ret]. Qed.

Lemma respects_bind {A B} (m : Prog S A) (k : A -> Prog S B) :
  respects R m -> (forall a, respects R (k a)) -> respects R (bind m k).
Proof.
  intros Hm Hk s. unfold bind. specialize (Hm s).
  destruct (m s) as [[e|a] s']; cbn [snd] in *; [exact Hm|].
  eapply R_trans; [exact Hm|apply Hk].
Qed.

Lemma respects_map_prog {A B} (f : A -> Prog S B) (l : list A) :
  (forall a, respects R (f a)) -> respects R (map_prog f l).
Proof.
  intros Hf. induction l as [|x l IH]; cbn [map_prog]; [apply respects_ret|].
  apply respects_bind; [apply Hf|]. intros y.
  apply respects_bind; [exact IH|]. intros ys. apply respects_ret.
Qed.

Lemma respects_get (obj : json) (key : string) (d : json) :
  respects R (Py.get obj key d).
Proof. destruct obj; first [apply respects_ret|apply respects_raise]. Qed.

Lemma respects_subscript (obj : json) (key : string) :
  respects R (Py.subscript obj key).
Proof.
  destruct obj; cbn [Py.subscript]; try apply respects_raise.
  destruct (Py.lookup key fields); [apply respects_ret|apply respects_raise].
Qed.

Lemma respects_iter (v : json) : respects R (Py.iter v).
Proof. destruct v; first [apply respects_ret|apply respects_raise]. Qed.

End Respects.

Lemma keeps_refl (w : World) : keeps w w.
Proof. now constructor. Qed.

Lemma keeps_trans (w1 w2 w3 : World) : keeps w1 w2 -> keeps w2 w3 -> keeps w1 w3.
Proof. intros [] []; constructor; congruence. Qed.

Lemma respects_io {A} (R : World -> World -> Prop) (m : IO A) :
  respects R m -> respects (on_world R) (io m).
Proof.
  intros H [l w]. unfold on_world, io. cbn [fst snd]. specialize (H w).
  now destruct (m w).
Qed.

Ltac respects_keeps :=
  repeat first
    [ apply respects_ret; [apply keeps_refl]
    | apply respects_raise; [apply keeps_refl]
    | apply respects_of_result; [apply keeps_refl]
    | apply respects_get; [apply keeps_refl]
    | apply respects_subscript; [apply keeps_refl]
    | apply respects_iter; [apply keeps_refl]
    | apply respects_map_prog; [apply keeps_refl|apply keeps_trans|intros]
    | apply respects_bind; [apply keeps_trans| |intros] ].

Section AfterLoop.

Variable E : Env.

Lemma keeps_http_get (q : Get) : respects keeps (http_get E q).
Proof. intros w. now constructor. Qed.

Lemma keeps_http_post (p : Post) : respects keeps (http_post E p).
Proof. intros w. now constructor. Qed.

Lemma keeps_raise_for_status (r : Response) : respects keeps (raise_for_status r).
Proof.
  unfold raise_for_status.
  destruct ((400 <=? status_code r)%Z && (status_code r <? 600)%Z); respects_keeps.
Qed.

Lemma keeps_count (d : string) : respects keeps (get_workouts_count_for_date E d).
Proof.
  unfold get_workouts_count_for_date, response_json.
  respects_keeps; try apply keeps_http_get; try apply keeps_raise_for_status.
  destruct (negb (reply_ok a1)); respects_keeps.
Qed.

Lemma keeps_make_workout_id (d : json) : respects keeps (make_workout_id E d).
Proof.
  unfold make_workout_id. destruct d; try (apply respects_raise, keeps_refl).
  cbv zeta. apply respects_bind; [apply keeps_trans|apply keeps_count|intros c].
  apply respects_ret, keeps_refl.
Qed.

Lemma keeps_append_workout_row (id : string) (w : json) :
  respects keeps (append_workout_row E id w).
Proof.
  unfold append_workout_row, get_or_none. cbv zeta.
  respects_keeps; try apply keeps_http_post; try apply keeps_raise_for_status.
  intros s. now constructor.
Qed.

Lemma keeps_append_activity_rows (id : string) (d acts : json) :
  respects keeps (append_activity_rows E id d acts).
Proof.
  unfold append_activity_rows, get_or_none. cbv zeta.
  respects_keeps; try apply keeps_http_post; try apply keeps_raise_for_status.
  intros s. now constructor.
Qed.

(** The statements after the loop write no audit row, do not touch the
    state file and print nothing. *)
Lemma keeps_post_sheets : respects (on_world keeps) (post_sheets E).
Proof.
  assert (Rr : forall s, on_world keeps s s) by (intros s; apply keeps_refl).
  assert (Rt : forall s1 s2 s3,
             on_world keeps s1 s2 -> on_world keeps s2 s3 -> on_world keeps s1 s3)
    by (unfold on_world; intros s1 s2 s3; apply keeps_trans).
  unfold post_sheets, read_parsed_json.
  apply respects_bind; [exact Rt| |intros pj].
  { apply respects_bind; [exact Rt| |intros l].
    - intros s. apply Rr.
    - destruct (parsed_json l); [apply respects_ret|apply respects_raise]; exact Rr. }
  apply respects_bind; [exact Rt|apply respects_of_result; exact Rr|intros obj].
  apply respects_bind; [exact Rt|apply respects_get; exact Rr|intros status].
  destruct (Py.eq_str status "ok"); [|apply respects_ret; exact Rr].
  apply respects_bind; [exact Rt|apply respects_subscript; exact Rr|intros w].
  apply respects_bind; [exact Rt|apply respects_subscript; exact Rr|intros d].
  apply respects_bind;
    [exact Rt|apply respects_io, keeps_make_workout_id|intros id].
  apply respects_bind;
    [exact Rt|apply respects_io, keeps_append_workout_row|intros _].
  apply respects_bind; [exact Rt|apply respects_get; exact Rr|intros acts].
  apply respects_io, keeps_append_activity_rows.
Qed.

End AfterLoop.

(* ===================================================================== *)
(** ** One run of [main] *)
(* ===================================================================== *)

Section Run.

Variable E : Env.

Lemma fetch_recent_raw_spec (n : Z) (w : World) :
  frame w (snd (fetch_recent_raw E n w)) /\
  parsed_logs (snd (fetch_recent_raw E n w)) = parsed_logs w.
Proof.
  unfold fetch_recent_raw, bind, http_get, print, raise_for_status, response_json,
    of_result, raise, ret.
  destruct (requests_get E w (GetRaw n)) as [e|r]; cbn [fst snd].
  - split; [apply frame_tick|reflexivity].
  - assert (F : frame w
                  (mkWorld (state_file w)
                     ((stdout w ++ [PrintStatusCode (status_code r)]) ++
                      [PrintContent (content r)])%list
                     (parsed_logs w) (workouts w) (activities w) (saves w)
                     (S (calls w)))).
    { constructor; try reflexivity. unfold summarised. cbn [stdout].
      rewrite !existsb_app. cbn. now rewrite !orb_false_r. }
    destruct ((400 <=? status_code r)%Z && (status_code r <? 600)%Z);
      cbn [fst snd tick state_file stdout parsed_logs workouts activities saves calls];
      [split; [exact F|reflexivity]|].
    destruct (body r) as [e|data]; cbn [fst snd]; [split; [exact F|reflexivity]|].
    destruct (negb (reply_ok data)); cbn [fst snd]; split; first [exact F|reflexivity].
Qed.

(** [main], statement by statement. *)
Lemma run_unfold (file : option State) :
  run E file =
  match fetch_recent_raw E 100 (before_fetch file) with
  | (inl e, w1) => (inl e, w1)
  | (inr rows, w1) =>
      match for_each (sorted get_timestamp rows) (process_row E)
              (mkLocals (loaded file) false None, w1) with
      | (inl e, s2) => (inl e, snd s2)
      | (inr _, s2) =>
          match checkpoint_step s2 with
          | (inl e, s3) => (inl e, snd s3)
          | (inr _, s3) => (fst (post_sheets E s3), snd (snd (post_sheets E s3)))
          end
      end
  end.
Proof.
  unfold run, main, bind, io, load_state, print, assign, locals, start, before_fetch,
    loaded.
  destruct file as [st|];
    cbn -[fetch_recent_raw for_each checkpoint_step post_sheets sorted process_row].
  all: match goal with
       | |- context [fetch_recent_raw E 100 ?w] =>
           destruct (fetch_recent_raw E 100 w) as [[e|rows] w1]
       end; cbn [fst snd]; [reflexivity|].
  all: unfold set_processed_any;
    cbn -[fetch_recent_raw for_each checkpoint_step post_sheets sorted process_row].
  all: match goal with
       | |- context [for_each ?l ?b ?s] =>
           destruct (for_each l b s) as [[e|[]] s2]
       end; [reflexivity|].
  all: destruct (checkpoint_step s2) as [[e|[]] s3]; [reflexivity|].
  all: destruct (post_sheets E s3) as [r s4]; reflexivity.
Qed.

(** The checkpoint step: one write of the state file and the summary when
    something was handled, the summary alone otherwise. *)
Lemma checkpoint_step_spec (l : Locals) (w : World) :
  exists w',
    checkpoint_step (l, w) = (inr tt, (l, w')) /\
    summarised w' = true /\
    parsed_logs w' = parsed_logs w /\
    workouts w' = workouts w /\ activities w' = activities w /\
    if processed_any l
    then saves w' = (saves w ++ [mkState (Some (last_ts l))])%list
         /\ state_file w' = Some (mkState (Some (last_ts l)))
         /\ In (PrintDone (last_ts l)) (stdout w')
    else saves w' = saves w /\ state_file w' = state_file w
         /\ In PrintNothingNew (stdout w').
Proof.
  unfold checkpoint_step, bind, locals, io, save_state, print.
  cbn [fst snd]. destruct (processed_any l); cbn [fst snd];
    eexists; (split; [reflexivity|]);
    unfold summarised; cbn [stdout state_file parsed_logs workouts activities saves];
    rewrite existsb_app; cbn [existsb is_summary]; rewrite orb_true_r;
    repeat split; apply in_or_app; right; now left.
Qed.

Lemma post_sheets_unbound (l : Locals) (w : World) :
  parsed_json l = None -> post_sheets E (l, w) = (inl unbound_parsed_json, (l, w)).
Proof.
  intros H. unfold post_sheets, read_parsed_json, bind, locals. cbn [fst].
  now rewrite H.
Qed.

(** A run whose fetch raises does nothing else. *)
Lemma run_fetch_failed (file : option State) (e : Exn) :
  fetched E file = inl e ->
  fst (run E file) = inl e /\
  parsed_logs (snd (run E file)) = [] /\
  frame (before_fetch file) (snd (run E file)).
Proof.
  unfold fetched. intros H. rewrite run_unfold.
  destruct (fetch_recent_raw_spec 100 (before_fetch file)) as [F L].
  destruct (fetch_recent_raw E 100 (before_fetch file)) as [[e'|rows] w1];
    cbn [fst snd] in *; [|discriminate].
  injection H as ->. repeat split; try apply F. exact L.
Qed.

(** A run whose fetch returns [rows]: the audit rows it writes are those of
    a prefix [done] of the plan over the sorted batch. When the summary is
    printed the prefix is the whole plan, and the state file is written
    once, with the last handled timestamp, if the plan is not empty. When no
    summary is printed an exception has left the loop. *)
Lemma run_spec (file : option State) (rows : list RawRow) :
  fetched E file = inr rows ->
  exists done rest,
    plan get_timestamp (loaded file) (sorted get_timestamp rows) = (done ++ rest)%list /\
    map pl_key (parsed_logs (snd (run E file))) = map row_key done /\
    if summarised (snd (run E file))
    then
      rest = [] /\
      match done with
      | [] =>
          saves (snd (run E file)) = [] /\
          state_file (snd (run E file)) = file /\
          workouts (snd (run E file)) = [] /\
          activities (snd (run E file)) = [] /\
          fst (run E file) = inl unbound_parsed_json /\
          In PrintNothingNew (stdout (snd (run E file)))
      | _ :: _ =>
          let ts := final get_timestamp (loaded file) (sorted get_timestamp rows) in
          saves (snd (run E file)) = [mkState (Some ts)] /\
          state_file (snd (run E file)) = Some (mkState (Some ts)) /\
          In (PrintDone ts) (stdout (snd (run E file)))
      end
    else
      rest <> [] /\
      saves (snd (run E file)) = [] /\
      state_file (snd (run E file)) = file /\
      workouts (snd (run E file)) = [] /\
      activities (snd (run E file)) = [] /\
      exists e, fst (run E file) = inl e.
Proof.
  unfold fetched. intros H. rewrite run_unfold.
  destruct (fetch_recent_raw_spec 100 (before_fetch file)) as [F1 L1].
  destruct (fetch_recent_raw E 100 (before_fetch file)) as [[e'|rows'] w1];
    cbn [fst snd] in *; [discriminate|].
  injection H as ->.
  set (l0 := mkLocals (loaded file) false None).
  pose proof (loop_spec E (sorted get_timestamp rows) l0 w1) as LS.
  cbv zeta in LS. destruct LS as (F2 & done & rest & new & HP & HL & HK & HR).
  exists done, rest. cbn [last_ts l0] in HP. split; [exact HP|].
  assert (F12 : frame (before_fetch file)
                  (snd (snd (for_each (sorted get_timestamp rows) (process_row E)
                               (l0, w1)))))
    by (eapply frame_trans; eassumption).
  rewrite L1 in HL. cbn [parsed_logs before_fetch app] in HL.
  destruct (for_each (sorted get_timestamp rows) (process_row E) (l0, w1))
    as [[e|[]] [l2 w2]]; cbn [fst snd] in *.
  - (* an exception left the loop *)
    rewrite HL. split; [exact HK|].
    destruct F12 as [Ff Fs Fw Fa Fm]. rewrite Fm. cbn.
    repeat split; try assumption. now exists e.
  - destruct HR as (-> & HT & HD).
    destruct (checkpoint_step_spec l2 w2) as (w3 & C & SM & CL & CW & CA & CS).
    rewrite C. cbn [fst snd].
    pose proof (keeps_post_sheets E (l2, w3)) as [Kf Ks Kl Ko].
    cbn [snd] in Kf, Ks, Kl, Ko.
    assert (SM4 : summarised (snd (snd (post_sheets E (l2, w3)))) = true)
      by (unfold summarised; rewrite Ko; exact SM).
    rewrite SM4, Kl, CL, HL. split; [exact HK|]. split; [reflexivity|].
    destruct F12 as [Ff Fs Fw Fa Fm]. cbn [before_fetch state_file saves] in Ff, Fs.
    destruct done as [|d done].
    + subst l2. cbn [processed_any l0] in CS. destruct CS as (CS1 & CS2 & CS3).
      rewrite post_sheets_unbound by reflexivity. cbn [fst snd].
      rewrite CS1, CS2, CW, CA, Fs, Ff, Fw, Fa. repeat split. exact CS3.
    + rewrite HD in CS. destruct CS as (CS1 & CS2 & CS3).
      cbv zeta. rewrite HT in CS1, CS2, CS3.
      rewrite Ks, Kf, Ko, CS1, CS2, Fs. repeat split. exact CS3.
Qed.

End Run.

(* ===================================================================== *)
(** ** Headers and activities: once per run *)
(* ===================================================================== *)

Lemma upto_refl (a b : nat) (w : World) : upto a b w w.
Proof. unfold upto. lia. Qed.

Lemma upto_trans (a b c d : nat) (w1 w2 w3 : World) :
  upto a b w1 w2 -> upto c d w2 w3 -> upto (a + c) (b + d) w1 w3.
Proof. unfold upto. lia. Qed.

Lemma upto_zero_trans (w1 w2 w3 : World) :
  upto 0 0 w1 w2 -> upto 0 0 w2 w3 -> upto 0 0 w1 w3.
Proof. apply (upto_trans 0 0 0 0). Qed.

Lemma respects_bind_upto {S A B} (f : S -> World) (a b c d : nat)
  (m : Prog S A) (k : A -> Prog S B) :
  respects (fun s s' => upto a b (f s) (f s')) m ->
  (forall x, respects (fun s s' => upto c d (f s) (f s')) (k x)) ->
  respects (fun s s' => upto (a + c) (b + d) (f s) (f s')) (bind m k).
Proof.
  intros Hm Hk s. unfold bind. specialize (Hm s).
  destruct (m s) as [[e|x] s']; cbn [snd] in *.
  - unfold upto in *. lia.
  - eapply upto_trans; [exact Hm|apply Hk].
Qed.

Ltac respects_quiet :=
  repeat first
    [ apply respects_ret; [apply upto_refl]
    | apply respects_raise; [apply upto_refl]
    | apply respects_of_result; [apply upto_refl]
    | apply respects_get; [apply upto_refl]
    | apply respects_subscript; [apply upto_refl]
    | apply respects_iter; [apply upto_refl]
    | apply respects_map_prog; [apply upto_refl|apply upto_zero_trans|intros]
    | apply respects_bind; [apply upto_zero_trans| |intros] ].

Section Once.

Variable E : Env.

Lemma quiet_http_post (p : Post) : respects (upto 0 0) (http_post E p).
Proof. intros w. unfold upto. cbn. lia. Qed.

Lemma quiet_raise_for_status (r : Response) : respects (upto 0 0) (raise_for_status r).
Proof.
  unfold raise_for_status.
  destruct ((400 <=? status_code r)%Z && (status_code r <? 600)%Z); respects_quiet.
Qed.

Lemma quiet_count (d : string) : respects (upto 0 0) (get_workouts_count_for_date E d).
Proof. intros w. rewrite count_world. unfold upto. cbn. lia. Qed.

Lemma quiet_make_workout_id (d : json) : respects (upto 0 0) (make_workout_id E d).
Proof.
  unfold make_workout_id. destruct d; try (apply respects_raise, upto_refl).
  cbv zeta. apply respects_bind; [apply upto_zero_trans|apply quiet_count|intros c].
  apply respects_ret, upto_refl.
Qed.

Lemma stored_workout (row : WorkoutRow) : respects (upto 1 0) (stored (AppendWorkout row)).
Proof.
  intros w. unfold upto. cbn. rewrite length_app. cbn. lia.
Qed.

Lemma stored_activities (rows : list ActivityRow) :
  respects (upto 0 1) (stored (AppendActivities rows)).
Proof.
  intros w. unfold upto. cbn. rewrite length_app. cbn. lia.
Qed.

Lemma one_header (id : string) (w : json) :
  respects (upto 1 0) (append_workout_row E id w).
Proof.
  unfold append_workout_row, get_or_none. cbv zeta.
  repeat (apply (respects_bind_upto (fun w => w) 0 0 1 0);
          [apply respects_get, upto_refl|intros ?]).
  apply (respects_bind_upto (fun w => w) 0 0 1 0); [apply quiet_http_post|intros r].
  apply (respects_bind_upto (fun w => w) 0 0 1 0); [apply quiet_raise_for_status|intros _].
  apply stored_workout.
Qed.

Lemma one_batch (id : string) (d acts : json) :
  respects (upto 0 1) (append_activity_rows E id d acts).
Proof.
  unfold append_activity_rows, get_or_none. cbv zeta.
  apply (respects_bind_upto (fun w => w) 0 0 0 1); [apply respects_iter, upto_refl|intros items].
  apply (respects_bind_upto (fun w => w) 0 0 0 1).
  { apply respects_map_prog; [apply upto_refl|apply upto_zero_trans|intros a].
    respects_quiet. }
  intros rows.
  apply (respects_bind_upto (fun w => w) 0 0 0 1); [apply quiet_http_post|intros r].
  apply (respects_bind_upto (fun w => w) 0 0 0 1); [apply quiet_raise_for_status|intros _].
  apply stored_activities.
Qed.

Lemma respects_io_upto {A} (a b : nat) (m : IO A) :
  respects (upto a b) m -> respects (fun s s' : Locals * World => upto a b (snd s) (snd s')) (io m).
Proof. apply (respects_io (upto a b)). Qed.

Lemma post_sheets_once :
  respects (fun s s' : Locals * World => upto 1 1 (snd s) (snd s')) (post_sheets E).
Proof.
  assert (Rr : forall a b (s : Locals * World), upto a b (snd s) (snd s))
    by (intros; apply upto_refl).
  unfold post_sheets, read_parsed_json.
  apply (respects_bind_upto snd 0 0 1 1); [|intros pj].
  { apply (respects_bind_upto snd 0 0 0 0); [intros s; apply Rr|intros l].
    destruct (parsed_json l); [apply respects_ret|apply respects_raise]; apply Rr. }
  apply (respects_bind_upto snd 0 0 1 1); [apply respects_of_result, Rr|intros obj].
  apply (respects_bind_upto snd 0 0 1 1); [apply respects_get, Rr|intros status].
  destruct (Py.eq_str status "ok"); [|apply respects_ret, Rr].
  apply (respects_bind_upto snd 0 0 1 1); [apply respects_subscript, Rr|intros w].
  apply (respects_bind_upto snd 0 0 1 1); [apply respects_subscript, Rr|intros d].
  apply (respects_bind_upto snd 0 0 1 1);
    [apply respects_io_upto, quiet_make_workout_id|intros id].
  apply (respects_bind_upto snd 1 0 0 1);
    [apply respects_io_upto, one_header|intros _].
  apply (respects_bind_upto snd 0 0 0 1); [apply respects_get, Rr|intros acts].
  apply respects_io_upto, one_batch.
Qed.

(** Every run writes at most one workout header and at most one batch of
    activities. *)
Lemma run_writes_at_most_once (file : option State) :
  (List.length (workouts (snd (run E file))) <= 1)%nat /\
  (List.length (activities (snd (run E file))) <= 1)%nat.
Proof.
  rewrite run_unfold.
  destruct (fetch_recent_raw_spec E 100 (before_fetch file)) as [[_ _ F1w F1a _] _].
  destruct (fetch_recent_raw E 100 (before_fetch file)) as [[e|rows] w1];
    cbn [fst snd] in *.
  { rewrite F1w, F1a. cbn. lia. }
  pose proof (loop_spec E (sorted get_timestamp rows)
                (mkLocals (loaded file) false None) w1) as LS.
  cbv zeta in LS. destruct LS as ([_ _ F2w F2a _] & _).
  destruct (for_each (sorted get_timestamp rows) (process_row E)
              (mkLocals (loaded file) false None, w1)) as [[e|[]] [l2 w2]];
    cbn [fst snd] in *.
  { rewrite F2w, F2a, F1w, F1a. cbn. lia. }
  destruct (checkpoint_step_spec l2 w2) as (w3 & C & _ & _ & CW & CA & _).
  rewrite C. cbn [fst snd].
  pose proof (post_sheets_once (l2, w3)) as [P1 P2]. cbn [snd] in P1, P2.
  rewrite CW, F2w, F1w in P1. rewrite CA, F2a, F1a in P2. cbn in P1, P2. lia.
Qed.

End Once.

(* ===================================================================== *)
(** ** The checkpoint *)
(* ===================================================================== *)

Lemma last_In {B} (l : list B) (d : B) : l <> [] -> In (last l d) l.
Proof.
  induction l as [|a l IH]; [congruence|]. intros _.
  destruct l as [|b l]; [now left|]. right. apply IH. discriminate.
Qed.

Lemma last_default {B} (l : list B) (d d' : B) : l <> [] -> last l d = last l d'.
Proof.
  induction l as [|a l IH]; [congruence|]. intros _.
  destruct l as [|b l]; [reflexivity|]. apply IH. discriminate.
Qed.

Lemma StronglySorted_app_l {B} (R : B -> B -> Prop) (l1 l2 : list B) :
  StronglySorted R (l1 ++ l2) -> StronglySorted R l1.
Proof.
  induction l1 as [|a l1 IH]; intros H; [constructor|].
  inversion H as [|? ? H1 H2]; subst. constructor; [now apply IH|].
  now apply Forall_app in H2.
Qed.

Lemma final_above {A} (key : A -> string) (c : string) (l : list A) :
  plan key c l <> [] -> PyStr.lt c (final key c l).
Proof.
  intros H. unfold final.
  assert (I : In (last (map key (plan key c l)) c) (map key (plan key c l))).
  { apply last_In. destruct (plan key c l); [congruence|discriminate]. }
  apply in_map_iff in I. destruct I as (x & <- & I).
  pose proof (plan_above key l c) as F. rewrite Forall_forall in F. now apply F.
Qed.

(** The audit rows of a list of entries carry the entries' timestamps. *)
Lemma keys_timestamps (logs : list ParsedLogRow) (done : list RawRow) :
  map pl_key logs = map row_key done ->
  map pl_timestamp logs = map get_timestamp done.
Proof.
  intros H. apply (f_equal (map (fun k : string * string * string => fst (fst k)))) in H.
  rewrite !map_map in H. exact H.
Qed.

Section Checkpoint.

Variable E : Env.

(** A run that prints its summary has fetched a batch. *)
Lemma summarised_fetched (file : option State) :
  summarised (snd (run E file)) = true -> exists rows, fetched E file = inr rows.
Proof.
  intros H. destruct (fetched E file) as [e|rows] eqn:F; [|now exists rows].
  apply run_fetch_failed in F. destruct F as (_ & _ & [_ _ _ _ Fm]).
  rewrite Fm in H. discriminate.
Qed.

(** C10. Whenever a run writes the state file, the [last_timestamp] it
    writes is strictly above the one the run loaded (string comparison),
    and it is what the state file holds when the run is over; a run that
    does not write the state file leaves it as it was. So from run to run
    the checkpoint never goes back, and it goes up at every run that
    saves. *)
Theorem saved_checkpoint_above_loaded (file : option State) :
  (forall s,
     In s (saves (snd (run E file))) ->
     exists ts,
       s = mkState (Some ts) /\
       state_file (snd (run E file)) = Some s /\
       PyStr.lt (loaded file) ts) /\
  (saves (snd (run E file)) = [] -> state_file (snd (run E file)) = file).
Proof.
  destruct (fetched E file) as [e|rows] eqn:F.
  - apply run_fetch_failed in F. destruct F as (_ & _ & [Ff Fs _ _ _]).
    rewrite Fs. split; [intros s []|intros _; exact Ff].
  - destruct (run_spec E file rows F) as (done & rest & HP & _ & HS).
    destruct (summarised (snd (run E file))).
    + destruct HS as (-> & HS). rewrite app_nil_r in HP.
      destruct done as [|d done].
      * destruct HS as (Hs & Hf & _). rewrite Hs.
        split; [intros s []|intros _; exact Hf].
      * cbv zeta in HS. destruct HS as (Hs & Hf & _). rewrite Hs.
        split; [|discriminate]. intros s [<-|[]].
        eexists. split; [reflexivity|]. split; [exact Hf|].
        apply final_above. rewrite HP. discriminate.
    + destruct HS as (_ & Hs & Hf & _). rewrite Hs.
      split; [intros s []|intros _; exact Hf].
Qed.

End Checkpoint.

(** The property at work: an empty checkpoint, one entry at ["T1"]. *)
Lemma saved_checkpoint_above_loaded_witness :
  exists ts,
    mkState (Some "T1") = mkState (Some ts) /\
    state_file (snd (run (Scenario.healthy [Scenario.row_bench "T1"]) None))
    = Some (mkState (Some "T1")) /\
    PyStr.lt (loaded None) ts.
Proof.
  apply (proj1 (saved_checkpoint_above_loaded
                  (Scenario.healthy [Scenario.row_bench "T1"]) None)
           (mkState (Some "T1"))).
  vm_compute. left. reflexivity.
Defined.

(* ===================================================================== *)
(** ** The gate and the order of handling *)
(* ===================================================================== *)

Section Handling.

Variable E : Env.

(** The audit rows of a run are those of a prefix of the plan. *)
Lemma handled_prefix (file : option State) (rows : list RawRow) :
  fetched E file = inr rows ->
  exists done rest,
    plan get_timestamp (loaded file) (sorted get_timestamp rows) = (done ++ rest)%list /\
    map pl_key (parsed_logs (snd (run E file))) = map row_key done /\
    (summarised (snd (run E file)) = true -> rest = []).
Proof.
  intros F. destruct (run_spec E file rows F) as (done & rest & HP & HK & HS).
  exists done, rest. repeat split; try assumption.
  intros S. rewrite S in HS. apply HS.
Qed.

(** When the summary is printed the audit rows are those of the plan. *)
Lemma handled_plan (file : option State) (rows : list RawRow) :
  fetched E file = inr rows ->
  summarised (snd (run E file)) = true ->
  map pl_key (parsed_logs (snd (run E file)))
  = map row_key (plan get_timestamp (loaded file) (sorted get_timestamp rows)).
Proof.
  intros F S. destruct (handled_prefix file rows F) as (done & rest & HP & HK & HR).
  rewrite (HR S), app_nil_r in HP. now rewrite HP.
Qed.

(** The checkpoint a summarised run leaves behind. *)
Lemma loaded_after (file : option State) (rows : list RawRow) :
  fetched E file = inr rows ->
  summarised (snd (run E file)) = true ->
  loaded (state_file (snd (run E file)))
  = final get_timestamp (loaded file) (sorted get_timestamp rows).
Proof.
  intros F S. destruct (run_spec E file rows F) as (done & rest & HP & _ & HS).
  rewrite S in HS. destruct HS as (-> & HS). rewrite app_nil_r in HP.
  destruct done as [|d done].
  - destruct HS as (_ & -> & _). unfold final. now rewrite HP.
  - cbv zeta in HS. destruct HS as (_ & -> & _). reflexivity.
Qed.

(** When the loop is over, every timestamp of the batch is at or below the
    checkpoint candidate. *)
Lemma batch_covered (file : option State) (rows : list RawRow) (r : RawRow) :
  fetched E file = inr rows ->
  summarised (snd (run E file)) = true ->
  In r rows ->
  PyStr.le (get_timestamp r) (loaded (state_file (snd (run E file)))).
Proof.
  intros F S I. rewrite (loaded_after file rows F S).
  apply final_covers. now apply sorted_In.
Qed.

End Handling.

(** A run over a batch with nothing above the checkpoint writes no audit
    row. *)
Lemma nothing_above_nothing_handled (E : Env) (file : option State)
  (rows : list RawRow) :
  fetched E file = inr rows ->
  (forall r, In r rows -> PyStr.le (get_timestamp r) (loaded file)) ->
  parsed_logs (snd (run E file)) = [].
Proof.
  intros F H. destruct (handled_prefix E file rows F) as (done & rest & HP & HK & _).
  rewrite plan_nil in HP by (intros x Hx; apply H; now apply sorted_In in Hx).
  symmetry in HP. apply app_eq_nil in HP. destruct HP as [-> _].
  destruct (parsed_logs (snd (run E file))); [reflexivity|discriminate].
Qed.

(** C8, as the code has it. The loop moves the checkpoint candidate to the
    timestamp of each entry it handles; in a run that reaches its summary
    (no exception has left the loop) the state file is written if and only
    if an entry was handled, once, with the timestamp of the entry handled
    last; otherwise it is left as it was. A run that does not reach its
    summary writes no state file, whatever it has handled. *)
Theorem checkpoint_saved_iff_handled (E : Env) (file : option State) :
  (summarised (snd (run E file)) = true ->
   (saves (snd (run E file)) <> [] <-> parsed_logs (snd (run E file)) <> []) /\
   (parsed_logs (snd (run E file)) <> [] ->
    saves (snd (run E file))
    = [mkState (Some (last (handled_timestamps (snd (run E file))) ""))] /\
    state_file (snd (run E file))
    = Some (mkState (Some (last (handled_timestamps (snd (run E file))) "")))) /\
   (parsed_logs (snd (run E file)) = [] ->
    saves (snd (run E file)) = [] /\ state_file (snd (run E file)) = file)) /\
  (summarised (snd (run E file)) = false ->
   saves (snd (run E file)) = [] /\ state_file (snd (run E file)) = file) /\
  (forall r l w,
     fst (process_row E r (l, w)) = inr tt ->
     parsed_logs (snd (snd (process_row E r (l, w)))) <> parsed_logs w ->
     last_ts (fst (snd (process_row E r (l, w)))) = get_timestamp r).
Proof.
  split; [|split].
  - intros S.
    destruct (summarised_fetched E file S) as [rows F].
    destruct (run_spec E file rows F) as (done & rest & HP & HK & HS).
    rewrite S in HS. destruct HS as (-> & HS). rewrite app_nil_r in HP.
    unfold handled_timestamps. rewrite (keys_timestamps _ _ HK).
    destruct done as [|d done].
    + destruct HS as (Hs & Hf & _).
      assert (L : parsed_logs (snd (run E file)) = [])
        by (destruct (parsed_logs (snd (run E file))); [reflexivity|discriminate]).
      rewrite L, Hs. repeat split; congruence.
    + cbv zeta in HS. destruct HS as (Hs & Hf & _).
      assert (L : parsed_logs (snd (run E file)) <> [])
        by (destruct (parsed_logs (snd (run E file))); [discriminate|congruence]).
      assert (T : final get_timestamp (loaded file) (sorted get_timestamp rows)
                  = last (map get_timestamp (d :: done)) "").
      { unfold final. rewrite HP. apply last_default. discriminate. }
      rewrite Hs, Hf, T. repeat split; congruence.
  - intros S. destruct (fetched E file) as [e|rows] eqn:F.
    + apply run_fetch_failed in F. destruct F as (_ & _ & [Ff Fs _ _ _]).
      split; assumption.
    + destruct (run_spec E file rows F) as (done & rest & _ & _ & HS).
      rewrite S in HS. destruct HS as (_ & Hs & Hf & _). split; assumption.
  - intros r l w. destruct (process_row_spec E r l w); cbn [fst snd]; intros R N.
    + congruence.
    + assumption.
    + discriminate.
Qed.

(** The claim at work: two entries, both handled, the checkpoint is the
    second timestamp. *)
Lemma checkpoint_saved_iff_handled_witness :
  let w := snd (run (Scenario.healthy [Scenario.row_bench "T1"; Scenario.row_squat "T2"])
                  None) in
  saves w = [mkState (Some "T2")] /\ state_file w = Some (mkState (Some "T2")).
Proof.
  pose proof (checkpoint_saved_iff_handled
                (Scenario.healthy [Scenario.row_bench "T1"; Scenario.row_squat "T2"])
                None) as H.
  assert (S : summarised
                (snd (run (Scenario.healthy
                             [Scenario.row_bench "T1"; Scenario.row_squat "T2"]) None))
              = true) by (vm_compute; reflexivity).
  destruct H as (H & _ & _). destruct (H S) as (_ & H2 & _).
  assert (N : parsed_logs
                (snd (run (Scenario.healthy
                             [Scenario.row_bench "T1"; Scenario.row_squat "T2"]) None))
              <> []) by (vm_compute; discriminate).
  exact (H2 N).
Defined.

(** C8 as stated does not hold of a run that an exception ends inside the
    loop: the sheet rejects the rows of the second entry, the first entry
    has its audit row and the state file is not written. *)
Lemma checkpoint_not_saved_after_abort :
  let w := snd (run (Scenario.flaky [Scenario.row_bench "T1"; Scenario.row_squat "T2"]
                       (Scenario.reject_text "squat 3x8 @60kg")) None) in
  ~ (saves w <> [] <-> parsed_logs w <> []).
Proof.
  vm_compute. intros [_ H]. apply H; [discriminate|reflexivity].
Qed.

(** The handled timestamps of any run are strictly ascending. *)
Lemma handled_ascending (E : Env) (file : option State) :
  StronglySorted PyStr.lt (handled_timestamps (snd (run E file))).
Proof.
  unfold handled_timestamps. destruct (fetched E file) as [e|rows] eqn:F.
  - apply run_fetch_failed in F. destruct F as (_ & -> & _). constructor.
  - destruct (handled_prefix E file rows F) as (done & rest & HP & HK & _).
    rewrite (keys_timestamps _ _ HK).
    apply StronglySorted_app_l with (l2 := map get_timestamp rest).
    rewrite <- map_app, <- HP. apply plan_ascending.
Qed.

(** C4, as the code has it. The timestamps of the entries a run handles
    are strictly ascending, whatever the order of the fetched batch and
    whatever fails; and two runs from the same checkpoint over two orders
    of one batch, both reaching the summary, handle the same timestamps in
    the same order, even when sheet and backend answer differently. *)
Theorem handled_ascending_and_order_independent (E : Env) (file : option State) :
  StronglySorted PyStr.lt (handled_timestamps (snd (run E file))) /\
  (forall (E' : Env) (rows rows' : list RawRow),
     fetched E file = inr rows ->
     fetched E' file = inr rows' ->
     Permutation rows rows' ->
     summarised (snd (run E file)) = true ->
     summarised (snd (run E' file)) = true ->
     handled_timestamps (snd (run E file)) = handled_timestamps (snd (run E' file))).
Proof.
  split; [apply handled_ascending|].
  intros E' rows rows' F F' P S S'. unfold handled_timestamps.
  rewrite (keys_timestamps _ _ (handled_plan E file rows F S)).
  rewrite (keys_timestamps _ _ (handled_plan E' file rows' F' S')).
  rewrite !plan_map. now rewrite (sorted_keys_perm get_timestamp rows rows' P).
Qed.

(** The claim at work: the batch in two orders, a healthy sheet. *)
Lemma handled_ascending_and_order_independent_witness :
  handled_timestamps
    (snd (run (Scenario.healthy [Scenario.row_bench "T1"; Scenario.row_squat "T2"]) None))
  = handled_timestamps
      (snd (run (Scenario.healthy [Scenario.row_squat "T2"; Scenario.row_bench "T1"])
              None)).
Proof.
  apply (proj2 (handled_ascending_and_order_independent
                  (Scenario.healthy [Scenario.row_bench "T1"; Scenario.row_squat "T2"])
                  None)
           (Scenario.healthy [Scenario.row_squat "T2"; Scenario.row_bench "T1"])
           [Scenario.row_bench "T1"; Scenario.row_squat "T2"]
           [Scenario.row_squat "T2"; Scenario.row_bench "T1"]).
  - vm_compute. reflexivity.
  - vm_compute. reflexivity.
  - apply perm_swap.
  - vm_compute. reflexivity.
  - vm_compute. reflexivity.
Defined.

(** C4 as stated does not hold when an exception ends a run inside the
    loop. Two entries carry the timestamp ["T1"]; the sheet rejects the
    audit rows of the squat entry. Fetched first, that entry is handled
    first and ends the run; fetched second, it is skipped and the run
    handles ["T1"] and ["T2"]. *)
Lemma handled_timestamps_depend_on_fetch_order :
  let sheet := Scenario.reject_text "squat 3x8 @60kg" in
  let a := Scenario.row_squat "T1" in
  let b := Scenario.row_bench "T1" in
  let c := Scenario.row_bench "T2" in
  Permutation [a; b; c] [b; a; c] /\
  handled_timestamps (snd (run (Scenario.flaky [a; b; c] sheet) None))
  <> handled_timestamps (snd (run (Scenario.flaky [b; a; c] sheet) None)).
Proof.
  split; [apply perm_swap|]. vm_compute. discriminate.
Qed.

(* --------------------------------------------------------------------- *)
(** *** Entries with the same timestamp *)

(** C9. Of the entries of a batch that carry one timestamp, a run handles
    at most the first in sorted order: no two audit rows carry the same
    timestamp, and every audit row is the row of the first entry of the
    sorted batch with its timestamp; in a run that reaches its summary
    that first entry is handled when its timestamp is above the loaded
    checkpoint. An entry at or below the candidate is passed over: its
    iteration returns with the locals, the audit rows and the state file
    as they were. *)
Theorem same_timestamp_first_only (E : Env) (file : option State)
  (rows : list RawRow) :
  fetched E file = inr rows ->
  NoDup (handled_timestamps (snd (run E file))) /\
  (forall a, In a (parsed_logs (snd (run E file))) ->
     exists r, find (has_ts (pl_timestamp a)) (sorted get_timestamp rows) = Some r
               /\ pl_key a = row_key r) /\
  (summarised (snd (run E file)) = true ->
   forall r,
     find (has_ts (get_timestamp r)) (sorted get_timestamp rows) = Some r ->
     PyStr.lt (loaded file) (get_timestamp r) ->
     In (row_key r) (map pl_key (parsed_logs (snd (run E file))))) /\
  (forall r l w,
     PyStr.le (get_timestamp r) (last_ts l) ->
     exists w',
       process_row E r (l, w) = (inr tt, (l, w')) /\
       parsed_logs w' = parsed_logs w /\
       state_file w' = state_file w /\ saves w' = saves w).
Proof.
  intros F. split; [|split; [|split]].
  - apply ascending_NoDup, handled_ascending.
  - intros a Ia.
    destruct (handled_prefix E file rows F) as (done & rest & HP & HK & _).
    assert (Ik : In (pl_key a) (map row_key done))
      by (rewrite <- HK; now apply in_map).
    apply in_map_iff in Ik. destruct Ik as (r & Kr & Ir).
    assert (Ip : In r (plan get_timestamp (loaded file) (sorted get_timestamp rows)))
      by (rewrite HP; apply in_or_app; now left).
    apply plan_sorted_In in Ip; [|apply sorted_sorted]. destruct Ip as [_ Hf].
    exists r. split; [|now symmetry].
    replace (pl_timestamp a) with (get_timestamp r); [exact Hf|].
    change (fst (fst (row_key r)) = fst (fst (pl_key a))). now rewrite Kr.
  - intros S r Fd L. rewrite (handled_plan E file rows F S).
    apply in_map. apply plan_sorted_In; [apply sorted_sorted|]. now split.
  - intros r l w H. apply skips_true_le in H.
    destruct (process_row_spec E r l w) as [w' SK Fr L|? ? ? SK|? ? ? SK];
      try congruence.
    exists w'. destruct Fr. repeat split; assumption.
Qed.

(** The claim at work: two entries at ["T1"], the bench entry first. *)
Lemma same_timestamp_first_only_witness :
  let rows := [Scenario.row_bench "T1"; Scenario.row_squat "T1"] in
  let w := snd (run (Scenario.healthy rows) None) in
  NoDup (handled_timestamps w) /\
  (forall a, In a (parsed_logs w) ->
     exists r, find (has_ts (pl_timestamp a)) (sorted get_timestamp rows) = Some r
               /\ pl_key a = row_key r) /\
  In (row_key (Scenario.row_bench "T1")) (map pl_key (parsed_logs w)) /\
  (exists w',
     process_row (Scenario.healthy rows) (Scenario.row_squat "T1")
       (mkLocals "T1" true None, start None)
     = (inr tt, (mkLocals "T1" true None, w')) /\
     parsed_logs w' = [] /\ state_file w' = None /\ saves w' = []).
Proof.
  intros rows w.
  destruct (same_timestamp_first_only (Scenario.healthy rows) None rows)
    as (H1 & H2 & H3 & H4); [vm_compute; reflexivity|].
  split; [exact H1|]. split; [exact H2|]. split.
  - apply H3; vm_compute; reflexivity.
  - apply (H4 (Scenario.row_squat "T1") (mkLocals "T1" true None) (start None)).
    vm_compute. discriminate.
Defined.

(** C3, as the code has it. In a run that reaches its summary an entry is
    handled if and only if its timestamp is strictly above the loaded
    checkpoint (string comparison) and it is the first entry of the sorted
    batch with that timestamp; so a timestamp is handled if and only if it
    is in the batch and above the checkpoint, and with the empty checkpoint
    every non-empty timestamp is handled. A later run that fetches no
    timestamp the batch did not have handles nothing. *)
Theorem gate_handles_first_above_checkpoint (E : Env) (file : option State)
  (rows : list RawRow) :
  fetched E file = inr rows ->
  summarised (snd (run E file)) = true ->
  (forall e,
     In (row_key e) (map pl_key (parsed_logs (snd (run E file)))) <->
     PyStr.lt (loaded file) (get_timestamp e) /\
     exists first,
       find (has_ts (get_timestamp e)) (sorted get_timestamp rows) = Some first /\
       row_key first = row_key e) /\
  (forall ts,
     In ts (handled_timestamps (snd (run E file))) <->
     PyStr.lt (loaded file) ts /\ In ts (map get_timestamp rows)) /\
  (loaded file = "" ->
   forall e, In e rows -> get_timestamp e <> "" ->
             In (get_timestamp e) (handled_timestamps (snd (run E file)))) /\
  (forall (E2 : Env) (rows2 : list RawRow),
     fetched E2 (state_file (snd (run E file))) = inr rows2 ->
     incl (map get_timestamp rows2) (map get_timestamp rows) ->
     parsed_logs (snd (run E2 (state_file (snd (run E file))))) = []).
Proof.
  intros F S.
  pose proof (handled_plan E file rows F S) as HK.
  pose proof (sorted_sorted get_timestamp rows) as Srt.
  assert (Entry : forall e,
             In (row_key e) (map pl_key (parsed_logs (snd (run E file)))) <->
             PyStr.lt (loaded file) (get_timestamp e) /\
             exists first,
               find (has_ts (get_timestamp e)) (sorted get_timestamp rows) = Some first /\
               row_key first = row_key e).
  { intros e. rewrite HK, in_map_iff. split.
    - intros (x & Kx & Ix). apply plan_sorted_In in Ix; [|exact Srt].
      assert (T : get_timestamp x = get_timestamp e)
        by (change (fst (fst (row_key x)) = fst (fst (row_key e))); now rewrite Kx).
      rewrite T in Ix. destruct Ix as [L Fd]. split; [exact L|]. now exists x.
    - intros (L & first & Fd & K).
      assert (T : get_timestamp first = get_timestamp e)
        by (change (fst (fst (row_key first)) = fst (fst (row_key e))); now rewrite K).
      exists first. split; [exact K|].
      apply plan_sorted_In; [exact Srt|]. rewrite T. now split. }
  assert (Stamp : forall ts,
             In ts (handled_timestamps (snd (run E file))) <->
             PyStr.lt (loaded file) ts /\ In ts (map get_timestamp rows)).
  { intros ts. unfold handled_timestamps. rewrite (keys_timestamps _ _ HK).
    rewrite !in_map_iff. split.
    - intros (x & <- & Ix). split.
      + pose proof (plan_above get_timestamp (sorted get_timestamp rows) (loaded file))
          as Ab. rewrite Forall_forall in Ab. now apply Ab.
      + exists x. split; [reflexivity|]. apply plan_incl in Ix. now apply sorted_In in Ix.
    - intros (L & e & <- & Ie).
      destruct (find (has_ts (get_timestamp e)) (sorted get_timestamp rows))
        as [first|] eqn:Fd.
      + pose proof (find_some _ _ Fd) as [_ T]. unfold has_ts in T.
        apply String.eqb_eq in T. exists first. split; [exact T|].
        apply plan_sorted_In; [exact Srt|]. rewrite T. now split.
      + exfalso. assert (N : has_ts (get_timestamp e) e = false)
          by (apply (find_none _ _ Fd e); now apply sorted_In).
        unfold has_ts in N. rewrite String.eqb_refl in N. discriminate. }
  split; [exact Entry|]. split; [exact Stamp|]. split.
  - intros C e Ie Ne. apply Stamp. split; [|now apply in_map].
    rewrite C. apply str_empty_lt.
    destruct (get_timestamp e); [congruence|reflexivity].
  - intros E2 rows2 F2 Inc. apply (nothing_above_nothing_handled E2 _ rows2 F2).
    intros r2 I2.
    assert (I : In (get_timestamp r2) (map get_timestamp rows))
      by (apply Inc; now apply in_map).
    apply in_map_iff in I. destruct I as (r & <- & Ir).
    now apply (batch_covered E file rows).
Qed.

(** The claim at work: the checkpoint ["T1"], a batch at ["T1"] and ["T2"]:
    the entry at ["T2"] is handled, and a second run over the same batch
    handles nothing. *)
Lemma gate_handles_first_above_checkpoint_witness :
  let rows := [Scenario.row_bench "T1"; Scenario.row_squat "T2"] in
  let file := Some (mkState (Some "T1")) in
  let w := snd (run (Scenario.healthy rows) file) in
  In (row_key (Scenario.row_squat "T2")) (map pl_key (parsed_logs w)) /\
  parsed_logs (snd (run (Scenario.healthy rows) (state_file w))) = [].
Proof.
  intros rows file w.
  destruct (gate_handles_first_above_checkpoint (Scenario.healthy rows) file rows)
    as (H1 & _ & _ & H4); [vm_compute; reflexivity|vm_compute; reflexivity|].
  split.
  - apply H1. split; [vm_compute; reflexivity|].
    exists (Scenario.row_squat "T2"). split; vm_compute; reflexivity.
  - apply (H4 (Scenario.healthy rows) rows); [vm_compute; reflexivity|].
    apply incl_refl.
Defined.

(** C3 as stated does not hold of the second entry of a timestamp: both
    entries are at ["T1"], above the empty checkpoint; the run reaches its
    summary and has handled the first one only. Nor does it hold of an
    entry behind one that ends the run: the sheet rejects the rows of the
    entry at ["T1"], and the entry at ["T2"] is never handled. *)
Lemma second_entry_of_a_timestamp_not_handled :
  (let rows := [Scenario.row_bench "T1"; Scenario.row_squat "T1"] in
   let w := snd (run (Scenario.healthy rows) None) in
   let e := Scenario.row_squat "T1" in
   In e rows /\ summarised w = true /\
   ~ (In (row_key e) (map pl_key (parsed_logs w)) <->
      PyStr.lt (loaded None) (get_timestamp e))) /\
  (let rows := [Scenario.row_bench "T1"; Scenario.row_squat "T2"] in
   let w := snd (run (Scenario.flaky rows (Scenario.reject_text "bench 3x8 @60kg"))
                   None) in
   let e := Scenario.row_squat "T2" in
   In e rows /\ summarised w = false /\
   ~ (In (row_key e) (map pl_key (parsed_logs w)) <->
      PyStr.lt (loaded None) (get_timestamp e))).
Proof.
  split.
  - split; [right; left; reflexivity|]. split; [vm_compute; reflexivity|].
    intros [_ H].
    assert (L : PyStr.lt (loaded None) (get_timestamp (Scenario.row_squat "T1")))
      by (vm_compute; reflexivity).
    apply H in L. vm_compute in L.
    destruct L as [L|[]]. discriminate.
  - split; [right; left; reflexivity|]. split; [vm_compute; reflexivity|].
    intros [_ H].
    assert (L : PyStr.lt (loaded None) (get_timestamp (Scenario.row_squat "T2")))
      by (vm_compute; reflexivity).
    apply H in L. vm_compute in L. destruct L.
Qed.

(* ===================================================================== *)
(** ** Failures while an entry is handled *)
(* ===================================================================== *)

(** C7, as the code has it. When the [try] suite of an entry above the
    candidate raises [e] (in the parse or in the write of the audit row),
    the exception is caught and one audit row is sent with status
    ["error"] and the payload [json.dumps({"error": str(e)})]. When that
    write returns, the row is the only audit row written for the entry,
    the loop goes on with the next entry and the candidate is the entry's
    timestamp. When that write raises, its exception leaves the loop and
    no audit row is written for the entry. *)
Theorem failure_logged_and_loop_continues (E : Env) (r : RawRow)
  (rest : list RawRow) (l : Locals) (w : World) (e : Exn) (s1 : Locals * World) :
  let ts := get_timestamp r in
  let user_id := or_default (raw_user_id r) "" in
  let raw := or_default (raw_text r) "" in
  PyStr.lt (last_ts l) ts ->
  try_suite E ts user_id raw (l, snd (print (PrintProcessing r) w)) = (inl e, s1) ->
  (fst (except_suite E ts user_id raw e s1) = inr tt ->
   exists l' w',
     for_each (r :: rest) (process_row E) (l, w)
     = for_each rest (process_row E) (l', w') /\
     parsed_logs w'
     = (parsed_logs w ++
        [mkParsedLogRow ts user_id raw
           (json_dumps E (JObj [("error", JStr (exn_str e))])) (JStr "error")])%list /\
     last_ts l' = ts /\ processed_any l' = true) /\
  (forall e',
     fst (except_suite E ts user_id raw e s1) = inl e' ->
     fst (for_each (r :: rest) (process_row E) (l, w)) = inl e' /\
     parsed_logs (snd (snd (for_each (r :: rest) (process_row E) (l, w))))
     = parsed_logs w).
Proof.
  intros ts user_id raw L T.
  apply skips_false_lt in L. unfold skips in L. apply orb_false_iff in L.
  destruct L as [L1 L2]. fold ts in L1, L2.
  destruct (print (PrintProcessing r) w) as [[e0|[]] w0] eqn:P0; [discriminate|].
  assert (L0 : parsed_logs w0 = parsed_logs w) by (inversion P0; reflexivity).
  cbn [snd] in T.
  assert (Eq : for_each (r :: rest) (process_row E) (l, w)
               = match except_suite E ts user_id raw e s1 with
                 | (inl e', s2) => (inl e', s2)
                 | (inr _, s2) =>
                     for_each rest (process_row E)
                       (set_processed_any true (set_last_ts ts (fst s2)), snd s2)
                 end).
  { cbn [for_each]. unfold bind at 1. unfold process_row.
    unfold bind at 1. unfold io at 1. cbn [fst snd]. rewrite P0.
    fold ts. rewrite L1.
    unfold bind at 1. unfold locals at 1. cbn [fst]. rewrite L2. cbv zeta.
    fold user_id raw. unfold bind at 1. unfold bind at 1. unfold try_except.
    rewrite T. destruct (except_suite E ts user_id raw e s1) as [[e'|[]] s2];
      reflexivity. }
  rewrite Eq. clear Eq.
  pose proof (try_suite_spec E ts user_id raw l w0) as (_ & _ & _ & TL).
  rewrite T in TL. cbn [fst snd] in TL.
  destruct s1 as [l1 w1].
  pose proof (except_suite_spec E ts user_id raw e l1 w1) as (_ & XL & XP).
  destruct (except_suite E ts user_id raw e (l1, w1)) as [[e'|[]] [l2 w2]];
    cbn [fst snd] in *.
  - split; [discriminate|]. intros e'' H. injection H as <-.
    split; [reflexivity|]. now rewrite XP, TL.
  - split; [|discriminate]. intros _.
    eexists. eexists. split; [reflexivity|].
    split; [|split; reflexivity].
    rewrite XP, TL, L0. reflexivity.
Qed.

(** The claim at work: the backend has no answer for the entry's text; the
    error row is written and the loop goes on. *)
Lemma failure_logged_and_loop_continues_witness :
  let E := Scenario.healthy [] in
  let r := Demo.row "T1" "u1" "did something today" in
  let e := mkExn (OtherException "APIConnectionError") "Connection error." in
  exists l' w',
    for_each [r; Scenario.row_bench "T2"] (process_row E)
      (mkLocals "" false None, start None)
    = for_each [Scenario.row_bench "T2"] (process_row E) (l', w') /\
    parsed_logs w'
    = [mkParsedLogRow "T1" "u1" "did something today"
         (json_dumps E (JObj [("error", JStr "Connection error.")])) (JStr "error")] /\
    last_ts l' = "T1" /\ processed_any l' = true.
Proof.
  intros E r e.
  refine (proj1 (failure_logged_and_loop_continues E r [Scenario.row_bench "T2"]
                   (mkLocals "" false None) (start None) e
                   (mkLocals "" false None,
                    tick (snd (print (PrintProcessing r) (start None)))) _ _) _).
  - vm_compute. reflexivity.
  - vm_compute. reflexivity.
  - vm_compute. reflexivity.
Defined.

(** C7 as stated does not hold when the write of the error row raises as
    well. The sheet answers 500 to every POST: the write of the first
    entry's audit row raises, so does the write of its error row, and the
    exception leaves [main]: no audit row, no summary, the second entry is
    never looked at and the state file is not written. *)
Lemma failure_ends_run_when_error_row_rejected :
  let rows := [Scenario.row_bench "T1"; Scenario.row_squat "T2"] in
  let E := Scenario.flaky rows Scenario.reject_all in
  (exists e s1,
     try_suite E "T1" "u1" "bench 3x8 @60kg" (mkLocals "" false None, start None)
     = (inl e, s1)) /\
  fst (run E None)
  = inl (mkExn HTTPError "500 Server Error: Internal Server Error for url: SHEET_URL") /\
  parsed_logs (snd (run E None)) = [] /\
  summarised (snd (run E None)) = false /\
  ~ In (PrintProcessing (Scenario.row_squat "T2")) (stdout (snd (run E None))) /\
  saves (snd (run E None)) = [].
Proof.
  repeat split; try (vm_compute; reflexivity).
  - eexists. eexists. vm_compute. reflexivity.
  - vm_compute. intuition discriminate.
Qed.

(* ===================================================================== *)
(** ** The parser *)
(* ===================================================================== *)

(** C6, as the code has it. [parse_with_llm] sends one request. When the
    stripped output text parses as a JSON object it returns the object
    serialised again together with the value of its [status] member, and
    ["needs_review"] (which is not ["ok"]) when the member is missing.
    When the text does not parse, the decode error is raised; when it
    parses as JSON that is not an object, an [AttributeError] is raised.
    In every case nothing else is sent: no repair, no retry. *)
Theorem parse_with_llm_outcomes (E : Env) (raw d : string) (w : World)
  (out : string) :
  responses_create E w (llm_input raw d) = inr out ->
  (forall fields,
     json_loads E (PyStr.strip out) = inr (JObj fields) ->
     parse_with_llm E raw d w
     = (inr (json_dumps E (JObj fields),
             or_default (Py.lookup "status" fields) (JStr "needs_review")),
        tick w)) /\
  (forall fields,
     json_loads E (PyStr.strip out) = inr (JObj fields) ->
     Py.lookup "status" fields = None ->
     snd (parse_with_llm E raw d w) = tick w /\
     exists text,
       fst (parse_with_llm E raw d w) = inr (text, JStr "needs_review") /\
       Py.eq_str (JStr "needs_review") "ok" = false) /\
  (forall e,
     json_loads E (PyStr.strip out) = inl e ->
     parse_with_llm E raw d w = (inl e, tick w)) /\
  (forall v,
     json_loads E (PyStr.strip out) = inr v ->
     (forall fields, v <> JObj fields) ->
     parse_with_llm E raw d w = (inl (Py.no_attribute v "get"), tick w)) /\
  calls (snd (parse_with_llm E raw d w)) = S (calls w).
Proof.
  intros R.
  assert (Obj : forall fields,
             json_loads E (PyStr.strip out) = inr (JObj fields) ->
             parse_with_llm E raw d w
             = (inr (json_dumps E (JObj fields),
                     or_default (Py.lookup "status" fields) (JStr "needs_review")),
                tick w)).
  { intros fields J. unfold parse_with_llm, bind. rewrite R. cbn [fst snd].
    rewrite J. cbn [of_result Py.get ret]. unfold ret. reflexivity. }
  split; [exact Obj|]. split; [|split; [|split]].
  - intros fields J N. rewrite (Obj fields J), N. cbn [fst snd or_default].
    split; [reflexivity|]. eexists. split; reflexivity.
  - intros e J. unfold parse_with_llm, bind. rewrite R. cbn [fst snd].
    rewrite J. reflexivity.
  - intros v J N. unfold parse_with_llm, bind. rewrite R. cbn [fst snd].
    rewrite J. cbn [of_result]. unfold ret at 1.
    destruct v; try reflexivity. exfalso. now apply (N fields).
  - now rewrite parse_with_llm_world.
Qed.

(** The claim at work: an object without [status]. *)
Lemma parse_with_llm_outcomes_witness :
  let obj := JObj [("workout", JNull); ("activities", JArr [])] in
  let E := Demo.env [] 0 Scenario.accept_all
             [("did something today", Demo.dumps obj)] [obj] in
  parse_with_llm E "did something today" Demo.today (start None)
  = (inr (Demo.dumps obj, JStr "needs_review"), tick (start None)).
Proof.
  intros obj E.
  destruct (parse_with_llm_outcomes E "did something today" Demo.today (start None)
              (Demo.dumps obj)) as (H & _); [vm_compute; reflexivity|].
  apply (H [("workout", JNull); ("activities", JArr [])]).
  vm_compute. reflexivity.
Defined.

(** C6 as stated does not hold of a response that is JSON but not an
    object: the text [[]] parses, as the empty list, and [parse_with_llm]
    does not return: [obj.get] raises. *)
Lemma json_list_response_raises :
  let E := Demo.env [] 0 Scenario.accept_all [("stretching", "[]")] [JArr []] in
  responses_create E (start None) (llm_input "stretching" Demo.today) = inr "[]" /\
  json_loads E (PyStr.strip "[]") = inr (JArr []) /\
  fst (parse_with_llm E "stretching" Demo.today (start None))
  = inl (mkExn AttributeError "'list' object has no attribute 'get'").
Proof.
  repeat split; vm_compute; reflexivity.
Qed.

(* ===================================================================== *)
(** ** The workout identifier *)
(* ===================================================================== *)

Lemma digits_value_decimal (n : N) : digits_value (PyStr.decimal n) = Some n.
Proof.
  unfold digits_value, PyStr.decimal. rewrite NilEmpty.usu. cbn [option_map].
  now rewrite Unsigned.of_to.
Qed.

Lemma digits_value_zeros (k : nat) (s : string) :
  digits_value (PyStr.zeros k ++ s) = digits_value s.
Proof.
  induction k as [|k IH]; [reflexivity|].
  unfold digits_value in *. cbn [PyStr.zeros String.append NilEmpty.uint_of_string].
  destruct (NilEmpty.uint_of_string (PyStr.zeros k ++ s)) as [u|]; cbn; exact IH.
Qed.

Lemma digits_value_zfill (width : nat) (n : N) :
  digits_value (PyStr.zfill width (PyStr.decimal n)) = Some n.
Proof. unfold PyStr.zfill. now rewrite digits_value_zeros, digits_value_decimal. Qed.

Lemma format_03d_nonneg (n : Z) :
  (0 <= n)%Z -> PyStr.format_03d n = PyStr.zfill 3 (PyStr.decimal (Z.to_N n)).
Proof.
  intros H. unfold PyStr.format_03d.
  destruct (Z.ltb_spec n 0); [lia|reflexivity].
Qed.

Lemma format_03d_inj (a b : Z) :
  (0 <= a)%Z -> (0 <= b)%Z -> PyStr.format_03d a = PyStr.format_03d b -> a = b.
Proof.
  intros Ha Hb H. rewrite !format_03d_nonneg in H by assumption.
  apply (f_equal digits_value) in H. rewrite !digits_value_zfill in H.
  injection H as H. lia.
Qed.

Lemma length_zeros (k : nat) : String.length (PyStr.zeros k) = k.
Proof. induction k; simpl; congruence. Qed.

Lemma length_append (a b : string) :
  String.length (a ++ b) = (String.length a + String.length b)%nat.
Proof. induction a; simpl; congruence. Qed.

Lemma length_zfill (width : nat) (s : string) :
  String.length (PyStr.zfill width s) = Nat.max width (String.length s).
Proof. unfold PyStr.zfill. rewrite length_append, length_zeros. lia. Qed.

Lemma append_inj_l (p a b : string) : p ++ a = p ++ b -> a = b.
Proof. induction p; simpl; intros H; [exact H|]. injection H as H. auto. Qed.

Lemma remove_char_app (c : ascii) (a b : string) :
  PyStr.remove_char c (a ++ b) = PyStr.remove_char c a ++ PyStr.remove_char c b.
Proof.
  induction a as [|x a IH]; simpl; [reflexivity|].
  destruct (Ascii.eqb x c); simpl; now rewrite IH.
Qed.

Lemma NoDup_map_inj {A B} (f : A -> B) (l : list A) :
  (forall x y, f x = f y -> x = y) -> NoDup l -> NoDup (map f l).
Proof.
  intros Inj. induction 1 as [|a l Na Nl IH]; simpl; constructor; [|exact IH].
  intros I. apply in_map_iff in I. destruct I as (y & Ey & Iy).
  apply Inj in Ey. now subst.
Qed.

Section Allocator.

Variable E : Env.

Lemma make_workout_id_spec (date : string) (c : Z) (w w' : World) :
  get_workouts_count_for_date E date w = (inr c, w') ->
  make_workout_id E (JStr date) w = (inr (workout_id_for date c), w').
Proof.
  intros H. unfold make_workout_id, bind. cbv zeta. now rewrite H.
Qed.

Lemma allocate_spec (date : string) (fields : list (string * json)) (n : nat) :
  accurate_store E date ->
  Py.lookup "date" fields = Some (JStr date) ->
  forall w,
    fst (allocate E date (JObj fields) n w)
    = inr (map (fun k => workout_id_for date (Z.of_nat k))
             (seq (recorded date (workouts w)) n)).
Proof.
  intros [Acc Post] D. induction n as [|n IH]; intros w; [reflexivity|].
  cbn [allocate]. unfold bind at 1.
  pose proof (Acc w) as A. pose proof (count_world E date w) as CW.
  destruct (get_workouts_count_for_date E date w) as [rc w1] eqn:G.
  cbn [fst snd] in A, CW. subst rc w1.
  rewrite (make_workout_id_spec _ _ _ _ G).
  set (id := workout_id_for date (Z.of_nat (recorded date (workouts w)))).
  unfold bind at 1. unfold append_workout_row, get_or_none, bind at 1, Py.get.
  cbn [ret fst snd]. unfold ret at 1. unfold bind at 1. unfold ret at 1.
  unfold bind at 1. unfold ret at 1. unfold bind at 1. unfold ret at 1.
  unfold bind at 1. unfold ret at 1. cbv zeta. rewrite D.
  set (rw := mkWorkoutRow id (JStr date) _ _ _ _).
  unfold bind at 1. unfold http_post.
  destruct (Post (tick w) (AppendWorkout rw)) as (r & Pr & St). rewrite Pr.
  unfold bind at 1. unfold raise_for_status. rewrite St. unfold ret at 1.
  unfold stored. unfold bind at 1.
  match goal with
  | |- context [allocate E date (JObj fields) n ?w2] =>
      specialize (IH w2);
      assert (R : recorded date (workouts w2) = S (recorded date (workouts w)))
  end.
  { cbn [workouts tick]. unfold recorded. rewrite filter_app, length_app.
    cbn [filter wr_date rw Py.eq_str]. rewrite String.eqb_refl. cbn [List.length].
    lia. }
  rewrite R in IH.
  match goal with
  | |- context [allocate E date (JObj fields) n ?w2] =>
      destruct (allocate E date (JObj fields) n w2) as [[e|ids] w3]
  end; cbn [fst snd] in *; [discriminate|].
  injection IH as ->. reflexivity.
Qed.

End Allocator.

(** C5. When the sheet reports [c] workouts for the date [date],
    [make_workout_id] returns [date] without its dashes, a hyphen and
    [c + 1]; for [c >= 0] the serial is [c + 1] in decimal, padded with
    zeros on the left to three characters. For a date [y-m-d] the prefix
    is [ymd]. Hence [n] allocations in a row against a sheet with an
    accurate count, starting from no workout for the date, give the
    serials [001], [002], ... of [1..n], all distinct. *)
Theorem workout_id_from_count (E : Env) (date : string) (c : Z) (w w' : World) :
  get_workouts_count_for_date E date w = (inr c, w') ->
  make_workout_id E (JStr date) w
  = (inr (PyStr.remove_char "-" date ++ "-" ++ PyStr.format_03d (c + 1)), w') /\
  ((0 <= c)%Z ->
   PyStr.format_03d (c + 1) = PyStr.zfill 3 (PyStr.decimal (Z.to_N (c + 1))) /\
   digits_value (PyStr.format_03d (c + 1)) = Some (Z.to_N (c + 1)) /\
   String.length (PyStr.format_03d (c + 1))
   = Nat.max 3 (String.length (PyStr.decimal (Z.to_N (c + 1))))) /\
  (forall y m d,
     date = y ++ "-" ++ m ++ "-" ++ d ->
     PyStr.remove_char "-" y = y -> PyStr.remove_char "-" m = m ->
     PyStr.remove_char "-" d = d ->
     PyStr.remove_char "-" date = y ++ m ++ d) /\
  (forall fields n w0,
     accurate_store E date ->
     Py.lookup "date" fields = Some (JStr date) ->
     workouts w0 = [] ->
     let ids :=
       map (fun k => PyStr.remove_char "-" date ++ "-"
                       ++ PyStr.zfill 3 (PyStr.decimal (N.of_nat k)))
         (seq 1 n) in
     fst (allocate E date (JObj fields) n w0) = inr ids /\ NoDup ids).
Proof.
  intros G. split; [exact (make_workout_id_spec E date c w w' G)|].
  split; [|split].
  - intros Hc. rewrite format_03d_nonneg by lia.
    rewrite digits_value_zfill, length_zfill. repeat split.
  - intros y m d -> Hy Hm Hd.
    rewrite !remove_char_app, Hy, Hm, Hd. reflexivity.
  - intros fields n w0 Acc D W0 ids.
    assert (Ids : ids = map (fun k => workout_id_for date (Z.of_nat k)) (seq 0 n)).
    { subst ids. rewrite <- seq_shift, map_map. apply map_ext. intros k.
      unfold workout_id_for. rewrite format_03d_nonneg by lia.
      do 4 f_equal. lia. }
    split.
    + rewrite (allocate_spec E date fields n Acc D w0), W0, Ids. reflexivity.
    + rewrite Ids. apply NoDup_map_inj; [|apply seq_NoDup].
      intros a b H. unfold workout_id_for in H.
      apply append_inj_l, append_inj_l in H.
      apply format_03d_inj in H; lia.
Qed.

Lemma counting_sheet_accurate (date : string) : accurate_store Counting.sheet date.
Proof.
  split.
  - intros w. reflexivity.
  - intros w p. exists Demo.ok_response. split; reflexivity.
Qed.

(** The claim at work: two workouts recorded for the day, the third
    identifier; and three allocations in a row on an empty sheet. *)
Lemma workout_id_from_count_witness :
  make_workout_id (Demo.env [] 2 Scenario.accept_all [] []) (JStr "2026-01-05")
    (start None)
  = (inr "20260105-003", tick (start None)) /\
  PyStr.format_03d 3 = "003" /\
  PyStr.remove_char "-" "2026-01-05" = "20260105" /\
  fst (allocate Counting.sheet "2026-01-05" (JObj [("date", JStr "2026-01-05")]) 3
         (start None))
  = inr ["20260105-001"; "20260105-002"; "20260105-003"] /\
  NoDup ["20260105-001"; "20260105-002"; "20260105-003"].
Proof.
  destruct (workout_id_from_count (Demo.env [] 2 Scenario.accept_all [] [])
              "2026-01-05" 2 (start None) (tick (start None)))
    as (H1 & H2 & H3 & _); [vm_compute; reflexivity|].
  destruct (workout_id_from_count Counting.sheet "2026-01-05" 0 (start None)
              (tick (start None)))
    as (_ & _ & _ & H4); [vm_compute; reflexivity|].
  split; [exact H1|].
  split; [exact (proj1 (H2 ltac:(lia)))|].
  split; [exact (H3 "2026" "01" "05" eq_refl eq_refl eq_refl eq_refl)|].
  exact (H4 [("date", JStr "2026-01-05")] 3%nat (start None)
           (counting_sheet_accurate "2026-01-05") eq_refl eq_refl).
Defined.

(* ===================================================================== *)
(** ** The statements after the loop *)
(* ===================================================================== *)

(** C2 (the code departs from it). A batch with no timestamp above the
    checkpoint, the empty batch included: the run writes no audit row, no
    header, no activity, leaves the state file alone and prints "Nothing
    new to process."; then, instead of returning, it raises: the statement
    after the loop reads [parsed_json], which no iteration has bound. *)
Theorem nothing_new_run_raises (E : Env) (file : option State)
  (rows : list RawRow) :
  fetched E file = inr rows ->
  (forall r, In r rows -> PyStr.le (get_timestamp r) (loaded file)) ->
  parsed_logs (snd (run E file)) = [] /\
  workouts (snd (run E file)) = [] /\
  activities (snd (run E file)) = [] /\
  saves (snd (run E file)) = [] /\
  state_file (snd (run E file)) = file /\
  In PrintNothingNew (stdout (snd (run E file))) /\
  fst (run E file) = inl unbound_parsed_json.
Proof.
  intros F H.
  split; [now apply (nothing_above_nothing_handled E file rows)|].
  destruct (run_spec E file rows F) as (done & rest & HP & _ & HS).
  rewrite plan_nil in HP by (intros x Hx; apply H; now apply sorted_In in Hx).
  symmetry in HP. apply app_eq_nil in HP. destruct HP as [-> ->].
  destruct (summarised (snd (run E file))).
  - destruct HS as (_ & Hs & Hf & Hw & Ha & Hr & Hn). repeat split; assumption.
  - destruct HS as (N & _). congruence.
Qed.

(** The defect at work: the sheet returns no row. *)
Lemma nothing_new_run_raises_witness :
  let w := snd (run (Scenario.healthy []) None) in
  parsed_logs w = [] /\ workouts w = [] /\ activities w = [] /\
  saves w = [] /\ state_file w = None /\
  In PrintNothingNew (stdout w) /\
  fst (run (Scenario.healthy []) None) = inl unbound_parsed_json.
Proof.
  apply (nothing_new_run_raises (Scenario.healthy []) None []).
  - vm_compute. reflexivity.
  - intros r [].
Defined.

(** C1 (the code departs from it). The statements that write the workout
    header and the activities stand after the loop: whatever was parsed,
    a run writes at most one header and at most one batch of activities,
    those of the last parse. With two entries, both parsed with status
    ["ok"] and both with their audit row, the first entry gets neither
    header nor activities. *)
Theorem only_last_parse_reaches_the_sheets :
  (forall (E : Env) (file : option State),
     (List.length (workouts (snd (run E file))) <= 1)%nat /\
     (List.length (activities (snd (run E file))) <= 1)%nat) /\
  (let rows := [Scenario.row_bench "T1"; Scenario.row_squat "T2"] in
   let w := snd (run (Scenario.healthy rows) None) in
   map pl_raw_text (parsed_logs w) = ["bench 3x8 @60kg"; "squat 3x8 @60kg"] /\
   map pl_status (parsed_logs w) = [JStr "ok"; JStr "ok"] /\
   map wr_workout_id (workouts w) = ["20260105-001"] /\
   map (map ar_exercise) (activities w) = [[JStr "squat"]]).
Proof.
  split; [exact run_writes_at_most_once|].
  vm_compute. repeat split.
Qed.

(* ********************************************************************* *)
(** * Further properties of the code *)
(* ********************************************************************* *)

(* ===================================================================== *)
(** ** The functions that talk to the sheet *)
(* ===================================================================== *)


(** X1. [fetch_recent_raw] sends one request and writes nothing. It returns
    the [items] of the reply (the empty list when the member is missing)
    exactly when the request returned, the status is no 4xx or 5xx, the
    body decodes and its [ok] is true. An exception of the request goes
    through; otherwise the status code and the content are printed first,
    an error status raises [HTTPError], and a reply whose [ok] is false
    raises [RuntimeError] with the reply's [error], or ["Unknown sheet
    error"]. *)
Theorem fetch_recent_raw_outcomes (E : Env) (n : Z) (w : World) :
  calls (snd (fetch_recent_raw E n w)) = S (calls w) /\
  untouched w (snd (fetch_recent_raw E n w)) /\
  (forall rows,
     fst (fetch_recent_raw E n w) = inr rows <->
     exists r data,
       requests_get E w (GetRaw n) = inr r /\ is_error_status r = false /\
       body r = inr data /\ reply_ok data = true /\
       rows = or_default (reply_items data) []) /\
  (forall e, requests_get E w (GetRaw n) = inl e ->
             fetch_recent_raw E n w = (inl e, tick w)) /\
  (forall r,
     requests_get E w (GetRaw n) = inr r ->
     stdout (snd (fetch_recent_raw E n w))
     = (stdout w ++ [PrintStatusCode (status_code r); PrintContent (content r)])%list /\
     (is_error_status r = true ->
      fst (fetch_recent_raw E n w) = inl (mkExn HTTPError (http_error r))) /\
     (forall data,
        is_error_status r = false -> body r = inr data -> reply_ok data = false ->
        fst (fetch_recent_raw E n w)
        = inl (mkExn RuntimeError (or_default (reply_error data) "Unknown sheet error")))).
Proof.
  unfold fetch_recent_raw, bind, http_get, print, raise_for_status, response_json,
    of_result, raise, ret, is_error_status.
  destruct (requests_get E w (GetRaw n)) as [e|r] eqn:G; cbn [fst snd].
  { repeat split; try reflexivity; try discriminate.
    - intros (r & data & H & _). discriminate.
    - intros e' H. now injection H as ->. }
  assert (Out : forall x : Exn + list RawRow,
             stdout (snd (x, mkWorld (state_file w)
                              ((stdout w ++ [PrintStatusCode (status_code r)])
                                 ++ [PrintContent (content r)])%list
                              (parsed_logs w) (workouts w) (activities w) (saves w)
                              (S (calls w))))
             = (stdout w ++ [PrintStatusCode (status_code r); PrintContent (content r)])%list)
    by (intros x; cbn; now rewrite <- app_assoc).
  destruct ((400 <=? status_code r)%Z && (status_code r <? 600)%Z) eqn:St;
    cbn [fst snd tick state_file stdout parsed_logs workouts activities saves calls].
  { repeat split; try reflexivity; try discriminate.
    - intros (r' & data & H & S' & _). injection H as <-. congruence.
    - injection H as <-. apply (Out (inl (mkExn HTTPError (http_error r)))).
    - injection H as <-. reflexivity.
    - injection H as <-. congruence. }
  destruct (body r) as [e|data] eqn:B; cbn [fst snd].
  { repeat split; try reflexivity; try discriminate.
    - intros (r' & data & H & _ & B' & _). injection H as <-. congruence.
    - injection H as <-. apply (Out (inl e)).
    - injection H as <-. congruence.
    - injection H as <-. congruence. }
  destruct (reply_ok data) eqn:O; cbn [negb fst snd].
  - repeat split; try reflexivity; try discriminate.
    + intros H. injection H as <-. exists r, data. repeat split; assumption.
    + intros (r' & data' & H & _ & B' & _ & ->). injection H as <-.
      rewrite B in B'. now injection B' as <-.
    + injection H as <-. apply (Out (inr (or_default (reply_items data) []))).
    + injection H as <-. congruence.
    + injection H as <-. intros data' _ B' O'. rewrite B in B'.
      injection B' as <-. congruence.
  - repeat split; try reflexivity; try discriminate.
    + intros (r' & data' & H & _ & B' & O' & _). injection H as <-.
      rewrite B in B'. injection B' as <-. congruence.
    + injection H as <-. apply (Out (inl (mkExn RuntimeError ""))).
    + injection H as <-. congruence.
    + injection H as <-. intros data' _ B' O'. rewrite B in B'.
      now injection B' as <-.
Qed.


(** X3. [append_parsed] sends one request, prints nothing and touches
    neither the state file nor the other two sheets. It returns exactly
    when the POST returned with a status that is no 4xx or 5xx, whatever
    the body says, and then the sheet holds the row; when it raises the
    audit sheet is as before. *)
Theorem append_parsed_writes_or_raises (E : Env) (ts u raw pj : string)
  (st : json) (w : World) :
  let row := mkParsedLogRow ts u raw pj st in
  let res := append_parsed E ts u raw pj st w in
  calls (snd res) = S (calls w) /\
  stdout (snd res) = stdout w /\
  state_file (snd res) = state_file w /\ saves (snd res) = saves w /\
  workouts (snd res) = workouts w /\ activities (snd res) = activities w /\
  (fst res = inr tt <->
   exists r, requests_post E w (AppendParsed row) = inr r /\ is_error_status r = false) /\
  (fst res = inr tt -> parsed_logs (snd res) = (parsed_logs w ++ [row])%list) /\
  (forall e, fst res = inl e -> parsed_logs (snd res) = parsed_logs w).
Proof.
  unfold append_parsed, bind, http_post, raise_for_status, stored, raise, ret,
    is_error_status. cbv zeta.
  destruct (requests_post E w _) as [e|r] eqn:P; cbn [fst snd].
  - repeat split; try reflexivity; try discriminate.
    intros (r & H & _). discriminate.
  - destruct ((400 <=? status_code r)%Z && (status_code r <? 600)%Z) eqn:St;
      cbn [fst snd].
    + repeat split; try reflexivity; try discriminate.
      intros (r' & H & S'). injection H as <-. congruence.
    + repeat split; try reflexivity; try discriminate.
      intros _. now exists r.
Qed.

Lemma all_dicts_or_not (items : list json) :
  (exists ds, all_dicts items = Some ds /\ first_non_dict items = None
              /\ List.length ds = List.length items) \/
  (all_dicts items = None /\ exists v, first_non_dict items = Some v /\ In v items
                                    /\ forall fields, v <> JObj fields).
Proof.
  induction items as [|a items IH].
  - left. exists []. repeat split.
  - destruct a; try (right; split; [reflexivity|]; eexists; split; [reflexivity|];
                     split; [now left|discriminate]).
    cbn [all_dicts first_non_dict]. destruct IH as [(ds & A & F & L)|(A & v & F & I & N)].
    + left. exists (fields :: ds). rewrite A. repeat split; [exact F|cbn; now rewrite L].
    + right. rewrite A. split; [reflexivity|]. exists v. repeat split; auto. now right.
Qed.

Section Writers.

Variable E : Env.

(** X4. For a dictionary, [append_workout_row] posts one header whose
    fields are the dictionary's values under [date], [type],
    [duration_min], [location] and [session_notes], [None] for a missing
    key; it returns exactly when the POST returned with no error status,
    and only then the sheet holds the header. For any other value it
    raises [AttributeError] before a request is sent. *)
Theorem append_workout_row_outcomes (id : string) (v : json) (w : World) :
  (forall fields,
     v = JObj fields ->
     let row := workout_row_of id fields in
     let res := append_workout_row E id v w in
     calls (snd res) = S (calls w) /\
     (fst res = inr tt <->
      exists r, requests_post E w (AppendWorkout row) = inr r /\ is_error_status r = false) /\
     (fst res = inr tt -> workouts (snd res) = (workouts w ++ [row])%list) /\
     (forall e, fst res = inl e -> workouts (snd res) = workouts w)) /\
  ((forall fields, v <> JObj fields) ->
   append_workout_row E id v w = (inl (Py.no_attribute v "get"), w)).
Proof.
  split.
  - intros fields ->. unfold append_workout_row, get_or_none, Py.get, bind, http_post,
      raise_for_status, stored, raise, ret, is_error_status, workout_row_of, field,
      or_default.
    cbv zeta. cbn [fst snd].
    destruct (requests_post E w _) as [e|r] eqn:P; cbn [fst snd].
    + repeat split; try reflexivity; try discriminate.
      intros (r & H & _). discriminate.
    + destruct ((400 <=? status_code r)%Z && (status_code r <? 600)%Z) eqn:St;
        cbn [fst snd].
      * repeat split; try reflexivity; try discriminate.
        intros (r' & H & S'). injection H as <-. congruence.
      * repeat split; try reflexivity; try discriminate.
        intros _. now exists r.
  - intros N. destruct v; try reflexivity. exfalso. now apply (N fields).
Qed.

Lemma build_rows (id : string) (d : json) (items : list json) (w : World) :
  map_prog
    (fun a : json =>
       exercise <- get_or_none a "exercise" ;;
       weight <- get_or_none a "weight" ;;
       reps <- get_or_none a "reps" ;;
       rest_sec <- get_or_none a "rest_sec" ;;
       hold_sec <- get_or_none a "hold_sec" ;;
       notes <- get_or_none a "notes" ;;
       set_number <- get_or_none a "set_number" ;;
       ret (mkActivityRow id d exercise weight reps rest_sec hold_sec notes set_number))
    items w
  = match first_non_dict items with
    | Some v => (inl (Py.no_attribute v "get"), w)
    | None => (inr (map (activity_row_of id d) (or_default (all_dicts items) [])), w)
    end.
Proof.
  induction items as [|a items IH]; [reflexivity|].
  cbn [map_prog]. unfold bind at 1.
  destruct a; try reflexivity.
  cbn [all_dicts first_non_dict].
  unfold get_or_none at 1 2 3 4 5 6 7, Py.get, bind at 1 2 3 4 5 6 7, ret at 1 2 3 4 5 6 7 8.
  cbn [fst snd]. unfold bind at 1. rewrite IH.
  destruct (all_dicts_or_not items) as [(ds & A & F & _)|(A & v & F & _)];
    rewrite F; [rewrite A|]; reflexivity.
Qed.

Lemma send_outcomes (p : Post) (w : World) :
  let res := (r <- http_post E p ;; raise_for_status r ;; stored p)%prog w in
  calls (snd res) = S (calls w) /\
  (fst res = inr tt <->
   exists r, requests_post E w p = inr r /\ is_error_status r = false) /\
  (fst res = inr tt -> snd res = snd (stored p (tick w))) /\
  (forall e, fst res = inl e -> snd res = tick w).
Proof.
  unfold bind, http_post, raise_for_status, stored, raise, ret, is_error_status.
  cbv zeta. cbn [fst snd].
  destruct (requests_post E w p) as [e|r] eqn:P; cbn [fst snd].
  - repeat split; try reflexivity; try discriminate.
    intros (r & H & _). discriminate.
  - destruct ((400 <=? status_code r)%Z && (status_code r <? 600)%Z) eqn:St;
      cbn [fst snd].
    + repeat split; try reflexivity; try discriminate.
      intros (r' & H & S'). injection H as <-. congruence.
    + destruct p; repeat split; try reflexivity; try discriminate;
        intros _; now exists r.
Qed.

(** X5. For a list of dictionaries, [append_activity_rows] posts one batch
    with one row per activity, in the order of the list, each under the
    given workout identifier and date; an empty list posts an empty batch.
    It returns exactly when the POST returned with no error status, and
    only then the sheet holds the batch. If some element is not a
    dictionary, the first such element raises [AttributeError] and no
    request is sent. *)
Theorem append_activity_rows_outcomes (id : string) (d : json) (items : list json)
  (w : World) :
  let res := append_activity_rows E id d (JArr items) w in
  (forall ds,
     all_dicts items = Some ds ->
     let rows := map (activity_row_of id d) ds in
     List.length rows = List.length items /\
     calls (snd res) = S (calls w) /\
     (fst res = inr tt <->
      exists r, requests_post E w (AppendActivities rows) = inr r
                /\ is_error_status r = false) /\
     (fst res = inr tt -> activities (snd res) = (activities w ++ [rows])%list) /\
     (forall e, fst res = inl e -> activities (snd res) = activities w)) /\
  (forall v,
     first_non_dict items = Some v ->
     res = (inl (Py.no_attribute v "get"), w)).
Proof.
  intros res.
  assert (Eq : res =
    match first_non_dict items with
    | Some v => (inl (Py.no_attribute v "get"), w)
    | None =>
        let p := AppendActivities
                   (map (activity_row_of id d) (or_default (all_dicts items) [])) in
        (r <- http_post E p ;; raise_for_status r ;; stored p)%prog w
    end).
  { subst res. unfold append_activity_rows, Py.iter. unfold bind at 1. unfold ret at 1.
    cbn [fst snd]. unfold bind at 1. rewrite build_rows.
    destruct (first_non_dict items); reflexivity. }
  clearbody res. subst res.
  destruct (all_dicts_or_not items) as [(ds & A & F & L)|(A & v & F & _)].
  - rewrite F, A. cbn [or_default]. cbv zeta. split; [|discriminate].
    intros ds' Eq. injection Eq as <-. rewrite length_map. split; [exact L|].
    destruct (send_outcomes (AppendActivities (map (activity_row_of id d) ds)) w)
      as (C & R & Ok & Err).
    repeat split.
    + exact C.
    + apply R.
    + apply R.
    + intros H. rewrite (Ok H). reflexivity.
    + intros e H. rewrite (Err e H). reflexivity.
  - rewrite F, A. split; [discriminate|]. intros v' Eq. injection Eq as <-. reflexivity.
Qed.

(** X6. What [append_activity_rows] does with activities that are no list:
    [None], a boolean or a number raises [TypeError] and a non-empty
    string or dictionary raises [AttributeError] (its elements are
    strings), both before any request; the empty string and the empty
    dictionary are treated as the empty list. *)
Theorem append_activity_rows_rejects_non_lists (id : string) (d : json) (w : World) :
  (forall v,
     match v with JArr _ | JObj _ | JStr _ => False | _ => True end ->
     append_activity_rows E id d v w
     = (inl (mkExn TypeError ("'" ++ Py.type_name v ++ "' object is not iterable")), w)) /\
  (forall c s,
     append_activity_rows E id d (JStr (String c s)) w
     = (inl (mkExn AttributeError "'str' object has no attribute 'get'"), w)) /\
  (forall k v fields,
     append_activity_rows E id d (JObj ((k, v) :: fields)) w
     = (inl (mkExn AttributeError "'str' object has no attribute 'get'"), w)) /\
  append_activity_rows E id d (JStr "") w = append_activity_rows E id d (JArr []) w /\
  append_activity_rows E id d (JObj []) w = append_activity_rows E id d (JArr []) w.
Proof.
  repeat split.
  intros v H. destruct v; try contradiction; reflexivity.
Qed.

(** X7. [make_workout_id] raises [AttributeError] without a request when the
    date is not a string. For a string it sends the count query and
    nothing else, raises exactly what the query raises, and an identifier
    it returns is the one of the date and the count the sheet reported. *)
Theorem make_workout_id_failures (date : json) (w : World) :
  ((forall d, date <> JStr d) ->
   make_workout_id E date w = (inl (Py.no_attribute date "replace"), w)) /\
  (forall d,
     date = JStr d ->
     snd (make_workout_id E date w) = tick w /\
     (forall e,
        fst (make_workout_id E date w) = inl e <->
        fst (get_workouts_count_for_date E d w) = inl e) /\
     (forall id,
        fst (make_workout_id E date w) = inr id ->
        exists c, fst (get_workouts_count_for_date E d w) = inr c
                  /\ id = workout_id_for d c)).
Proof.
  split.
  - intros N. destruct date; try reflexivity. exfalso. now apply (N s).
  - intros d ->. unfold make_workout_id, bind. cbv zeta.
    pose proof (count_world E d w) as CW.
    destruct (get_workouts_count_for_date E d w) as [[e|c] w1];
      cbv beta iota; cbn [fst snd] in *.
    + repeat split; auto; try discriminate; intros Eq; injection Eq as ->; reflexivity.
    + repeat split; auto; try discriminate.
      intros id Eq. injection Eq as <-. now exists c.
Qed.

End Writers.

(* ===================================================================== *)
(** ** Identifiers are told apart by date and count *)
(* ===================================================================== *)

Lemma length_remove_char (c : ascii) (s : string) :
  (String.length (PyStr.remove_char c s) <= String.length s)%nat.
Proof.
  induction s as [|a s IH]; simpl; [lia|].
  destruct (Ascii.eqb a c); simpl; lia.
Qed.

(** A string the removal leaves as it is does not start with the character. *)
Lemma remove_char_fixed_cons (c a : ascii) (s : string) :
  PyStr.remove_char c (String a s) = String a s ->
  a <> c /\ PyStr.remove_char c s = s.
Proof.
  simpl. destruct (Ascii.eqb_spec a c) as [->|N]; intros H.
  - pose proof (length_remove_char c s) as L. rewrite H in L. simpl in L. lia.
  - injection H as H. now split.
Qed.

Lemma remove_char_idem (c : ascii) (s : string) :
  PyStr.remove_char c (PyStr.remove_char c s) = PyStr.remove_char c s.
Proof.
  induction s as [|a s IH]; simpl; [reflexivity|].
  destruct (Ascii.eqb a c) eqn:Q; [exact IH|]. simpl. now rewrite Q, IH.
Qed.

(** Two strings without [c], each followed by [c], split a text at the same
    place. *)
Lemma split_at_first (c : ascii) (p1 : string) : forall p2 s1 s2,
  PyStr.remove_char c p1 = p1 -> PyStr.remove_char c p2 = p2 ->
  p1 ++ String c s1 = p2 ++ String c s2 -> p1 = p2 /\ s1 = s2.
Proof.
  induction p1 as [|a p1 IH]; intros [|b p2] s1 s2 H1 H2 Eq; simpl in Eq.
  - injection Eq as ->. now split.
  - injection Eq as <- _. apply remove_char_fixed_cons in H2. now destruct H2.
  - injection Eq as -> _. apply remove_char_fixed_cons in H1. now destruct H1.
  - injection Eq as -> Eq.
    apply remove_char_fixed_cons in H1. apply remove_char_fixed_cons in H2.
    destruct (IH p2 s1 s2) as [-> ->]; try tauto.
Qed.

Lemma digits_value_minus (s : string) : digits_value (String "-" s) = None.
Proof.
  unfold digits_value. cbn [NilEmpty.uint_of_string].
  destruct (NilEmpty.uint_of_string s); reflexivity.
Qed.

(** [f"{n:03d}"] tells any two integers apart. *)
Lemma format_03d_injective (a b : Z) :
  PyStr.format_03d a = PyStr.format_03d b -> a = b.
Proof.
  unfold PyStr.format_03d.
  destruct (Z.ltb_spec a 0) as [Ha|Ha], (Z.ltb_spec b 0) as [Hb|Hb]; intros H.
  - injection H as H. apply (f_equal digits_value) in H.
    rewrite !digits_value_zfill in H. injection H as H. lia.
  - apply (f_equal digits_value) in H.
    rewrite digits_value_minus, digits_value_zfill in H. discriminate.
  - apply (f_equal digits_value) in H.
    rewrite digits_value_minus, digits_value_zfill in H. discriminate.
  - apply (f_equal digits_value) in H.
    rewrite !digits_value_zfill in H. injection H as H. lia.
Qed.

(** X8. Two identifiers are equal exactly when the counts are equal and
    the dates are equal once their dashes are removed: the first hyphen of
    an identifier separates the date from the serial, and [f"{n:03d}"]
    tells any two integers apart. *)
Theorem workout_id_tells_date_and_count (d1 d2 : string) (c1 c2 : Z) :
  workout_id_for d1 c1 = workout_id_for d2 c2 <->
  PyStr.remove_char "-" d1 = PyStr.remove_char "-" d2 /\ c1 = c2.
Proof.
  unfold workout_id_for. split.
  - intros H. change ("-" ++ ?s) with (String "-" s) in H.
    apply split_at_first in H; try apply remove_char_idem.
    destruct H as [P S]. split; [exact P|].
    apply format_03d_injective in S. lia.
  - intros [-> ->]. reflexivity.
Qed.

(* ===================================================================== *)
(** ** [sorted] is stable *)
(* ===================================================================== *)

Section Stability.

Context {A : Type} (key : A -> string).

Lemma str_ltb_irrefl (a : string) : String.ltb a a = false.
Proof. unfold String.ltb. now rewrite str_compare_refl. Qed.

Lemma filter_insert_by (k : string) (x : A) (l : list A) :
  filter (fun y => String.eqb (key y) k) (insert_by key x l)
  = filter (fun y => String.eqb (key y) k) (x :: l).
Proof.
  induction l as [|y l IH]; [reflexivity|].
  cbn [insert_by]. destruct (String.ltb (key y) (key x)) eqn:L; [|reflexivity].
  cbn [filter] in *. rewrite IH.
  destruct (String.eqb_spec (key x) k) as [Ex|Ex]; [|reflexivity].
  destruct (String.eqb_spec (key y) k) as [Ey|Ey]; [|reflexivity].
  rewrite Ex, Ey, str_ltb_irrefl in L. discriminate.
Qed.

Lemma filter_sorted (k : string) (l : list A) :
  filter (fun y => String.eqb (key y) k) (sorted key l)
  = filter (fun y => String.eqb (key y) k) l.
Proof.
  induction l as [|x l IH]; [reflexivity|].
  cbn [sorted]. rewrite filter_insert_by. cbn [filter]. now rewrite IH.
Qed.

Lemma find_filter (p : A -> bool) (l : list A) :
  find p l = hd_error (filter p l).
Proof.
  induction l as [|x l IH]; [reflexivity|]. simpl. destruct (p x); [reflexivity|exact IH].
Qed.

(** Two lists ascending in the keys that hold, for each key, the same
    entries in the same order are equal. *)
Lemma stable_sort_unique (l1 : list A) : forall l2,
  StronglySorted (key_le key) l1 -> StronglySorted (key_le key) l2 ->
  (forall k, filter (fun y => String.eqb (key y) k) l1
             = filter (fun y => String.eqb (key y) k) l2) ->
  l1 = l2.
Proof.
  induction l1 as [|x l1 IH]; intros l2 S1 S2 F.
  - destruct l2 as [|y l2]; [reflexivity|].
    specialize (F (key y)). cbn in F. rewrite String.eqb_refl in F. discriminate.
  - destruct l2 as [|y l2].
    { specialize (F (key x)). cbn in F. rewrite String.eqb_refl in F. discriminate. }
    inversion S1 as [|? ? S1' H1]; subst. inversion S2 as [|? ? S2' H2]; subst.
    assert (In_filter : forall (l : list A) k z,
              In z (filter (fun y => String.eqb (key y) k) l) -> In z l /\ key z = k).
    { intros l k z I. apply filter_In in I. now rewrite String.eqb_eq in I. }
    assert (Lxy : PyStr.le (key y) (key x)).
    { assert (I : In x (filter (fun y0 => String.eqb (key y0) (key x)) (y :: l2)))
        by (rewrite <- F; cbn [filter]; rewrite String.eqb_refl; now left).
      apply In_filter in I. destruct I as [[->|I] _]; [apply str_le_refl|].
      rewrite Forall_forall in H2. exact (H2 x I). }
    assert (Lyx : PyStr.le (key x) (key y)).
    { assert (I : In y (filter (fun y0 => String.eqb (key y0) (key y)) (x :: l1)))
        by (rewrite F; cbn [filter]; rewrite String.eqb_refl; now left).
      apply In_filter in I. destruct I as [[->|I] _]; [apply str_le_refl|].
      rewrite Forall_forall in H1. exact (H1 y I). }
    pose proof (str_le_antisym _ _ Lyx Lxy) as K.
    assert (x = y /\ forall k, filter (fun y0 => String.eqb (key y0) k) l1
                               = filter (fun y0 => String.eqb (key y0) k) l2)
      as [-> F'].
    { split.
      - specialize (F (key x)). cbn [filter] in F.
        rewrite String.eqb_refl, <- K, String.eqb_refl in F. now injection F.
      - intros k. specialize (F k). cbn [filter] in F. rewrite <- K in F.
        destruct (String.eqb (key x) k); [now injection F|exact F]. }
    f_equal. now apply IH.
Qed.

End Stability.

(** X9. [sorted(rows, key=...)] as modelled is a stable sort: the result is
    a permutation of the list, ascending in the keys, and entries with the
    same key keep the order they were fetched in. In particular the first
    entry of a timestamp in the sorted batch is the first fetched one. No
    other list has these properties: any list ascending in the keys that
    keeps the fetched order among equal keys is the result. *)
Theorem sorted_is_a_stable_sort {A} (key : A -> string) (l : list A) :
  Permutation l (sorted key l) /\
  StronglySorted (key_le key) (sorted key l) /\
  (forall k,
     filter (fun y => String.eqb (key y) k) (sorted key l)
     = filter (fun y => String.eqb (key y) k) l) /\
  (forall k,
     find (fun y => String.eqb (key y) k) (sorted key l)
     = find (fun y => String.eqb (key y) k) l) /\
  (forall l',
     StronglySorted (key_le key) l' ->
     (forall k, filter (fun y => String.eqb (key y) k) l'
                = filter (fun y => String.eqb (key y) k) l) ->
     l' = sorted key l).
Proof.
  split; [apply sorted_perm|]. split; [apply sorted_sorted|].
  split; [intros k; apply filter_sorted|].
  split; [intros k; rewrite !find_filter; now rewrite filter_sorted|].
  intros l' S F. apply (stable_sort_unique key); [exact S|apply sorted_sorted|].
  intros k. now rewrite F, filter_sorted.
Qed.

(* ===================================================================== *)
(** ** What a run prints *)
(* ===================================================================== *)

Lemma silent_refl (w : World) : silent w w.
Proof. reflexivity. Qed.

Lemma silent_trans (w1 w2 w3 : World) : silent w1 w2 -> silent w2 w3 -> silent w1 w3.
Proof. unfold silent. congruence. Qed.

Lemma on_world_refl (R : World -> World -> Prop) :
  (forall w, R w w) -> forall s : Locals * World, on_world R s s.
Proof. intros H s. apply H. Qed.

Lemma on_world_trans (R : World -> World -> Prop) :
  (forall w1 w2 w3, R w1 w2 -> R w2 w3 -> R w1 w3) ->
  forall s1 s2 s3 : Locals * World,
    on_world R s1 s2 -> on_world R s2 s3 -> on_world R s1 s3.
Proof. intros H s1 s2 s3. apply H. Qed.

Lemma respects_try_except {S A} (R : S -> S -> Prop) (body : Prog S A)
  (handler : Exn -> Prog S A) :
  (forall s1 s2 s3, R s1 s2 -> R s2 s3 -> R s1 s3) ->
  respects R body -> (forall e, respects R (handler e)) ->
  respects R (try_except body handler).
Proof.
  intros T Hb Hh s. unfold try_except. specialize (Hb s).
  destruct (body s) as [[e|a] s1]; cbn [snd] in *; [|exact Hb].
  eapply T; [exact Hb|apply Hh].
Qed.

Lemma respects_assign (R : World -> World -> Prop) (f : Locals -> Locals) :
  (forall w, R w w) -> respects (on_world R) (assign f).
Proof. intros H s. apply H. Qed.

Lemma respects_locals (R : World -> World -> Prop) :
  (forall w, R w w) -> respects (on_world R) locals.
Proof. intros H s. apply H. Qed.

Section Transcript.

Variable E : Env.

Lemma send_world (p : Post) (w : World) :
  let w' := snd ((r <- http_post E p ;; raise_for_status r ;; stored p)%prog w) in
  w' = tick w \/ w' = snd (stored p (tick w)).
Proof.
  unfold bind, http_post, raise_for_status, raise, ret. cbv zeta. cbn [fst snd].
  destruct (requests_post E w p) as [e|r]; cbn [fst snd]; [now left|].
  destruct ((400 <=? status_code r)%Z && (status_code r <? 600)%Z); cbn [fst snd];
    [now left|now right].
Qed.

Lemma silent_append_parsed (ts u raw pj : string) (st : json) :
  respects silent (append_parsed E ts u raw pj st).
Proof.
  intros w. unfold append_parsed. cbv zeta.
  destruct (send_world (AppendParsed (mkParsedLogRow ts u raw pj st)) w) as [-> | ->];
    reflexivity.
Qed.

Lemma silent_parse_with_llm (raw d : string) : respects silent (parse_with_llm E raw d).
Proof. intros w. now rewrite parse_with_llm_world. Qed.

Lemma silent_iso_now : respects silent (iso_now_date_utc E).
Proof. intros w. reflexivity. Qed.

Lemma silent_try_suite (ts u raw : string) :
  respects (on_world silent) (try_suite E ts u raw).
Proof.
  unfold try_suite.
  repeat first
    [ apply respects_io
    | apply silent_iso_now | apply silent_parse_with_llm | apply silent_append_parsed
    | apply respects_assign; apply silent_refl
    | apply respects_bind;
      [apply (on_world_trans silent silent_trans)| |intros] ].
Qed.

Lemma silent_except_suite (ts u raw : string) (e : Exn) :
  respects (on_world silent) (except_suite E ts u raw e).
Proof. unfold except_suite. cbv zeta. apply respects_io, silent_append_parsed. Qed.

(** An iteration prints its progress line and nothing else. *)
Lemma process_row_prints (r : RawRow) (l : Locals) (w : World) :
  stdout (snd (snd (process_row E r (l, w)))) = (stdout w ++ [PrintProcessing r])%list.
Proof.
  unfold process_row. unfold bind at 1. unfold io at 1, print at 1. cbn [fst snd].
  cbv zeta.
  match goal with
  | |- stdout (snd (snd (?m (l, ?w0)))) = _ =>
      assert (H : respects (on_world silent) m); [|exact (H (l, w0))]
  end.
  destruct (PyStr.is_empty (get_timestamp r)).
  { apply respects_ret, (on_world_refl silent silent_refl). }
  apply respects_bind;
    [apply (on_world_trans silent silent_trans)
    |apply respects_locals, silent_refl|intros l0].
  destruct (negb (PyStr.is_empty (last_ts l0)) && (get_timestamp r <=? last_ts l0)).
  { apply respects_ret, (on_world_refl silent silent_refl). }
  repeat first
    [ apply respects_assign; apply silent_refl
    | apply respects_try_except;
      [apply (on_world_trans silent silent_trans)
      |apply silent_try_suite|intros; apply silent_except_suite]
    | apply respects_bind;
      [apply (on_world_trans silent silent_trans)| |intros] ].
Qed.

(** The loop prints the progress lines of the entries it has started. *)
Lemma loop_prints (rows : list RawRow) : forall (l : Locals) (w : World),
  let res := for_each rows (process_row E) (l, w) in
  exists k,
    (k <= List.length rows)%nat /\
    stdout (snd (snd res)) = (stdout w ++ map PrintProcessing (firstn k rows))%list /\
    (fst res = inr tt -> k = List.length rows) /\
    (forall e, fst res = inl e -> (1 <= k)%nat).
Proof.
  induction rows as [|r rows IH]; intros l w res; subst res.
  - exists 0%nat. cbn. rewrite app_nil_r. repeat split; try lia. discriminate.
  - cbn [for_each]. unfold bind.
    pose proof (process_row_prints r l w) as P.
    destruct (process_row E r (l, w)) as [[e|[]] [l1 w1]]; cbn [fst snd] in *.
    + exists 1%nat. cbn [firstn map List.length]. repeat split; try lia; try discriminate.
      exact P.
    + destruct (IH l1 w1) as (k & K & O & R & X). cbv zeta in *.
      exists (S k). cbn [firstn map List.length]. rewrite O, P, <- app_assoc.
      repeat split; try lia. intros H. specialize (R H). lia.
Qed.

Lemma fetch_recent_raw_prints (n : Z) (w : World) :
  stdout (snd (fetch_recent_raw E n w))
  = (stdout w ++
     match requests_get E w (GetRaw n) with
     | inl _ => []
     | inr r => [PrintStatusCode (status_code r); PrintContent (content r)]
     end)%list.
Proof.
  unfold fetch_recent_raw, bind, http_get, print, raise_for_status, response_json,
    of_result, raise, ret. cbn [fst snd].
  destruct (requests_get E w (GetRaw n)) as [e|r]; cbn [fst snd stdout].
  - now rewrite app_nil_r.
  - destruct ((400 <=? status_code r)%Z && (status_code r <? 600)%Z);
      cbn [fst snd stdout]; [now rewrite <- app_assoc|].
    destruct (body r) as [e|data]; cbn [fst snd stdout]; [now rewrite <- app_assoc|].
    destruct (negb (reply_ok data)); cbn [fst snd stdout]; now rewrite <- app_assoc.
Qed.

Lemma checkpoint_step_prints (l : Locals) (w : World) :
  let w' := snd (snd (checkpoint_step (l, w))) in
  stdout w' = (stdout w ++ [summary_for (skipn (List.length (saves w)) (saves w'))])%list.
Proof.
  unfold checkpoint_step, bind, locals, io, save_state, print. cbn [fst snd].
  destruct (processed_any l); cbn [fst snd stdout saves].
  - rewrite skipn_app, skipn_all, Nat.sub_diag. reflexivity.
  - rewrite skipn_all. reflexivity.
Qed.

Lemma fetch_get_raised (n : Z) (w : World) (e : Exn) :
  requests_get E w (GetRaw n) = inl e -> fetch_recent_raw E n w = (inl e, tick w).
Proof. intros G. unfold fetch_recent_raw, bind, http_get. now rewrite G. Qed.

Lemma progress_lines_no_summary (rows : list RawRow) :
  existsb is_summary (map PrintProcessing rows) = false.
Proof. induction rows; [reflexivity|exact IHrows]. Qed.

Lemma length_sorted {A} (key : A -> string) (l : list A) :
  List.length (sorted key l) = List.length l.
Proof. symmetry. apply Permutation_length, sorted_perm. Qed.

(** X10. What a run prints: the two opening lines; then, when the request of
    the fetch returned, the status code and the content; then one progress
    line for each entry of the sorted batch the loop has started, in
    order, skipped entries included; and last the summary, if the loop was
    not left by an exception: ["Done."] with the timestamp written to the
    state file, or ["Nothing new to process."] when nothing was written.
    A run that prints the summary has printed a progress line for every
    fetched entry. *)
Theorem run_transcript (file : option State) :
  let w := snd (run E file) in
  let opening := [PrintLoading; PrintLastTs (loaded file)] in
  match requests_get E (before_fetch file) (GetRaw 100) with
  | inl _ => stdout w = opening
  | inr r =>
      let reply := [PrintStatusCode (status_code r); PrintContent (content r)] in
      match fetched E file with
      | inl _ => stdout w = (opening ++ reply)%list
      | inr rows =>
          exists k,
            (k <= List.length rows)%nat /\
            stdout w
            = (opening ++ reply
                 ++ map PrintProcessing (firstn k (sorted get_timestamp rows))
                 ++ (if summarised w then [summary_for (saves w)] else []))%list /\
            (summarised w = true -> k = List.length rows) /\
            (summarised w = false -> (1 <= k)%nat)
      end
  end.
Proof.
  cbv zeta. unfold fetched. rewrite run_unfold.
  pose proof (fetch_recent_raw_prints 100 (before_fetch file)) as FP.
  destruct (requests_get E (before_fetch file) (GetRaw 100)) as [e|r] eqn:G.
  { rewrite (fetch_get_raised _ _ _ G). reflexivity. }
  destruct (fetch_recent_raw_spec E 100 (before_fetch file)) as [F1 _].
  destruct (fetch_recent_raw E 100 (before_fetch file)) as [[e|rows] w1];
    cbn [fst snd] in *; [exact FP|].
  set (l0 := mkLocals (loaded file) false None).
  destruct (loop_prints (sorted get_timestamp rows) l0 w1) as (k & K & O & R & X).
  destruct (loop_spec E (sorted get_timestamp rows) l0 w1) as [F2 _].
  cbv zeta in *. rewrite length_sorted in K, R.
  destruct (for_each (sorted get_timestamp rows) (process_row E) (l0, w1))
    as [[e|[]] [l2 w2]]; cbn [fst snd] in *.
  - exists k. split; [exact K|].
    assert (NS : summarised w2 = false).
    { unfold summarised. rewrite O, FP. cbn [before_fetch stdout app existsb is_summary].
      apply progress_lines_no_summary. }
    rewrite NS, app_nil_r. split; [now rewrite O, FP|].
    split; [discriminate|]. intros _. exact (X e eq_refl).
  - destruct (checkpoint_step_spec l2 w2) as (w3 & C & SM & _).
    pose proof (checkpoint_step_prints l2 w2) as CP. cbv zeta in CP.
    rewrite C in *. cbn [fst snd] in *.
    pose proof (keeps_post_sheets E (l2, w3)) as [Kf Ks Kl Ko].
    cbn [snd] in Kf, Ks, Kl, Ko.
    assert (SM4 : summarised (snd (snd (post_sheets E (l2, w3)))) = true)
      by (unfold summarised; rewrite Ko; exact SM).
    exists k. split; [exact K|]. rewrite SM4, Ko, Ks, CP, O, FP.
    assert (S2 : saves w2 = []).
    { destruct F2 as [_ S2 _ _ _], F1 as [_ S1 _ _ _]. now rewrite S2, S1. }
    rewrite S2. cbn [List.length skipn before_fetch stdout].
    split; [now rewrite <- !app_assoc|]. split; [auto|discriminate].
Qed.

End Transcript.

(* ===================================================================== *)
(** ** The requests of a run *)
(* ===================================================================== *)

(** Programs whose effect is bounded by a budget that adds up. *)
Section Budget.

Context {S : Type} (R : nat -> S -> S -> Prop).
Hypothesis R_refl : forall s, R 0 s s.
Hypothesis R_trans : forall a b s1 s2 s3, R a s1 s2 -> R b s2 s3 -> R (a + b) s1 s3.
Hypothesis R_le : forall a b s s', (a <= b)%nat -> R a s s' -> R b s s'.

Lemma budget_le {A} (a b : nat) (m : Prog S A) :
  (a <= b)%nat -> respects (R a) m -> respects (R b) m.
Proof. intros L H s. eapply R_le; [exact L|apply H]. Qed.

Lemma budget_bind {A B} (a b : nat) (m : Prog S A) (k : A -> Prog S B) :
  respects (R a) m -> (forall x, respects (R b) (k x)) ->
  respects (R (a + b)) (bind m k).
Proof.
  intros Hm Hk s. unfold bind. specialize (Hm s).
  destruct (m s) as [[e|x] s1]; cbn [snd] in *.
  - eapply R_le; [|exact Hm]. lia.
  - eapply R_trans; [exact Hm|apply Hk].
Qed.

Lemma budget_try_except {A} (a b : nat) (body : Prog S A) (handler : Exn -> Prog S A) :
  respects (R a) body -> (forall e, respects (R b) (handler e)) ->
  respects (R (a + b)) (try_except body handler).
Proof.
  intros Hb Hh s. unfold try_except. specialize (Hb s).
  destruct (body s) as [[e|x] s1]; cbn [snd] in *.
  - eapply R_trans; [exact Hb|apply Hh].
  - eapply R_le; [|exact Hb]. lia.
Qed.

Lemma budget_free_bind {A B} (b : nat) (m : Prog S A) (k : A -> Prog S B) :
  respects (R 0) m -> (forall x, respects (R b) (k x)) -> respects (R b) (bind m k).
Proof. intros Hm Hk. apply (budget_bind 0 b); assumption. Qed.

End Budget.

Lemma spends_refl (w : World) : spends 0 w w.
Proof. unfold spends. lia. Qed.

Lemma spends_trans (a b : nat) (w1 w2 w3 : World) :
  spends a w1 w2 -> spends b w2 w3 -> spends (a + b) w1 w3.
Proof. unfold spends. lia. Qed.

Lemma spends_le (a b : nat) (w w' : World) :
  (a <= b)%nat -> spends a w w' -> spends b w w'.
Proof. unfold spends. lia. Qed.

Lemma spends_tick (w : World) : spends 1 w (tick w).
Proof. unfold spends. cbn. lia. Qed.

Lemma spends_zero_trans (w1 w2 w3 : World) :
  spends 0 w1 w2 -> spends 0 w2 w3 -> spends 0 w1 w3.
Proof. unfold spends. lia. Qed.


Lemma main_spends_refl (s : Locals * World) : main_spends 0 s s.
Proof. apply spends_refl. Qed.

Lemma main_spends_trans (a b : nat) (s1 s2 s3 : Locals * World) :
  main_spends a s1 s2 -> main_spends b s2 s3 -> main_spends (a + b) s1 s3.
Proof. apply spends_trans. Qed.

Lemma main_spends_le (a b : nat) (s s' : Locals * World) :
  (a <= b)%nat -> main_spends a s s' -> main_spends b s s'.
Proof. apply spends_le. Qed.

Lemma main_spends_zero_trans (s1 s2 s3 : Locals * World) :
  main_spends 0 s1 s2 -> main_spends 0 s2 s3 -> main_spends 0 s1 s3.
Proof. apply spends_zero_trans. Qed.

Lemma spent_io {A} (n : nat) (m : IO A) :
  respects (spends n) m -> respects (main_spends n) (io m).
Proof. intros H. apply respects_io. exact H. Qed.

Ltac io_bind a b :=
  apply (budget_bind spends spends_trans spends_le a b); [|intros].
Ltac io_free :=
  apply (budget_free_bind spends spends_trans spends_le); [|intros].
Ltac main_bind a b :=
  apply (budget_bind main_spends main_spends_trans main_spends_le a b); [|intros].
Ltac main_free :=
  apply (budget_free_bind main_spends main_spends_trans main_spends_le); [|intros].
Ltac io_quiet :=
  first
    [ apply respects_ret; apply spends_refl
    | apply respects_raise; apply spends_refl
    | apply respects_of_result; apply spends_refl
    | apply respects_get; apply spends_refl
    | apply respects_subscript; apply spends_refl
    | apply respects_iter; apply spends_refl ].
Ltac main_quiet :=
  first
    [ apply respects_ret; apply main_spends_refl
    | apply respects_raise; apply main_spends_refl
    | apply respects_of_result; apply main_spends_refl
    | apply respects_get; apply main_spends_refl
    | apply respects_subscript; apply main_spends_refl
    | apply respects_iter; apply main_spends_refl
    | apply respects_assign; apply spends_refl
    | apply respects_locals; apply spends_refl ].

Section Requests.

Variable E : Env.

Lemma spent_http_get (q : Get) : respects (spends 1) (http_get E q).
Proof. intros w. apply spends_tick. Qed.

Lemma spent_raise_for_status (r : Response) : respects (spends 0) (raise_for_status r).
Proof. unfold raise_for_status. destruct (_ && _); io_quiet. Qed.

Lemma spent_print (m : Msg) : respects (spends 0) (print m).
Proof. intros w. unfold spends. cbn. lia. Qed.

Lemma spent_save_state (s : State) : respects (spends 0) (save_state s).
Proof. intros w. unfold spends. cbn. lia. Qed.

Lemma spent_send (p : Post) :
  respects (spends 1) (r <- http_post E p ;; raise_for_status r ;; stored p).
Proof.
  intros w. destruct (send_world E p w) as [-> | ->]; [apply spends_tick|].
  destruct p; apply spends_tick.
Qed.

Lemma spent_fetch_recent_raw (n : Z) : respects (spends 1) (fetch_recent_raw E n).
Proof.
  unfold fetch_recent_raw. io_bind 1%nat 0%nat; [apply spent_http_get|].
  io_free; [apply spent_print|]. io_free; [apply spent_print|].
  io_free; [apply spent_raise_for_status|].
  io_free; [unfold response_json; io_quiet|].
  match goal with |- context [reply_ok ?d] => destruct (negb (reply_ok d)) end; io_quiet.
Qed.

Lemma spent_parse_with_llm (raw d : string) : respects (spends 1) (parse_with_llm E raw d).
Proof. intros w. rewrite parse_with_llm_world. apply spends_tick. Qed.

Lemma spent_count (d : string) : respects (spends 1) (get_workouts_count_for_date E d).
Proof. intros w. rewrite count_world. apply spends_tick. Qed.

Lemma spent_append_parsed (ts u raw pj : string) (st : json) :
  respects (spends 1) (append_parsed E ts u raw pj st).
Proof. unfold append_parsed. cbv zeta. apply spent_send. Qed.

Lemma spent_make_workout_id (d : json) : respects (spends 1) (make_workout_id E d).
Proof.
  unfold make_workout_id.
  destruct d;
    try (apply (budget_le spends spends_le 0 1); [lia|io_quiet]).
  cbv zeta. io_bind 1%nat 0%nat; [apply spent_count|io_quiet].
Qed.

Lemma spent_append_workout_row (id : string) (v : json) :
  respects (spends 1) (append_workout_row E id v).
Proof.
  unfold append_workout_row, get_or_none.
  do 5 (io_free; [io_quiet|]). cbv zeta. apply spent_send.
Qed.

Lemma spent_append_activity_rows (id : string) (d acts : json) :
  respects (spends 1) (append_activity_rows E id d acts).
Proof.
  unfold append_activity_rows. io_free; [io_quiet|].
  io_free.
  { apply respects_map_prog; [apply spends_refl|apply spends_zero_trans|intros a].
    unfold get_or_none. do 7 (io_free; [io_quiet|]). io_quiet. }
  cbv zeta. apply spent_send.
Qed.

Lemma spent_try_suite (ts u raw : string) :
  respects (main_spends 2) (try_suite E ts u raw).
Proof.
  unfold try_suite. main_free; [apply (spent_io 0); intros w; apply spends_refl|].
  main_bind 1%nat 1%nat; [apply spent_io, spent_parse_with_llm|].
  main_free; [main_quiet|]. apply spent_io, spent_append_parsed.
Qed.

Lemma spent_except_suite (ts u raw : string) (e : Exn) :
  respects (main_spends 1) (except_suite E ts u raw e).
Proof. unfold except_suite. cbv zeta. apply spent_io, spent_append_parsed. Qed.

(** An iteration sends no request for an entry it skips and at most three
    for one it handles: the text-generation call, the audit row and, when
    one of them raised, the error row. *)
Lemma spent_process_row (r : RawRow) (l : Locals) (w : World) :
  spends (if skips (last_ts l) (get_timestamp r) then 0 else 3) w
    (snd (snd (process_row E r (l, w)))).
Proof.
  unfold process_row. unfold bind at 1. unfold io at 1, print at 1. cbn [fst snd].
  cbv zeta. unfold skips.
  destruct (PyStr.is_empty (get_timestamp r)); [unfold spends; cbn; lia|].
  unfold bind at 1. unfold locals at 1. cbn [fst snd].
  destruct (negb (PyStr.is_empty (last_ts l)) && (get_timestamp r <=? last_ts l));
    [unfold spends; cbn; lia|].
  cbn [orb].
  match goal with
  | |- spends 3 _ (snd (snd (?m (l, ?w0)))) =>
      assert (H : respects (main_spends 3) m); [|exact (H (l, w0))]
  end.
  main_bind 3%nat 0%nat.
  - apply (budget_try_except main_spends main_spends_trans main_spends_le 2 1);
      [apply spent_try_suite|intros; apply spent_except_suite].
  - main_free; main_quiet.
Qed.

Lemma length_plan {A} (key : A -> string) (l : list A) : forall c,
  (List.length (plan key c l) <= List.length l)%nat.
Proof.
  induction l as [|x l IH]; intros c; cbn [plan List.length]; [lia|].
  destruct (skips c (key x)); cbn [List.length]; [specialize (IH c)|specialize (IH (key x))];
    lia.
Qed.

(** The loop sends at most three requests for each entry of the plan. *)
Lemma spent_loop (rows : list RawRow) : forall (l : Locals) (w : World),
  spends (3 * List.length (plan get_timestamp (last_ts l) rows)) w
    (snd (snd (for_each rows (process_row E) (l, w)))).
Proof.
  induction rows as [|r rows IH]; intros l w.
  - cbn. apply spends_refl.
  - cbn [for_each plan]. unfold bind.
    pose proof (spent_process_row r l w) as P.
    destruct (process_row_spec E r l w)
      as [w' SK F L|l' w' a SK F L K T A|e l' w' SK F L];
      cbn [fst snd] in *; rewrite SK in *.
    + eapply spends_le; [|eapply spends_trans; [exact P|apply IH]]. lia.
    + specialize (IH l' w'). rewrite T in IH. cbn [List.length].
      eapply spends_le; [|eapply spends_trans; [exact P|exact IH]]. lia.
    + cbn [List.length]. eapply spends_le; [|exact P]. lia.
Qed.

Lemma spent_checkpoint_step : respects (main_spends 0) checkpoint_step.
Proof.
  unfold checkpoint_step. main_free; [main_quiet|].
  match goal with |- context [processed_any ?l] => destruct (processed_any l) end.
  - main_free; apply (spent_io 0); [apply spent_save_state|apply spent_print].
  - apply (spent_io 0), spent_print.
Qed.

(** The statements after the loop send at most three requests: the count,
    the header and the activities. *)
Lemma spent_post_sheets : respects (main_spends 3) (post_sheets E).
Proof.
  unfold post_sheets.
  main_free.
  { unfold read_parsed_json. main_free; [main_quiet|]. match goal with |- context [parsed_json ?l] => destruct (parsed_json l) end;
      main_quiet. }
  main_free; [main_quiet|]. main_free; [main_quiet|].
  match goal with |- context [Py.eq_str ?v "ok"] => destruct (Py.eq_str v "ok") end;
    [|apply (budget_le main_spends main_spends_le 0 3); [lia|main_quiet]].
  main_free; [main_quiet|]. main_free; [main_quiet|].
  main_bind 1%nat 2%nat; [apply spent_io, spent_make_workout_id|].
  main_bind 1%nat 1%nat; [apply spent_io, spent_append_workout_row|].
  main_free; [main_quiet|]. apply spent_io, spent_append_activity_rows.
Qed.

(** X11. The requests a run sends, to the sheet and to the text-generation
    backend together: at least the fetch; the fetch alone when the fetch
    fails or when no fetched entry is above the checkpoint; and at most
    three for each entry the gate lets through, plus the fetch and the
    three of the statements after the loop. *)
Theorem requests_of_a_run (file : option State) :
  let w := snd (run E file) in
  (1 <= calls w)%nat /\
  (forall e, fetched E file = inl e -> calls w = 1%nat) /\
  (forall rows,
     fetched E file = inr rows ->
     let todo := plan get_timestamp (loaded file) (sorted get_timestamp rows) in
     (todo = [] -> calls w = 1%nat) /\
     (calls w <= 4 + 3 * List.length todo)%nat /\
     (calls w <= 4 + 3 * List.length rows)%nat).
Proof.
  cbv zeta. unfold fetched. rewrite run_unfold.
  pose proof (spent_fetch_recent_raw 100 (before_fetch file)) as SF.
  assert (C1 : calls (snd (fetch_recent_raw E 100 (before_fetch file))) = 1%nat).
  { unfold fetch_recent_raw, bind, http_get, print, raise_for_status, response_json,
      of_result, raise, ret. cbn [fst snd].
    destruct (requests_get E (before_fetch file) (GetRaw 100)) as [e|r];
      cbn [fst snd]; [reflexivity|].
    destruct ((400 <=? status_code r)%Z && (status_code r <? 600)%Z);
      cbn [fst snd]; [reflexivity|].
    destruct (body r) as [e|data]; cbn [fst snd]; [reflexivity|].
    destruct (negb (reply_ok data)); reflexivity. }
  destruct (fetch_recent_raw E 100 (before_fetch file)) as [[e|rows] w1];
    cbn [fst snd] in *.
  { split; [lia|]. split; [intros; exact C1|discriminate]. }
  set (l0 := mkLocals (loaded file) false None).
  pose proof (spent_loop (sorted get_timestamp rows) l0 w1) as SL.
  pose proof (loop_spec E (sorted get_timestamp rows) l0 w1) as LS.
  cbv zeta in LS. destruct LS as (_ & done & rest & new & HP & _ & _ & HR).
  cbn [last_ts l0] in SL, HP.
  pose proof (length_plan get_timestamp (sorted get_timestamp rows) (loaded file)) as LP.
  rewrite length_sorted in LP.
  destruct (for_each (sorted get_timestamp rows) (process_row E) (l0, w1))
    as [[e|[]] [l2 w2]]; cbn [fst snd] in *.
  - unfold spends in SL. split; [lia|]. split; [discriminate|].
    intros rows' Eq. injection Eq as <-. repeat split; try lia.
    intros N. rewrite N in HP. destruct done; [|discriminate].
    cbn in HP. subst rest. now destruct HR.
  - destruct (checkpoint_step_spec l2 w2) as (w3 & C & _).
    pose proof (spent_checkpoint_step (l2, w2)) as SC. rewrite C in *.
    pose proof (spent_post_sheets (l2, w3)) as SP.
    unfold main_spends, on_world, spends in *. cbn [fst snd] in *.
    split; [lia|]. split; [discriminate|].
    intros rows' Eq. injection Eq as <-. repeat split; try lia.
    intros N. rewrite N in *. destruct HR as (-> & _ & HD).
    destruct done; [|discriminate]. subst l2.
    rewrite post_sheets_unbound by reflexivity. cbn [snd]. cbn in SL. lia.
Qed.

End Requests.

(* ===================================================================== *)
(** ** The header and the activities a run writes *)
(* ===================================================================== *)

Lemma bind_returned {S A B} (m : Prog S A) (k : A -> Prog S B) (a : A) (s s' : S) :
  m s = (inr a, s') -> bind m k s = k a s'.
Proof. intros H. unfold bind. now rewrite H. Qed.

Lemma bind_raised {S A B} (m : Prog S A) (k : A -> Prog S B) (e : Exn) (s s' : S) :
  m s = (inl e, s') -> bind m k s = (inl e, s').
Proof. intros H. unfold bind. now rewrite H. Qed.

Lemma eq_str_true (v : json) (s : string) : Py.eq_str v s = true <-> v = JStr s.
Proof.
  destruct v; cbn; try (split; [discriminate|intros H; discriminate]).
  rewrite String.eqb_eq. split; [now intros ->|now intros [= ->]].
Qed.

Section Sheets.

Variable E : Env.

Lemma append_workout_row_dict (id : string) (fields : list (string * json)) (w : World) :
  append_workout_row E id (JObj fields) w
  = (let p := AppendWorkout (workout_row_of id fields) in
     r <- http_post E p ;; raise_for_status r ;; stored p) w.
Proof. reflexivity. Qed.

Lemma append_activity_rows_world (id : string) (d acts : json) (w : World) :
  let w' := snd (append_activity_rows E id d acts w) in
  w' = w \/
  exists ds,
    w' = snd ((let p := AppendActivities (map (activity_row_of id d) ds) in
               r <- http_post E p ;; raise_for_status r ;; stored p) w).
Proof.
  cbv zeta. unfold append_activity_rows.
  destruct (@Py.iter World acts w) as [[e|items] w0] eqn:I.
  { rewrite (bind_raised _ _ _ _ _ I). left. cbn [snd].
    destruct acts; cbn in I; inversion I; reflexivity. }
  assert (w0 = w) as -> by (destruct acts; cbn in I; inversion I; reflexivity).
  rewrite (bind_returned _ _ _ _ _ I).
  pose proof (build_rows id d items w) as B.
  destruct (first_non_dict items).
  - rewrite (bind_raised _ _ _ _ _ B). now left.
  - rewrite (bind_returned _ _ _ _ _ B). right.
    now exists (or_default (all_dicts items) []).
Qed.

(** The statements after the loop write nothing, or the header of the
    workout of a decoded object of status ["ok"] and then at most the batch
    of its activities, under the identifier made for the header's date. *)
Lemma post_sheets_writes (l : Locals) (w : World) :
  let w' := snd (snd (post_sheets E (l, w))) in
  (workouts w' = workouts w /\ activities w' = activities w) \/
  exists pj obj fields d c,
    parsed_json l = Some pj /\
    json_loads E pj = inr (JObj obj) /\
    Py.lookup "status" obj = Some (JStr "ok") /\
    Py.lookup "workout" obj = Some (JObj fields) /\
    Py.lookup "date" fields = Some (JStr d) /\
    fst (get_workouts_count_for_date E d w) = inr c /\
    workouts w' = (workouts w ++ [workout_row_of (workout_id_for d c) fields])%list /\
    (activities w' = activities w \/
     exists ds,
       activities w'
       = (activities w
            ++ [map (activity_row_of (workout_id_for d c) (JStr d)) ds])%list).
Proof.
  cbv zeta.
  destruct (parsed_json l) as [pj|] eqn:PJ;
    [|rewrite post_sheets_unbound by exact PJ; now left].
  remember (post_sheets E (l, w)) as res eqn:R. unfold post_sheets in R.
  assert (R1 : read_parsed_json (l, w) = (inr pj, (l, w)))
    by (unfold read_parsed_json, bind, locals; cbn [fst]; now rewrite PJ).
  rewrite (bind_returned _ _ _ _ _ R1) in R.
  destruct (json_loads E pj) as [e|v] eqn:JL; [subst res; now left|].
  rewrite (bind_returned (of_result (inr v)) _ v (l, w) (l, w) eq_refl) in R.
  destruct v as [| | | | |items|obj]; try (subst res; now left).
  rewrite (bind_returned (Py.get (JObj obj) "status" (JStr "needs_review")) _ _
             (l, w) (l, w) eq_refl) in R.
  destruct (Py.eq_str _ "ok") eqn:ST; [|subst res; now left].
  apply eq_str_true in ST.
  assert (OK : Py.lookup "status" obj = Some (JStr "ok")).
  { destruct (Py.lookup "status" obj); [now rewrite ST|discriminate]. }
  clear ST.
  destruct (Py.lookup "workout" obj) as [wk|] eqn:WK.
  2:{ rewrite (bind_raised (Py.subscript (JObj obj) "workout") _
                 (mkExn KeyError "'workout'") (l, w) (l, w)) in R;
        [subst res; now left|]. cbn. now rewrite WK. }
  rewrite (bind_returned (Py.subscript (JObj obj) "workout") _ wk (l, w) (l, w)) in R
    by (cbn; now rewrite WK).
  destruct (@Py.subscript (Locals * World) wk "date" (l, w)) as [[e|date] s0] eqn:SD.
  { rewrite (bind_raised _ _ _ _ _ SD) in R. subst res. left. cbn [snd].
    destruct wk; cbn in SD; try (inversion SD; now split).
    destruct (Py.lookup "date" fields); inversion SD; now split. }
  rewrite (bind_returned _ _ _ _ _ SD) in R.
  destruct wk as [| | | | | |fields]; try discriminate.
  cbn in SD. destruct (Py.lookup "date" fields) as [date'|] eqn:DT; [|discriminate].
  injection SD as -> <-.
  destruct date as [| | | |d| |]; try (subst res; now left).
  pose proof (count_world E d w) as CW.
  destruct (get_workouts_count_for_date E d w) as [[e|c] w1] eqn:CT; cbn [snd] in CW;
    subst w1.
  { assert (M : io (make_workout_id E (JStr d)) (l, w) = (inl e, (l, tick w))).
    { unfold io, make_workout_id. cbv zeta. cbn [fst snd].
      now rewrite (bind_raised _ _ _ _ _ CT). }
    rewrite (bind_raised _ _ _ _ _ M) in R. subst res. now left. }
  assert (M : io (make_workout_id E (JStr d)) (l, w)
              = (inr (workout_id_for d c), (l, tick w))).
  { unfold io. cbn [fst snd]. now rewrite (make_workout_id_spec E d c w (tick w) CT). }
  rewrite (bind_returned _ _ _ _ _ M) in R. clear M.
  set (row := workout_row_of (workout_id_for d c) fields).
  destruct (send_outcomes E (AppendWorkout row) (tick w)) as (_ & _ & Ok & Err).
  cbv zeta in Ok, Err.
  destruct ((r <- http_post E (AppendWorkout row) ;; raise_for_status r ;;
             stored (AppendWorkout row)) (tick w)) as [[e|[]] w2] eqn:SW;
    cbn [fst snd] in *.
  { assert (M : io (append_workout_row E (workout_id_for d c) (JObj fields)) (l, tick w)
                = (inl e, (l, w2))).
    { unfold io. cbn [fst snd]. rewrite append_workout_row_dict. cbv zeta.
      fold row. now rewrite SW. }
    rewrite (bind_raised _ _ _ _ _ M) in R. subst res. left.
    rewrite (Err e eq_refl). now split. }
  specialize (Ok eq_refl). clear Err.
  assert (M : io (append_workout_row E (workout_id_for d c) (JObj fields)) (l, tick w)
              = (inr tt, (l, w2))).
  { unfold io. cbn [fst snd]. rewrite append_workout_row_dict. cbv zeta.
    fold row. now rewrite SW. }
  rewrite (bind_returned _ _ _ _ _ M) in R. clear M.
  rewrite (bind_returned (Py.get (JObj obj) "activities" (JArr [])) _ _
             (l, w2) (l, w2) eq_refl) in R.
  right. exists pj, obj, fields, d, c.
  split; [reflexivity|]. split; [exact JL|]. split; [exact OK|]. split; [exact WK|].
  split; [exact DT|]. split; [now rewrite CT|].
  set (acts := match Py.lookup "activities" obj with Some v => v | None => JArr [] end)
    in R.
  pose proof (append_activity_rows_world (workout_id_for d c) (JStr d) acts w2) as AW.
  cbv zeta in AW. subst res. unfold io. cbn [fst snd].
  destruct (append_activity_rows E (workout_id_for d c) (JStr d) acts w2) as [ra w3];
    cbn [fst snd] in *.
  destruct AW as [->|(ds & ->)].
  - subst w2. cbn. split; [reflexivity|now left].
  - set (p := AppendActivities (map (activity_row_of (workout_id_for d c) (JStr d)) ds)).
    destruct (send_world E p w2) as [W|W]; cbv zeta in W; rewrite W; subst w2; cbn.
    + split; [reflexivity|now left].
    + split; [reflexivity|]. right. now exists ds.
Qed.

(** X12. The header and the activities of a run belong together. There are
    no activities without a header. A header is written after the summary
    only, by a run that has handled an entry; it is the header of the
    [workout] of a decoded object of status ["ok"] whose date is a string,
    under an identifier made from that date. The batch of activities, if
    any, is written once, and each of its rows carries the identifier and
    the date of the header. *)
Theorem header_and_activities_agree (file : option State) :
  let w := snd (run E file) in
  (workouts w = [] -> activities w = []) /\
  (forall h,
     In h (workouts w) ->
     workouts w = [h] /\ summarised w = true /\ parsed_logs w <> [] /\
     exists pj obj fields d c,
       json_loads E pj = inr (JObj obj) /\
       Py.lookup "status" obj = Some (JStr "ok") /\
       Py.lookup "workout" obj = Some (JObj fields) /\
       Py.lookup "date" fields = Some (JStr d) /\
       h = workout_row_of (workout_id_for d c) fields /\
       forall batch,
         In batch (activities w) ->
         activities w = [batch] /\
         exists ds, batch = map (activity_row_of (workout_id_for d c) (JStr d)) ds) /\
  (forall h batch a,
     In h (workouts w) -> In batch (activities w) -> In a batch ->
     ar_workout_id a = wr_workout_id h /\ ar_date a = wr_date h).
Proof.
  cbv zeta.
  assert (Main :
    (workouts (snd (run E file)) = [] /\ activities (snd (run E file)) = []) \/
    (summarised (snd (run E file)) = true /\ parsed_logs (snd (run E file)) <> [] /\
     exists pj obj fields d c,
       json_loads E pj = inr (JObj obj) /\
       Py.lookup "status" obj = Some (JStr "ok") /\
       Py.lookup "workout" obj = Some (JObj fields) /\
       Py.lookup "date" fields = Some (JStr d) /\
       workouts (snd (run E file)) = [workout_row_of (workout_id_for d c) fields] /\
       (activities (snd (run E file)) = [] \/
        exists ds,
          activities (snd (run E file))
          = [map (activity_row_of (workout_id_for d c) (JStr d)) ds]))).
  { rewrite run_unfold.
    destruct (fetch_recent_raw_spec E 100 (before_fetch file)) as [F1 L1].
    destruct (fetch_recent_raw E 100 (before_fetch file)) as [[e|rows] w1];
      cbn [fst snd] in *.
    { left. destruct F1 as [_ _ Fw Fa _]. now rewrite Fw, Fa. }
    set (l0 := mkLocals (loaded file) false None).
    pose proof (loop_spec E (sorted get_timestamp rows) l0 w1) as LS.
    cbv zeta in LS. destruct LS as (F2 & done & rest & new & HP & HL & HK & HR).
    pose proof (frame_trans _ _ _ F1 F2) as F12.
    destruct (for_each (sorted get_timestamp rows) (process_row E) (l0, w1))
      as [[e|[]] [l2 w2]]; cbn [fst snd] in *.
    { left. destruct F12 as [_ _ Fw Fa _]. now rewrite Fw, Fa. }
    destruct HR as (-> & HT & HD).
    destruct (checkpoint_step_spec l2 w2) as (w3 & C & SM & CL & CW & CA & _).
    rewrite C. cbn [fst snd].
    pose proof (keeps_post_sheets E (l2, w3)) as [_ _ Kl Ko]. cbn [snd] in Kl, Ko.
    destruct F12 as [_ _ Fw Fa _]. cbn [before_fetch workouts activities] in Fw, Fa.
    destruct (post_sheets_writes l2 w3)
      as [[PW PA]|(pj & obj & fields & d & c & PJ & JL & OK & WK & DT & _ & PW & PA)];
      cbv zeta in *.
    { left. now rewrite PW, PA, CW, CA, Fw, Fa. }
    right. split; [unfold summarised; rewrite Ko; exact SM|].
    split.
    { rewrite Kl, CL, HL. destruct done as [|r0 done].
      - subst l2. discriminate.
      - destruct new; [discriminate|]. now destruct (parsed_logs w1). }
    exists pj, obj, fields, d, c. repeat (split; [assumption|]).
    rewrite PW, CW, Fw. split; [reflexivity|].
    destruct PA as [PA|(ds & PA)]; rewrite PA, CA, Fa; [now left|].
    right. now exists ds. }
  destruct Main as [[W A]|(SM & PL & pj & obj & fields & d & c & JL & OK & WK & DT & W & A)].
  - rewrite W, A. repeat split; intros; contradiction.
  - rewrite W. split; [discriminate|]. split.
    + intros h [<-|[]]. repeat split; try assumption.
      exists pj, obj, fields, d, c. repeat (split; [assumption|]).
      split; [reflexivity|].
      intros batch B. destruct A as [A|(ds & A)]; rewrite A in *; [contradiction|].
      destruct B as [<-|[]]. split; [reflexivity|now exists ds].
    + intros h batch a [<-|[]] B I.
      destruct A as [A|(ds & A)]; rewrite A in *; [contradiction|].
      destruct B as [<-|[]]. apply in_map_iff in I. destruct I as (f & <- & _).
      cbn. unfold field. rewrite DT. now split.
Qed.

End Sheets.

(* ===================================================================== *)
(** ** What the audit rows record *)
(* ===================================================================== *)

Section Records.

Variable E : Env.

Lemma try_suite_unfold (ts u raw : string) (l : Locals) (w : World) :
  try_suite E ts u raw (l, w)
  = match parse_with_llm E raw (utc_today E w) w with
    | (inl e, w1) => (inl e, (l, w1))
    | (inr out, w1) =>
        (fst (append_parsed E ts u raw (fst out) (snd out) w1),
         (set_parsed_json (fst out) l,
          snd (append_parsed E ts u raw (fst out) (snd out) w1)))
    end.
Proof.
  unfold try_suite, bind, io, iso_now_date_utc, assign. cbn [fst snd].
  destruct (parse_with_llm E raw (utc_today E w) w) as [[e|out] w1]; [reflexivity|].
  cbn [fst snd].
  destruct (append_parsed E ts u raw (fst out) (snd out) w1) as [[e|[]] w2]; reflexivity.
Qed.

Lemma process_row_unfold (r : RawRow) (l : Locals) (w : World) :
  process_row E r (l, w)
  = let w0 := snd (print (PrintProcessing r) w) in
    let ts := get_timestamp r in
    let u := or_default (raw_user_id r) "" in
    let raw := or_default (raw_text r) "" in
    if skips (last_ts l) ts then (inr tt, (l, w0))
    else
      match try_suite E ts u raw (l, w0) with
      | (inr _, s1) => (inr tt, (set_processed_any true (set_last_ts ts (fst s1)), snd s1))
      | (inl e, s1) =>
          match except_suite E ts u raw e s1 with
          | (inr _, s2) =>
              (inr tt, (set_processed_any true (set_last_ts ts (fst s2)), snd s2))
          | (inl e', s2) => (inl e', s2)
          end
      end.
Proof.
  unfold process_row, skips. unfold bind at 1. unfold io at 1, print at 1.
  cbn [fst snd]. cbv zeta.
  destruct (PyStr.is_empty (get_timestamp r)); [reflexivity|].
  unfold bind at 1. unfold locals at 1. cbn [fst snd orb].
  destruct (negb (PyStr.is_empty (last_ts l)) && (get_timestamp r <=? last_ts l));
    [reflexivity|].
  unfold bind, try_except, assign.
  destruct (try_suite E _ _ _ _) as [[e|[]] s1]; cbn [fst snd]; [|reflexivity].
  destruct (except_suite E _ _ _ e s1) as [[e'|[]] s2]; reflexivity.
Qed.

Lemma process_row_records (r : RawRow) (l : Locals) (w : World) :
  let res := process_row E r (l, w) in
  bound_by E l (fst (snd res)) /\
  exists news,
    parsed_logs (snd (snd res)) = (parsed_logs w ++ news)%list /\
    Forall (fun a => parse_row E a \/ error_row E a) news.
Proof.
  cbv zeta. rewrite process_row_unfold. cbv zeta.
  set (w0 := snd (print (PrintProcessing r) w)).
  assert (L0 : parsed_logs w0 = parsed_logs w) by reflexivity. clearbody w0.
  destruct (skips (last_ts l) (get_timestamp r)).
  { cbn [fst snd]. split; [intros pj P; now left|].
    exists []. rewrite app_nil_r. now split. }
  set (ts := get_timestamp r). set (u := or_default (raw_user_id r) "").
  set (raw := or_default (raw_text r) "").
  rewrite try_suite_unfold.
  pose proof (parse_with_llm_world E raw (utc_today E w0) w0) as PW.
  destruct (parse_with_llm E raw (utc_today E w0) w0) as [[e|out] w1] eqn:P;
    cbn [snd] in PW; subst w1.
  - pose proof (except_suite_spec E ts u raw e l (tick w0)) as (_ & EL & L2).
    destruct (except_suite E ts u raw e (l, tick w0)) as [[e'|[]] [l2 w2]];
      cbn [fst snd] in *; subst l2.
    + split; [intros pj B; now left|]. exists []. rewrite app_nil_r, L2. now split.
    + split; [intros pj B; now left|]. eexists. split; [rewrite L2, <- L0; reflexivity|].
      constructor; [|constructor]. right. split; [reflexivity|]. now exists e.
  - assert (PB : parsed_by E raw (fst out) (snd out)).
    { exists w0. rewrite P. now destruct out. }
    pose proof (append_parsed_spec E ts u raw (fst out) (snd out) (tick w0)) as [_ AL].
    cbv zeta in AL.
    destruct (append_parsed E ts u raw (fst out) (snd out) (tick w0)) as [[e|[]] w2];
      cbn [fst snd] in *.
    + set (l1 := set_parsed_json (fst out) l).
      pose proof (except_suite_spec E ts u raw e l1 w2) as (_ & EL & L2).
      destruct (except_suite E ts u raw e (l1, w2)) as [[e'|[]] [l2 w3]];
        cbn [fst snd] in *; subst l2.
      * split; [intros pj B; injection B as <-; right; eauto|].
        exists []. rewrite app_nil_r, L2, AL. now split.
      * split; [intros pj B; injection B as <-; right; eauto|].
        eexists. split; [rewrite L2, AL, <- L0; reflexivity|].
        constructor; [|constructor]. right. split; [reflexivity|]. now exists e.
    + split; [intros pj B; injection B as <-; right; eauto|].
      eexists. split; [rewrite AL, <- L0; reflexivity|].
      constructor; [|constructor]. left. exact PB.
Qed.

Lemma loop_records (rows : list RawRow) : forall (l : Locals) (w : World),
  let res := for_each rows (process_row E) (l, w) in
  bound_by E l (fst (snd res)) /\
  exists news,
    parsed_logs (snd (snd res)) = (parsed_logs w ++ news)%list /\
    Forall (fun a => parse_row E a \/ error_row E a) news.
Proof.
  induction rows as [|r rows IH]; intros l w; cbv zeta.
  - cbn. split; [intros pj B; now left|]. exists []. rewrite app_nil_r. now split.
  - cbn [for_each]. unfold bind.
    pose proof (process_row_records r l w) as PR. cbv zeta in PR.
    destruct (process_row E r (l, w)) as [[e|[]] [l1 w1]]; cbn [fst snd] in *;
      [exact PR|].
    destruct PR as (B1 & n1 & L1 & F1).
    destruct (IH l1 w1) as (B2 & n2 & L2 & F2). cbv zeta in *.
    split.
    + intros pj B. destruct (B2 pj B) as [B'|B']; [apply B1, B'|now right].
    + exists (n1 ++ n2)%list. rewrite L2, L1, app_assoc. split; [reflexivity|].
      apply Forall_app. now split.
Qed.

(** X13. Every audit row of a run records either what [parse_with_llm]
    returned for the row's raw text, with the date of the day as the
    default date, or an exception: status ["error"] and the exception's
    text under the key ["error"]. *)
Theorem audit_rows_record_parse_or_error (file : option State) :
  Forall (fun a => parse_row E a \/ error_row E a) (parsed_logs (snd (run E file))).
Proof.
  rewrite run_unfold.
  destruct (fetch_recent_raw_spec E 100 (before_fetch file)) as [_ L1].
  destruct (fetch_recent_raw E 100 (before_fetch file)) as [[e|rows] w1];
    cbn [fst snd] in *; [rewrite L1; constructor|].
  set (l0 := mkLocals (loaded file) false None).
  destruct (loop_records (sorted get_timestamp rows) l0 w1) as (_ & news & L2 & F2).
  cbv zeta in *. rewrite L1 in L2. cbn [before_fetch parsed_logs app] in L2.
  destruct (for_each (sorted get_timestamp rows) (process_row E) (l0, w1))
    as [[e|[]] [l2 w2]]; cbn [fst snd] in *; [now rewrite L2|].
  destruct (checkpoint_step_spec l2 w2) as (w3 & C & _ & CL & _).
  rewrite C. cbn [fst snd].
  pose proof (keeps_post_sheets E (l2, w3)) as [_ _ Kl _]. cbn [snd] in Kl.
  now rewrite Kl, CL, L2.
Qed.

Lemma parse_with_llm_raised (raw d : string) (w : World) (e : Exn) :
  responses_create E w (llm_input raw d) = inl e ->
  parse_with_llm E raw d w = (inl e, tick w).
Proof. intros H. unfold parse_with_llm, bind. now rewrite H. Qed.

(** X14. When every call of the text-generation backend raises, every audit
    row of the run is an error row, no header and no activities are
    written, and the run ends with an exception: the [UnboundLocalError]
    of [parsed_json] if the loop came to its end. *)
Theorem backend_down_records_errors (file : option State) :
  (forall w input, exists e, responses_create E w input = inl e) ->
  let w := snd (run E file) in
  Forall (error_row E) (parsed_logs w) /\
  workouts w = [] /\ activities w = [] /\
  (exists e, fst (run E file) = inl e) /\
  (summarised w = true -> fst (run E file) = inl unbound_parsed_json).
Proof.
  intros Down. cbv zeta.
  assert (NP : forall raw pj st, ~ parsed_by E raw pj st).
  { intros raw pj st [w P]. destruct (Down w (llm_input raw (utc_today E w))) as [e D].
    rewrite (parse_with_llm_raised _ _ _ _ D) in P. discriminate. }
  assert (OnlyErrors : forall rows,
             Forall (fun a => parse_row E a \/ error_row E a) rows ->
             Forall (error_row E) rows).
  { intros rows. apply Forall_impl. intros a [P|P]; [|exact P].
    exfalso. exact (NP _ _ _ P). }
  rewrite run_unfold.
  destruct (fetch_recent_raw_spec E 100 (before_fetch file)) as [F1 L1].
  destruct (fetch_recent_raw E 100 (before_fetch file)) as [[e|rows] w1];
    cbn [fst snd] in *.
  { destruct F1 as [_ _ Fw Fa Fs]. rewrite L1, Fw, Fa. repeat split; eauto.
    rewrite Fs. discriminate. }
  set (l0 := mkLocals (loaded file) false None).
  destruct (loop_records (sorted get_timestamp rows) l0 w1) as (B & news & L2 & F2).
  destruct (loop_spec E (sorted get_timestamp rows) l0 w1) as [F3 _].
  cbv zeta in *. rewrite L1 in L2. cbn [before_fetch parsed_logs app] in L2.
  pose proof (frame_trans _ _ _ F1 F3) as F13.
  destruct (for_each (sorted get_timestamp rows) (process_row E) (l0, w1))
    as [[e|[]] [l2 w2]]; cbn [fst snd] in *.
  { destruct F13 as [_ _ Fw Fa Fs]. rewrite L2, Fw, Fa. repeat split; eauto.
    rewrite Fs. discriminate. }
  destruct (checkpoint_step_spec l2 w2) as (w3 & C & _ & CL & CW & CA & _).
  rewrite C. cbn [fst snd].
  assert (U : parsed_json l2 = None).
  { destruct (parsed_json l2) as [pj|] eqn:PJ; [|reflexivity].
    destruct (B pj PJ) as [X|(raw & st & X)]; [discriminate|].
    exfalso. exact (NP _ _ _ X). }
  rewrite (post_sheets_unbound E l2 w3 U). cbn [fst snd].
  destruct F13 as [_ _ Fw Fa _]. rewrite CL, CW, CA, L2, Fw, Fa.
  repeat split; eauto.
Qed.

Lemma fetch_sends_one_request (n : Z) (w : World) :
  calls (snd (fetch_recent_raw E n w)) = S (calls w).
Proof.
  unfold fetch_recent_raw, bind, http_get, print, raise_for_status, response_json,
    of_result, raise, ret. cbn [fst snd].
  destruct (requests_get E w (GetRaw n)) as [e|r]; cbn [fst snd]; [reflexivity|].
  destruct ((400 <=? status_code r)%Z && (status_code r <? 600)%Z);
    cbn [fst snd]; [reflexivity|].
  destruct (body r) as [e|data]; cbn [fst snd]; [reflexivity|].
  destruct (negb (reply_ok data)); reflexivity.
Qed.

(** X15. When the fetch raises, the run ends with that exception after the
    one request: no entry is started, nothing is written to the sheets or
    to the state file, and no summary is printed. *)
Theorem run_stops_when_fetch_fails (file : option State) (e : Exn) :
  fetched E file = inl e ->
  let w := snd (run E file) in
  fst (run E file) = inl e /\
  parsed_logs w = [] /\ workouts w = [] /\ activities w = [] /\
  saves w = [] /\ state_file w = file /\
  summarised w = false /\
  (forall r, ~ In (PrintProcessing r) (stdout w)) /\
  calls w = 1%nat.
Proof.
  intros H. cbv zeta. destruct (run_fetch_failed E file e H) as (R & L & [Ff Fs Fw Fa Fm]).
  rewrite R, L, Ff, Fs, Fw, Fa, Fm. repeat split.
  - intros r I. unfold fetched in H. rewrite run_unfold in I.
    pose proof (fetch_recent_raw_prints E 100 (before_fetch file)) as P.
    destruct (fetch_recent_raw E 100 (before_fetch file)) as [[e'|rows] w1];
      cbn [fst snd] in *; [|discriminate].
    rewrite P in I.
    destruct (requests_get E (before_fetch file) (GetRaw 100)); cbn in I;
      intuition discriminate.
  - unfold fetched in H. rewrite run_unfold.
    pose proof (fetch_sends_one_request 100 (before_fetch file)) as P.
    destruct (fetch_recent_raw E 100 (before_fetch file)) as [[e'|rows] w1];
      cbn [fst snd] in *; [exact P|discriminate].
Qed.

End Records.

Lemma backend_down_records_errors_witness :
  let E := Outage.backend_down [Scenario.row_bench "T1"] in
  let w := snd (run E None) in
  Forall (error_row E) (parsed_logs w) /\
  workouts w = [] /\ activities w = [] /\
  (exists e, fst (run E None) = inl e) /\
  (summarised w = true -> fst (run E None) = inl unbound_parsed_json).
Proof.
  apply (backend_down_records_errors (Outage.backend_down [Scenario.row_bench "T1"]) None).
  intros w input. eexists. reflexivity.
Defined.

Lemma run_stops_when_fetch_fails_witness :
  let w := snd (run Outage.sheet_down None) in
  fst (run Outage.sheet_down None)
  = inl (mkExn (OtherException "ConnectionError") "Connection refused") /\
  parsed_logs w = [] /\ workouts w = [] /\ activities w = [] /\
  saves w = [] /\ state_file w = None /\
  summarised w = false /\
  (forall r, ~ In (PrintProcessing r) (stdout w)) /\
  calls w = 1%nat.
Proof.
  apply (run_stops_when_fetch_fails Outage.sheet_down None). reflexivity.
Defined.

(* ===================================================================== *)
(** ** Runs against a sheet that takes, or refuses, the audit rows *)
(* ===================================================================== *)

Lemma respects_for_each {S A} (R : S -> S -> Prop) (l : list A) (body : A -> Prog S unit) :
  (forall s, R s s) -> (forall s1 s2 s3, R s1 s2 -> R s2 s3 -> R s1 s3) ->
  (forall a, respects R (body a)) -> respects R (for_each l body).
Proof.
  intros Rr Rt H. induction l as [|a l IH]; [now apply respects_ret|].
  cbn [for_each]. apply respects_bind; [exact Rt|apply H|intros; exact IH].
Qed.

Lemma same_logs_refl (w : World) : same_logs w w.
Proof. reflexivity. Qed.

Lemma same_logs_trans (w1 w2 w3 : World) :
  same_logs w1 w2 -> same_logs w2 w3 -> same_logs w1 w3.
Proof. unfold same_logs. congruence. Qed.

Section Sheet.

Variable E : Env.

(** With a sheet that takes the error rows no exception leaves an
    iteration. *)
Lemma process_row_returns (r : RawRow) (l : Locals) (w : World) :
  takes_error_rows E -> fst (process_row E r (l, w)) = inr tt.
Proof.
  intros T. rewrite process_row_unfold. cbv zeta.
  destruct (skips (last_ts l) (get_timestamp r)); [reflexivity|].
  destruct (try_suite E _ _ _ _) as [[e|[]] [l1 w1]]; [|reflexivity].
  unfold except_suite, io, append_parsed. cbv zeta. cbn [fst snd].
  set (p := AppendParsed _).
  destruct (send_outcomes E p w1) as (_ & Ok & _). cbv zeta in Ok.
  destruct ((r0 <- http_post E p ;; raise_for_status r0 ;; stored p) w1)
    as [[e'|[]] w2]; cbn [fst snd] in *; [|reflexivity].
  exfalso. assert (H : @inl Exn unit e' = inr tt) by (apply Ok, T). discriminate.
Qed.

Lemma loop_returns (rows : list RawRow) : forall (l : Locals) (w : World),
  takes_error_rows E -> fst (for_each rows (process_row E) (l, w)) = inr tt.
Proof.
  induction rows as [|r rows IH]; intros l w T; [reflexivity|].
  cbn [for_each]. unfold bind. pose proof (process_row_returns r l w T) as P.
  destruct (process_row E r (l, w)) as [[e|[]] [l1 w1]]; cbn [fst] in P;
    [discriminate|]. now apply IH.
Qed.

(** X16. With a sheet that takes every error row, a run whose fetch returns
    always comes to its summary, whatever the text-generation backend and
    the other requests do: it writes one audit row for each entry the gate
    lets through, and the checkpoint it leaves covers every fetched
    entry. *)
Theorem accepting_sheet_run_completes (file : option State) (rows : list RawRow) :
  takes_error_rows E ->
  fetched E file = inr rows ->
  let w := snd (run E file) in
  summarised w = true /\
  map pl_key (parsed_logs w)
  = map row_key (plan get_timestamp (loaded file) (sorted get_timestamp rows)) /\
  (forall r, In r rows -> PyStr.le (get_timestamp r) (loaded (state_file w))).
Proof.
  intros T F. cbv zeta.
  assert (SM : summarised (snd (run E file)) = true).
  { unfold fetched in F. rewrite run_unfold.
    destruct (fetch_recent_raw E 100 (before_fetch file)) as [[e|rows'] w1];
      cbn [fst snd] in *; [discriminate|].
    pose proof (loop_returns (sorted get_timestamp rows')
                  (mkLocals (loaded file) false None) w1 T) as LR.
    destruct (for_each _ _ _) as [[e|[]] [l2 w2]]; cbn [fst] in LR; [discriminate|].
    destruct (checkpoint_step_spec l2 w2) as (w3 & C & S3 & _).
    rewrite C. cbn [fst snd].
    pose proof (keeps_post_sheets E (l2, w3)) as [_ _ _ Ko]. cbn [snd] in Ko.
    unfold summarised. rewrite Ko. exact S3. }
  split; [exact SM|]. split; [now apply handled_plan|].
  intros r I. now apply (batch_covered E file rows).
Qed.

Lemma append_parsed_refused (ts u raw pj : string) (st : json) (w : World) :
  refuses_audit_rows E ->
  (exists e, fst (append_parsed E ts u raw pj st w) = inl e) /\
  same_logs w (snd (append_parsed E ts u raw pj st w)).
Proof.
  intros R. unfold append_parsed. cbv zeta. set (p := AppendParsed _).
  destruct (send_outcomes E p w) as (_ & Ok & _ & Err). cbv zeta in Ok, Err.
  destruct ((r <- http_post E p ;; raise_for_status r ;; stored p) w)
    as [[e|[]] w2]; cbn [fst snd] in *.
  - split; [now exists e|]. now rewrite (Err e eq_refl).
  - exfalso. destruct Ok as [Ok _]. destruct (Ok eq_refl) as (r & P & S).
    rewrite (R w _ r P) in S. discriminate.
Qed.

Lemma process_row_refused (r : RawRow) (l : Locals) (w : World) :
  refuses_audit_rows E ->
  same_logs w (snd (snd (process_row E r (l, w)))) /\
  (skips (last_ts l) (get_timestamp r) = false ->
   exists e, fst (process_row E r (l, w)) = inl e).
Proof.
  intros R. rewrite process_row_unfold. cbv zeta.
  destruct (skips (last_ts l) (get_timestamp r)); [split; [reflexivity|discriminate]|].
  rewrite try_suite_unfold.
  set (w0 := snd (print (PrintProcessing r) w)).
  assert (L0 : same_logs w w0) by reflexivity. clearbody w0.
  set (ts := get_timestamp r). set (u := or_default (raw_user_id r) "").
  set (raw := or_default (raw_text r) "").
  pose proof (parse_with_llm_world E raw (utc_today E w0) w0) as PW.
  assert (Ex : forall e l1 w1, same_logs w w1 ->
            same_logs w (snd (snd
              match except_suite E ts u raw e (l1, w1) with
              | (inl e', s2) => (inl e', s2)
              | (inr _, s2) =>
                  (inr tt, (set_processed_any true (set_last_ts ts (fst s2)), snd s2))
              end)) /\
            (false = false ->
             exists e0, fst
               match except_suite E ts u raw e (l1, w1) with
               | (inl e', s2) => (inl e', s2)
               | (inr _, s2) =>
                   (inr tt, (set_processed_any true (set_last_ts ts (fst s2)), snd s2))
               end = inl e0)).
  { intros e l1 w1 L1. unfold except_suite, io. cbv zeta. cbn [fst snd].
    destruct (append_parsed_refused ts u raw
                (json_dumps E (JObj [("error", JStr (exn_str e))])) (JStr "error") w1 R)
      as [[e' X] SL].
    destruct (append_parsed E ts u raw _ (JStr "error") w1) as [[e0|[]] w2];
      cbn [fst snd] in *; [|discriminate].
    split; [exact (same_logs_trans _ _ _ L1 SL)|]. intros _. now exists e0. }
  destruct (parse_with_llm E raw (utc_today E w0) w0) as [[e|out] w1];
    cbn [snd] in PW; subst w1.
  - apply Ex. exact L0.
  - destruct (append_parsed_refused ts u raw (fst out) (snd out) (tick w0) R)
      as [[e X] SL].
    destruct (append_parsed E ts u raw (fst out) (snd out) (tick w0)) as [[e0|[]] w2];
      cbn [fst snd] in *; [|discriminate].
    apply Ex. eapply same_logs_trans; [exact L0|exact SL].
Qed.

Lemma loop_refused (rows : list RawRow) : forall (l : Locals) (w : World),
  refuses_audit_rows E ->
  let res := for_each rows (process_row E) (l, w) in
  same_logs w (snd (snd res)) /\
  (plan get_timestamp (last_ts l) rows <> [] -> exists e, fst res = inl e) /\
  (plan get_timestamp (last_ts l) rows = [] -> fst (snd res) = l).
Proof.
  induction rows as [|r rows IH]; intros l w R; cbv zeta.
  - cbn. repeat split. intros H. now contradiction H.
  - cbn [for_each plan]. unfold bind.
    destruct (process_row_refused r l w R) as [SL Ab].
    destruct (skips (last_ts l) (get_timestamp r)) eqn:SK.
    + assert (P : process_row E r (l, w)
                  = (inr tt, (l, snd (print (PrintProcessing r) w))))
        by (rewrite process_row_unfold; cbv zeta; now rewrite SK).
      rewrite P in *. cbn [fst snd] in *.
      destruct (IH l (snd (print (PrintProcessing r) w)) R) as (SL' & Ab' & Id').
      cbv zeta in *.
      split; [exact (same_logs_trans _ _ _ SL SL')|]. now split.
    + destruct (Ab eq_refl) as [e Er].
      destruct (process_row E r (l, w)) as [[e0|[]] s1]; cbn [fst snd] in *;
        [|discriminate].
      split; [exact SL|]. split; [intros _; now exists e0|discriminate].
Qed.

(** X17. With a sheet that takes no audit row, a run whose fetch returns
    writes nothing at all, neither to the sheets nor to the state file,
    and ends with an exception. It comes to its summary exactly when no
    fetched entry is above the checkpoint; otherwise the first such entry
    ends the run. The state file is as before, so the next run starts from
    the same checkpoint. *)
Theorem refusing_sheet_run_aborts (file : option State) (rows : list RawRow) :
  refuses_audit_rows E ->
  fetched E file = inr rows ->
  let w := snd (run E file) in
  parsed_logs w = [] /\ workouts w = [] /\ activities w = [] /\
  saves w = [] /\ state_file w = file /\
  (exists e, fst (run E file) = inl e) /\
  (summarised w = true <->
   plan get_timestamp (loaded file) (sorted get_timestamp rows) = []).
Proof.
  intros R F. cbv zeta. unfold fetched in F. rewrite run_unfold.
  destruct (fetch_recent_raw_spec E 100 (before_fetch file)) as [F1 L1].
  destruct (fetch_recent_raw E 100 (before_fetch file)) as [[e|rows'] w1];
    cbn [fst snd] in *; [discriminate|]. injection F as ->.
  set (l0 := mkLocals (loaded file) false None).
  destruct (loop_refused (sorted get_timestamp rows) l0 w1 R) as (SL & Ab & Id).
  destruct (loop_spec E (sorted get_timestamp rows) l0 w1)
    as (F2 & done & rest & new & HP & _ & _ & HR).
  cbv zeta in *. cbn [last_ts l0] in Ab, Id, HP.
  pose proof (frame_trans _ _ _ F1 F2) as [Ff Fs Fw Fa Fm].
  cbn [before_fetch state_file saves workouts activities parsed_logs] in *.
  unfold same_logs in SL. rewrite L1 in SL.
  destruct (for_each (sorted get_timestamp rows) (process_row E) (l0, w1))
    as [[e|[]] [l2 w2]]; cbn [fst snd] in *.
  - rewrite Fm. repeat split; eauto; try discriminate.
    intros P. rewrite P in HP. destruct done; [|discriminate].
    cbn in HP. now subst rest.
  - destruct (plan get_timestamp (loaded file) (sorted get_timestamp rows)) eqn:PL.
    2:{ destruct Ab as [e Er]; discriminate. }
    specialize (Id eq_refl). subst l2.
    destruct (checkpoint_step_spec l0 w2) as (w3 & C & S3 & CL & CW & CA & CS).
    cbn [processed_any l0] in CS. destruct CS as (CS1 & CS2 & _).
    rewrite C. cbn [fst snd]. rewrite post_sheets_unbound by reflexivity.
    cbn [fst snd]. rewrite CL, CW, CA, CS1, CS2, S3. repeat split; eauto.
Qed.

End Sheet.

Lemma accepting_sheet_run_completes_witness :
  let rows := [Scenario.row_bench "T1"; Demo.row "T2" "u1" "did something today"] in
  let w := snd (run (Scenario.healthy rows) None) in
  summarised w = true /\
  map pl_key (parsed_logs w)
  = map row_key (plan get_timestamp (loaded None) (sorted get_timestamp rows)) /\
  (forall r, In r rows -> PyStr.le (get_timestamp r) (loaded (state_file w))).
Proof.
  apply (accepting_sheet_run_completes
           (Scenario.healthy
              [Scenario.row_bench "T1"; Demo.row "T2" "u1" "did something today"])
           None).
  - intros w ts u raw pj. eexists. split; reflexivity.
  - reflexivity.
Defined.

Lemma refusing_sheet_run_aborts_witness :
  let rows := [Scenario.row_bench "T1"; Scenario.row_squat "T2"] in
  let E := Scenario.flaky rows Scenario.reject_all in
  let w := snd (run E None) in
  parsed_logs w = [] /\ workouts w = [] /\ activities w = [] /\
  saves w = [] /\ state_file w = None /\
  (exists e, fst (run E None) = inl e) /\
  (summarised w = true <->
   plan get_timestamp (loaded None) (sorted get_timestamp rows) = []).
Proof.
  apply (refusing_sheet_run_aborts
           (Scenario.flaky [Scenario.row_bench "T1"; Scenario.row_squat "T2"]
              Scenario.reject_all)
           None).
  - intros w row r P. cbn in P. injection P as <-. reflexivity.
  - reflexivity.
Defined.

(* ===================================================================== *)
(** ** [post_to_sheet] of [bot.py] *)
(* ===================================================================== *)

Lemma substring_prefix (n : nat) : forall s,
  exists rest, s = substring 0 n s ++ rest.
Proof.
  induction n as [|n IH]; intros [|c s]; cbn.
  - now exists "".
  - now exists (String c s).
  - now exists "".
  - destruct (IH s) as [rest R]. exists rest. now rewrite <- R.
Qed.

Lemma length_substring_prefix (n : nat) : forall s,
  String.length (substring 0 n s) = Nat.min n (String.length s).
Proof.
  induction n as [|n IH]; intros [|c s]; cbn; try reflexivity.
  now rewrite IH.
Qed.

Lemma post_to_sheet_ok (post : Bot.Sheet) (p : Bot.Payload) :
  fst (Bot.post_to_sheet post p) = true <->
  exists r, post p = inr r /\ (200 <= Bot.code r < 300)%Z.
Proof.
  unfold Bot.post_to_sheet. destruct (post p) as [e|r].
  - split; [discriminate|]. intros (r & H & _). discriminate.
  - assert (In2xx : ((200 <=? Bot.code r) && (Bot.code r <? 300))%Z = true <->
                     (200 <= Bot.code r < 300)%Z)
      by (rewrite andb_true_iff, Z.leb_le, Z.ltb_lt; tauto).
    destruct ((200 <=? Bot.code r) && (Bot.code r <? 300))%Z; cbn [fst].
    + split; [intros _; exists r; split; [reflexivity|now apply In2xx]|reflexivity].
    + split; [discriminate|]. intros (r0 & H & B). injection H as <-.
      now apply In2xx.
Qed.

(** X18. [post_to_sheet] of [bot.py] reports success exactly when the POST
    returned with a status from 200 to 299, and then [raise_for_status]
    would not raise for that status either. For any other status the
    message carries the status and the first 200 characters of the body at
    most; an exception of the request is caught and reported with its
    text. *)
Theorem post_to_sheet_outcomes (post : Bot.Sheet) (p : Bot.Payload) :
  let res := Bot.post_to_sheet post p in
  (fst res = true <->
   exists r, post p = inr r /\ (200 <= Bot.code r < 300)%Z) /\
  (forall r,
     post p = inr r -> fst res = true ->
     snd res = "HTTP " ++ Bot.str_int (Bot.code r) /\
     forall r' : Response, status_code r' = Bot.code r -> is_error_status r' = false) /\
  (forall r,
     post p = inr r -> fst res = false ->
     exists excerpt rest,
       snd res = "HTTP " ++ Bot.str_int (Bot.code r) ++ ": " ++ excerpt /\
       Bot.text r = excerpt ++ rest /\
       String.length excerpt = Nat.min 200 (String.length (Bot.text r))) /\
  (forall e, post p = inl e -> res = (false, "EXC: " ++ exn_str e)).
Proof.
  cbv zeta. unfold Bot.post_to_sheet.
  destruct (post p) as [e|r] eqn:P.
  - cbn [fst snd]. repeat split; try discriminate.
    + intros (r & H & _). discriminate.
    + intros e' H. now injection H as <-.
  - destruct (Z.leb_spec 200 (Bot.code r)) as [Lo|Lo],
             (Z.ltb_spec (Bot.code r) 300) as [Hi|Hi]; cbn [andb fst snd].
    + split; [split; [intros _; exists r; split; [reflexivity|lia]|reflexivity]|].
      split.
      { intros r0 H _. injection H as <-. split; [reflexivity|].
        intros r' S. unfold is_error_status. rewrite S.
        destruct (Z.leb_spec 400 (Bot.code r)); [lia|reflexivity]. }
      split; [discriminate|discriminate].
    + split; [split; [discriminate|intros (r0 & H & B); injection H as <-; lia]|].
      split; [discriminate|]. split; [|discriminate].
      intros r0 H _. injection H as <-.
      destruct (substring_prefix 200 (Bot.text r)) as [rest R].
      exists (substring 0 200 (Bot.text r)), rest.
      split; [reflexivity|]. split; [exact R|apply length_substring_prefix].
    + split; [split; [discriminate|intros (r0 & H & B); injection H as <-; lia]|].
      split; [discriminate|]. split; [|discriminate].
      intros r0 H _. injection H as <-.
      destruct (substring_prefix 200 (Bot.text r)) as [rest R].
      exists (substring 0 200 (Bot.text r)), rest.
      split; [reflexivity|]. split; [exact R|apply length_substring_prefix].
    + split; [split; [discriminate|intros (r0 & H & B); injection H as <-; lia]|].
      split; [discriminate|]. split; [|discriminate].
      intros r0 H _. injection H as <-.
      destruct (substring_prefix 200 (Bot.text r)) as [rest R].
      exists (substring 0 200 (Bot.text r)), rest.
      split; [reflexivity|]. split; [exact R|apply length_substring_prefix].
Qed.

(* ===================================================================== *)
(** ** The handlers of [bot.py] *)
(* ===================================================================== *)

Lemma length_lstrip (s : string) :
  (String.length (PyStr.lstrip s) <= String.length s)%nat.
Proof.
  induction s as [|c s IH]; cbn; [lia|]. destruct (PyStr.is_space c); cbn; lia.
Qed.

(** A string [lstrip] leaves as it is is empty or starts with a character
    that is no white space. *)
Lemma lstrip_fixed (c : ascii) (s : string) :
  PyStr.lstrip (String c s) = String c s -> PyStr.is_space c = false.
Proof.
  cbn. destruct (PyStr.is_space c); [|reflexivity]. intros H.
  pose proof (length_lstrip s) as L. rewrite H in L. cbn in L. lia.
Qed.

Lemma lstrip_idem (s : string) : PyStr.lstrip (PyStr.lstrip s) = PyStr.lstrip s.
Proof.
  induction s as [|c s IH]; [reflexivity|]. cbn.
  destruct (PyStr.is_space c) eqn:Sp; [exact IH|]. cbn. now rewrite Sp.
Qed.

Lemma rstrip_idem (s : string) : PyStr.rstrip (PyStr.rstrip s) = PyStr.rstrip s.
Proof.
  induction s as [|c s IH]; [reflexivity|]. cbn [PyStr.rstrip].
  destruct (PyStr.rstrip s) as [|d t] eqn:R.
  - destruct (PyStr.is_space c) eqn:Sp; [reflexivity|]. cbn [PyStr.rstrip].
    now rewrite Sp.
  - cbn [PyStr.rstrip] in *. now rewrite IH.
Qed.

Lemma lstrip_rstrip (s : string) :
  PyStr.lstrip s = s -> PyStr.lstrip (PyStr.rstrip s) = PyStr.rstrip s.
Proof.
  destruct s as [|c s]; [reflexivity|]. intros H. apply lstrip_fixed in H.
  cbn [PyStr.rstrip]. destruct (PyStr.rstrip s); rewrite ?H; cbn [PyStr.lstrip];
    now rewrite H.
Qed.

(** [strip] leaves a stripped string as it is. *)
Lemma strip_idem (s : string) : PyStr.strip (PyStr.strip s) = PyStr.strip s.
Proof.
  unfold PyStr.strip. rewrite lstrip_rstrip by apply lstrip_idem. apply rstrip_idem.
Qed.

Section Handlers.

Variables (post : Bot.Sheet) (sheet_secret now : string) (update : Bot.Update).

(** X19. The handlers of [bot.py]. [handle_text] does nothing for an update
    without a message or with no or an empty text, and [handle_voice]
    nothing without a voice note. Otherwise each posts one entry, with the
    secret, the time of the call, the user's id or ["unknown"], and its own
    [source]: the text handler the stripped text, which stripping again
    leaves as it is, the voice handler the duration and the file id. Each
    answers with its own success message exactly when the sheet replied
    with a status from 200 to 299, and with the failure message
    otherwise. *)
Theorem handlers_post_and_answer :
  (Bot.handle_text post sheet_secret now update = None <->
   forall m t, Bot.message update = Some m -> Bot.message_text m = Some t -> t = "") /\
  (Bot.handle_voice post sheet_secret now update = None <->
   forall m, Bot.message update = Some m -> Bot.message_voice m = None) /\
  (forall p a,
     Bot.handle_text post sheet_secret now update = Some (p, a) ->
     Bot.source p = "telegram_text" /\
     Bot.secret p = sheet_secret /\ Bot.timestamp p = now /\
     Bot.user_id p = Bot.user_of update /\
     PyStr.strip (Bot.raw_text p) = Bot.raw_text p /\
     (exists m t, Bot.message update = Some m /\ Bot.message_text m = Some t
                  /\ Bot.raw_text p = PyStr.strip t) /\
     a <> Bot.VoiceLogged /\
     (a = Bot.Logged <-> exists r, post p = inr r /\ (200 <= Bot.code r < 300)%Z)) /\
  (forall p a,
     Bot.handle_voice post sheet_secret now update = Some (p, a) ->
     Bot.source p = "telegram_voice" /\
     Bot.secret p = sheet_secret /\ Bot.timestamp p = now /\
     Bot.user_id p = Bot.user_of update /\
     (exists m v, Bot.message update = Some m /\ Bot.message_voice m = Some v
                  /\ Bot.raw_text p
                     = "[VOICE] duration_sec=" ++ Bot.str_int (Bot.duration v)
                         ++ " file_id=" ++ Bot.file_id v) /\
     a <> Bot.Logged /\
     (a = Bot.VoiceLogged <->
      exists r, post p = inr r /\ (200 <= Bot.code r < 300)%Z)).
Proof.
  unfold Bot.handle_text, Bot.handle_voice.
  destruct (Bot.message update) as [m|].
  2:{ repeat split; try discriminate. }
  split; [|split; [|split]].
  - destruct (Bot.message_text m) as [[|c t]|] eqn:T0; cbn [PyStr.is_empty].
    + split; [|reflexivity]. intros _ m0 t0 M T. injection M as <-.
      rewrite T0 in T. now injection T as <-.
    + destruct (Bot.post_to_sheet post _) as [ok dbg].
      split; [discriminate|]. intros H. specialize (H m (String c t) eq_refl T0).
      discriminate.
    + split; [|reflexivity]. intros _ m0 t0 M T. injection M as <-.
      rewrite T0 in T. discriminate.
  - destruct (Bot.message_voice m) as [v|] eqn:V0.
    + destruct (Bot.post_to_sheet post _) as [ok dbg].
      split; [discriminate|]. intros H. specialize (H m eq_refl).
      rewrite V0 in H. discriminate.
    + split; [|reflexivity]. intros _ m0 M. now injection M as <-.
  - intros p a H. destruct (Bot.message_text m) as [t|] eqn:T; [|discriminate].
    destruct (PyStr.is_empty t); [discriminate|].
    set (payload := Bot.mkPayload _ _ _ _ _) in H.
    pose proof (post_to_sheet_ok post payload) as OK.
    destruct (Bot.post_to_sheet post payload) as [ok dbg]. cbn [fst] in OK.
    injection H as <- <-. subst payload. cbn [Bot.source Bot.secret Bot.timestamp
      Bot.user_id Bot.raw_text] in *.
    repeat (split; [reflexivity|]). split; [apply strip_idem|].
    split; [now exists m, t|].
    split; [destruct ok; discriminate|].
    rewrite <- OK. destruct ok; split; try reflexivity; discriminate.
  - intros p a H. destruct (Bot.message_voice m) as [v|] eqn:V; [|discriminate].
    set (payload := Bot.mkPayload _ _ _ _ _) in H.
    pose proof (post_to_sheet_ok post payload) as OK.
    destruct (Bot.post_to_sheet post payload) as [ok dbg]. cbn [fst] in OK.
    injection H as <- <-. subst payload. cbn [Bot.source Bot.secret Bot.timestamp
      Bot.user_id Bot.raw_text] in *.
    repeat (split; [reflexivity|]).
    split; [now exists m, v|].
    split; [destruct ok; discriminate|].
    rewrite <- OK. destruct ok; split; try reflexivity; discriminate.
Qed.

End Handlers.
